(** * SilentSOS: emergency detection and alerting pipeline

    A shallow embedding of the scoring engine, the adaptive thresholds, the
    emergency routes and the notification service of the SilentSOS
    repository, with the properties its specification states about them.

    Conventions of the embedding:
    - a JavaScript value that comes from a request body, from a document or
      from a sensor reading is a [value]: a JSON value or [undefined], where
      no object has a key that shadows a method of [Object.prototype];
      reading a property of [undefined] or [null] raises, which the
      [result] monad records as [Throw];
    - JavaScript numbers are exact rationals ([Q]) extended with [NaN] and
      the two infinities ([jsnum]), and equalities between numbers are
      stated with [==]; the rounding of IEEE doubles is left out, except in
      [Double], which recomputes the thresholds on binary64 numbers;
    - the clock ([new Date().getHours()], [Date.now()],
      [new Date().toISOString()]) is an explicit argument;
    - Firestore collections are finite maps from document ids to documents
      (or lists where ids play no role); reads succeed; [add] and [update]
      succeed when the store accepts the data they are given, which it
      never does for data that holds [undefined] (the Admin SDK is set up
      without [ignoreUndefinedProperties]), and [update] also fails on a
      document that does not exist; what else the store refuses is left
      open;
    - the mail transport is an abstract world with a [sendMail] step. *)

From Stdlib Require Import QArith Qminmax Lqa ZArith List PrimFloat.
From stdpp Require Import base option strings list gmap.

Local Open Scope string_scope.
Local Open Scope Q_scope.

#[local] Set Warnings "-inexact-float".

(** ** Exceptions *)

Inductive result (A : Type) : Type :=
| Ok (a : A)
| Throw (e : string).
Arguments Ok {A} a.
Arguments Throw {A} e.

#[export] Instance result_ret : MRet result := @Ok.
#[export] Instance result_bind : MBind result :=
  λ A B f m, match m with Ok a => f a | Throw e => Throw e end.

Definition returns {A} (r : result A) : bool :=
  match r with Ok _ => true | Throw _ => false end.

Definition TypeError : string := "TypeError".

(** ** JavaScript values and numbers *)

#[local] Unset Elimination Schemes.
Inductive value : Type :=
| VUndefined
| VNull
| VBool (b : bool)
| VNum (q : Q)
| VStr (s : string)
| VObj (fields : list (string * value))
| VArr (items : list value).
#[local] Set Elimination Schemes.

Inductive jsnum : Type :=
| NaN
| Num (q : Q)
| PosInf
| NegInf.

(** [StringToNumber] of ECMAScript, which the embedding does not implement:
    it is an interface of the model. *)
Class StringToNumber := strToNumber : string → jsnum.

Definition Qltb (a b : Q) : bool := negb (Qle_bool b a).

Definition truthy (v : value) : bool :=
  match v with
  | VUndefined | VNull => false
  | VBool b => b
  | VNum q => negb (Qeq_bool q 0)
  | VStr s => negb (String.eqb s "")
  | VObj _ | VArr _ => true
  end.

Fixpoint lookupField (k : string) (fs : list (string * value)) : value :=
  match fs with
  | [] => VUndefined
  | (k', v) :: rest => if String.eqb k k' then v else lookupField k rest
  end.

(** [v.k] for the property names the program reads (none of them is
    inherited from a prototype, [length] apart). *)
Definition getProp (v : value) (k : string) : result value :=
  match v with
  | VUndefined | VNull => Throw TypeError
  | VObj fs => Ok (lookupField k fs)
  | VArr l => Ok (if String.eqb k "length" then VNum (inject_Z (Z.of_nat (length l))) else VUndefined)
  | VStr s => Ok (if String.eqb k "length" then VNum (inject_Z (Z.of_nat (String.length s))) else VUndefined)
  | VBool _ | VNum _ => Ok VUndefined
  end.

(** [v?.k] *)
Definition getPropOpt (v : value) (k : string) : value :=
  match getProp v k with Ok x => x | Throw _ => VUndefined end.

(** [ToNumber]; an array converts through its string form, so only the
    empty array and singletons can give a number. *)
Fixpoint toNumber `{StringToNumber} (v : value) : jsnum :=
  match v with
  | VUndefined => NaN
  | VNull => Num 0
  | VBool b => Num (if b then 1 else 0)
  | VNum q => Num q
  | VStr s => strToNumber s
  | VObj _ => NaN
  | VArr [] => Num 0
  | VArr [x] =>
      match x with
      | VUndefined | VNull => Num 0
      | VBool _ | VObj _ => NaN
      | _ => toNumber x
      end
  | VArr _ => NaN
  end.

Definition num_ltb (a b : jsnum) : bool :=
  match a, b with
  | NaN, _ | _, NaN => false
  | Num x, Num y => Qltb x y
  | NegInf, Num _ | NegInf, PosInf | Num _, PosInf => true
  | _, _ => false
  end.

Definition num_leb (a b : jsnum) : bool :=
  match a, b with
  | NaN, _ | _, NaN => false
  | Num x, Num y => Qle_bool x y
  | NegInf, _ | _, PosInf => true
  | _, _ => false
  end.

Definition num_add (a b : jsnum) : jsnum :=
  match a, b with
  | NaN, _ | _, NaN => NaN
  | Num x, Num y => Num (x + y)
  | PosInf, NegInf | NegInf, PosInf => NaN
  | PosInf, _ | _, PosInf => PosInf
  | NegInf, _ | _, NegInf => NegInf
  end.

Definition Qsign_pos (x : Q) : bool := Qltb 0 x.
Definition Qsign_neg (x : Q) : bool := Qltb x 0.

Definition num_mul (a b : jsnum) : jsnum :=
  match a, b with
  | NaN, _ | _, NaN => NaN
  | Num x, Num y => Num (x * y)
  | PosInf, PosInf | NegInf, NegInf => PosInf
  | PosInf, NegInf | NegInf, PosInf => NegInf
  | PosInf, Num x | Num x, PosInf =>
      if Qsign_pos x then PosInf else if Qsign_neg x then NegInf else NaN
  | NegInf, Num x | Num x, NegInf =>
      if Qsign_pos x then NegInf else if Qsign_neg x then PosInf else NaN
  end.

(** Division by a non-zero constant, the only division the program does. *)
Definition num_div (a : jsnum) (c : Q) : jsnum := num_mul a (Num (/ c)).

(** [Math.min] *)
Definition num_min (a b : jsnum) : jsnum :=
  match a, b with
  | NaN, _ | _, NaN => NaN
  | NegInf, _ | _, NegInf => NegInf
  | PosInf, x | x, PosInf => x
  | Num x, Num y => Num (Qmin x y)
  end.

(** Equality of numbers up to the representation of the rational. *)
Definition num_eq (a b : jsnum) : Prop :=
  match a, b with
  | NaN, NaN | PosInf, PosInf | NegInf, NegInf => True
  | Num x, Num y => x == y
  | _, _ => False
  end.

(** [v > c] and [v < c] against a numeric constant. *)
Definition js_gt `{StringToNumber} (v : value) (c : Q) : bool :=
  num_ltb (Num c) (toNumber v).
Definition js_lt `{StringToNumber} (v : value) (c : Q) : bool :=
  num_ltb (toNumber v) (Num c).

(** [v === 0] *)
Definition js_is_zero (v : value) : bool :=
  match v with VNum q => Qeq_bool q 0 | _ => false end.

(** [v !== s] for a string constant [s] *)
Definition js_strict_ne_str (v : value) (s : string) : bool :=
  match v with VStr t => negb (String.eqb t s) | _ => true end.

(** [v.toFixed(n)]: only a number has the method. *)
Definition toFixed (v : value) : result unit :=
  match v with VNum _ => Ok () | _ => Throw TypeError end.

(** [v.toLocaleString()]: every value but [undefined] and [null] has the
    method. *)
Definition toLocaleString (v : value) : result unit :=
  match v with VUndefined | VNull => Throw TypeError | _ => Ok () end.

(** [a && rhs], keeping only the truth value of the conjunction. *)
Definition js_and (a : value) (rhs : result bool) : result bool :=
  if truthy a then rhs else Ok false.

(** ** The clock *)

Record clock := {
  hours : Z;      (* new Date().getHours() *)
  nowMs : Q;      (* Date.now() *)
}.

(** ** Score breakdown *)

Record breakdown (N : Type) := {
  sensorScore : N;
  contextScore : N;
  locationScore : N;
  crowdScore : N;
  totalScore : N;
}.
Arguments sensorScore {N} _.
Arguments contextScore {N} _.
Arguments locationScore {N} _.
Arguments crowdScore {N} _.
Arguments totalScore {N} _.

(** [if (cond) { score += pts }] *)
Definition bump (cond : bool) (pts : Q) (score : Q) : Q :=
  if cond then score + pts else score.

(** ** server/services/emergencyDetection.js *)

Module Server.
Section Engine.
Context `{StringToNumber}.

Definition analyzeSensorData (sensorData : value) : result Q :=
  let score := 0 in
  (* Motion Analysis *)
  motion ← getProp sensorData "motion";
  score ←
    (if truthy motion then
       acceleration ← getProp motion "acceleration";
       suddenImpact ← getProp motion "suddenImpact";
       impact ← js_and suddenImpact
                  (magnitude ← getProp suddenImpact "magnitude"; Ok (js_gt magnitude 15));
       score ←
         (if impact : bool then
            magnitude ← getProp suddenImpact "magnitude";
            shown ← toFixed magnitude;
            Ok (score + 40)
          else Ok score);
       fall ← js_and acceleration
                (variance ← getProp acceleration "variance"; Ok (js_gt variance 10));
       let score := bump fall 25 score in
       stillnessDuration ← getProp motion "stillnessDuration";
       Ok (bump (js_gt stillnessDuration 300) 20 score)
     else Ok score);
  (* Audio Analysis *)
  audio ← getProp sensorData "audio";
  score ←
    (if truthy audio then
       silenceDuration ← getProp audio "silenceDuration";
       breathingIrregularity ← getProp audio "breathingIrregularity";
       distressSound ← getProp audio "distressSound";
       amplitude ← getProp audio "amplitude";
       let score := bump (js_gt silenceDuration 600) 30 score in
       let score := bump (js_gt breathingIrregularity 0.7) 25 score in
       distress ← js_and distressSound
                    (confidence ← getProp distressSound "confidence"; Ok (js_gt confidence 0.6));
       let score := bump distress 35 score in
       drop ← js_and amplitude
                (suddenDrop ← getProp amplitude "suddenDrop"; Ok (truthy suddenDrop));
       Ok (bump drop 15 score)
     else Ok score);
  (* Activity Analysis *)
  activity ← getProp sensorData "activity";
  score ←
    (if truthy activity then
       inactivityDuration ← getProp activity "inactivityDuration";
       Ok (bump (js_gt inactivityDuration 1800) 20 score)
     else Ok score);
  Ok (Qmin 100 score).

Definition lateNight (currentHour : Z) : bool :=
  (22 <=? currentHour)%Z || (currentHour <=? 6)%Z.

Definition analyzeContextData (clk : clock) (contextData : value) : result Q :=
  let score := 0 in
  let currentHour := hours clk in
  let score := bump (lateNight currentHour) 15 score in
  environment ← getProp contextData "environment";
  score ←
    (if truthy environment then
       noiseLevel ← getProp environment "noiseLevel";
       lightLevel ← getProp environment "lightLevel";
       temperature ← getProp environment "temperature";
       let score := bump (js_lt noiseLevel 0.2) 10 score in
       let score := bump (js_lt lightLevel 0.1) 8 score in
       Ok (bump (js_lt temperature 5 || js_gt temperature 35) 5 score)
     else Ok score);
  userPatterns ← getProp contextData "userPatterns";
  score ←
    (if truthy userPatterns then
       usualActivityLevel ← getProp userPatterns "usualActivityLevel";
       locationDeviation ← getProp userPatterns "locationDeviation";
       let score := bump (js_gt locationDeviation 0.8) 12 score in
       currentActivity ← getProp contextData "currentActivity";
       Ok (bump (js_gt usualActivityLevel 0.7 && js_lt currentActivity 0.2) 10 score)
     else Ok score);
  Ok (Qmin 100 score).

(** [zone?.distance || Infinity] *)
Definition distanceOrInfinity (zone : value) : jsnum :=
  let d := getPropOpt zone "distance" in
  if truthy d then toNumber d else PosInf.

Definition analyzeLocationData (location : value) : result Q :=
  let score := 0 in
  if negb (truthy location) then Ok 0 else
  isolation ← getProp location "isolation";
  score ←
    (if truthy isolation then
       nearbyPeople ← getProp isolation "nearbyPeople";
       publicPlace ← getProp isolation "publicPlace";
       cellTowerDistance ← getProp isolation "cellTowerDistance";
       let score := bump (js_is_zero nearbyPeople) 15 score in
       let score := bump (negb (truthy publicPlace)) 10 score in
       Ok (bump (js_gt cellTowerDistance 5000) 8 score)
     else Ok score);
  safeZones ← getProp location "safeZones";
  score ←
    (if truthy safeZones then
       nearestHospital ← getProp safeZones "nearestHospital";
       nearestPolice ← getProp safeZones "nearestPolice";
       nearestFireStation ← getProp safeZones "nearestFireStation";
       let minDistance :=
         num_min (distanceOrInfinity nearestHospital)
           (num_min (distanceOrInfinity nearestPolice)
                    (distanceOrInfinity nearestFireStation)) in
       if num_ltb minDistance (Num 1000) then Ok (score - 10)
       else if num_ltb (Num 10000) minDistance then Ok (score + 15)
       else Ok score
     else Ok score);
  Ok (Qmax 0 (Qmin 100 score)).

(** The callback of [crowdSignals.filter]. *)
Definition nearbyEmergency (clk : clock) (signal : value) : result bool :=
  distance ← getProp signal "distance";
  if negb (js_lt distance 500) then Ok false else
  emergencyScore ← getProp signal "emergencyScore";
  if negb (js_gt emergencyScore 60) then Ok false else
  timestamp ← getProp signal "timestamp";
  Ok (js_gt timestamp (nowMs clk - 300000)).

Fixpoint filterSignals (clk : clock) (signals : list value) : result (list value) :=
  match signals with
  | [] => Ok []
  | signal :: rest =>
      keep ← nearbyEmergency clk signal;
      kept ← filterSignals clk rest;
      Ok (if keep : bool then signal :: kept else kept)
  end.

Definition analyzeCrowdData (clk : clock) (crowdSignals : value) : result Q :=
  let score := 0 in
  len ← (if truthy crowdSignals then getProp crowdSignals "length" else Ok VUndefined);
  if negb (truthy crowdSignals) || js_is_zero len then Ok 0 else
  match crowdSignals with
  | VArr signals =>
      nearbyEmergencies ← filterSignals clk signals;
      let n := length nearbyEmergencies in
      let score := bump (0 <? n)%nat 20 score in
      let score := bump (3 <=? n)%nat 30 score in
      Ok (Qmin 100 score)
  | _ => Throw TypeError (* crowdSignals.filter is not a function *)
  end.

Definition weightedTotal (sensor context location crowd : Q) : Q :=
  Qmin 100 (sensor * 0.5 + context * 0.2 + location * 0.2 + crowd * 0.1).

Definition calculateEmergencyScore (clk : clock) (sensorData contextData location : value)
  : result (breakdown Q) :=
  sensorScore ← analyzeSensorData sensorData;
  contextScore ← analyzeContextData clk contextData;
  locationScore ← analyzeLocationData location;
  crowdSignals ← getProp contextData "crowdSignals";
  crowdScore ← analyzeCrowdData clk (if truthy crowdSignals then crowdSignals else VArr []);
  Ok {| sensorScore := sensorScore;
        contextScore := contextScore;
        locationScore := locationScore;
        crowdScore := crowdScore;
        totalScore := weightedTotal sensorScore contextScore locationScore crowdScore |}.

(** Inputs on which no statement of the engine raises: [sensorData] and
    [contextData] are present, an impact magnitude above the threshold is a
    number, and the crowd signals, if any, are a list without [null]
    entries. *)
Definition notNullish (v : value) : bool :=
  match v with VUndefined | VNull => false | _ => true end.

Definition impactShown (sensorData : value) : bool :=
  let magnitude :=
    getPropOpt (getPropOpt (getPropOpt sensorData "motion") "suddenImpact") "magnitude" in
  negb (js_gt magnitude 15) || match magnitude with VNum _ => true | _ => false end.

Definition crowdListed (contextData : value) : bool :=
  let crowdSignals := getPropOpt contextData "crowdSignals" in
  negb (truthy crowdSignals)
  || match crowdSignals with VArr signals => forallb notNullish signals | _ => false end.

Definition wellFormed (sensorData contextData : value) : bool :=
  notNullish sensorData && notNullish contextData
  && impactShown sensorData && crowdListed contextData.

End Engine.
End Server.

(** ** client/src/services/EmergencyDetector.js *)

Inductive level := safe | suspicious | emergency.

Module Client.

Record thresholds := {
  motionSensitivity : Q;
  audioSensitivity : Q;
  contextWeight : Q;
}.

(** The fields of an [EmergencyDetector] that the detector updates. *)
Record detector := {
  userThresholds : thresholds;
  falsePositiveCount : nat;
}.

(** The constructor. *)
Definition new : detector :=
  {| userThresholds := {| motionSensitivity := 1.0; audioSensitivity := 1.0; contextWeight := 1.0 |};
     falsePositiveCount := 0 |}.

Section Engine.
Context `{StringToNumber}.

(** [if (cond) { score += pts }] where [pts] is computed from a reading. *)
Definition add_if (cond : bool) (pts : jsnum) (score : jsnum) : jsnum :=
  if cond then num_add score pts else score.

Definition analyzeSensorData (sensorData : value) : result jsnum :=
  let score := Num 0 in
  (* MOTION ANALYSIS *)
  motion ← getProp sensorData "motion";
  score ←
    (if truthy motion then
       magnitude ← getProp motion "magnitude";
       suddenImpact ← getProp motion "suddenImpact";
       variance ← getProp motion "variance";
       stillnessDuration ← getProp motion "stillnessDuration";
       impact ← js_and suddenImpact
                  (m ← getProp suddenImpact "magnitude"; Ok (js_gt m 15));
       score ←
         (if impact : bool then
            m ← getProp suddenImpact "magnitude";
            let impactScore := num_min (Num 40) (num_mul (toNumber m) (Num 2)) in
            shown ← toFixed m;
            Ok (num_add score impactScore)
          else Ok score);
       let score :=
         add_if (js_gt variance 10)
           (num_min (Num 25) (num_mul (toNumber variance) (Num 2))) score in
       let score :=
         add_if (js_gt stillnessDuration 300000)
           (num_min (Num 20) (num_mul (num_div (toNumber stillnessDuration) 60000) (Num 2)))
           score in
       Ok (add_if (js_gt magnitude 20) (Num 30) score)
     else Ok score);
  (* AUDIO ANALYSIS *)
  audio ← getProp sensorData "audio";
  score ←
    (if truthy audio then
       silenceDuration ← getProp audio "silenceDuration";
       breathingIrregularity ← getProp audio "breathingIrregularity";
       distressSound ← getProp audio "distressSound";
       amplitude ← getProp audio "amplitude";
       let score :=
         add_if (js_gt silenceDuration 600000)
           (num_min (Num 30) (num_mul (num_div (toNumber silenceDuration) 60000) (Num 2)))
           score in
       let score := add_if (js_gt breathingIrregularity 0.7) (Num 25) score in
       distress ← js_and distressSound
                    (confidence ← getProp distressSound "confidence"; Ok (js_gt confidence 0.6));
       score ←
         (if distress : bool then
            confidence ← getProp distressSound "confidence";
            Ok (num_add score (num_mul (toNumber confidence) (Num 35)))
          else Ok score);
       drop ← js_and amplitude
                (suddenDrop ← getProp amplitude "suddenDrop"; Ok (truthy suddenDrop));
       let score := add_if drop (Num 15) score in
       loud ← js_and amplitude
                (current ← getProp amplitude "current"; Ok (js_gt current 0.8));
       Ok (add_if loud (Num 20) score)
     else Ok score);
  (* ACTIVITY ANALYSIS *)
  activity ← getProp sensorData "activity";
  score ←
    (if truthy activity then
       inactivityDuration ← getProp activity "inactivityDuration";
       Ok (add_if (js_gt inactivityDuration 1800000)
             (num_min (Num 20) (num_mul (num_div (toNumber inactivityDuration) 60000) (Num 0.5)))
             score)
     else Ok score)
  ;
  Ok (num_min (Num 100) score).

End Engine.

(** The weighted total of [calculateEmergencyScore], with the detector's
    thresholds applied. *)
Definition weightedTotal (t : thresholds) (sensor context location crowd : jsnum) : jsnum :=
  num_min (Num 100)
    (num_add
       (num_add
          (num_add
             (num_mul (num_mul sensor (Num 0.5)) (Num (motionSensitivity t)))
             (num_mul (num_mul context (Num 0.2)) (Num (contextWeight t))))
          (num_mul location (Num 0.2)))
       (num_mul crowd (Num 0.1))).

Definition clamp (lo hi x : Q) : Q := Qmax lo (Qmin hi x).

Definition updateThresholds (outcome : string) (d : detector) : detector :=
  let t := userThresholds d in
  let d :=
    if String.eqb outcome "false_positive" then
      let count := S (falsePositiveCount d) in
      (* Reduce sensitivity to prevent similar false positives *)
      let motion := motionSensitivity t * 0.95 in
      let audio := audioSensitivity t * 0.95 in
      (* If too many false positives, reduce context weight *)
      let context := if (5 <? count)%nat then contextWeight t * 0.9 else contextWeight t in
      {| userThresholds :=
           {| motionSensitivity := motion; audioSensitivity := audio; contextWeight := context |};
         falsePositiveCount := count |}
    else if String.eqb outcome "missed_emergency" then
      (* Increase sensitivity to catch similar emergencies *)
      {| userThresholds :=
           {| motionSensitivity := motionSensitivity t * 1.05;
              audioSensitivity := audioSensitivity t * 1.05;
              contextWeight := contextWeight t * 1.02 |};
         falsePositiveCount := falsePositiveCount d |}
    else d in
  (* Keep thresholds within reasonable bounds *)
  let t := userThresholds d in
  {| userThresholds :=
       {| motionSensitivity := clamp 0.3 2.0 (motionSensitivity t);
          audioSensitivity := clamp 0.3 2.0 (audioSensitivity t);
          contextWeight := clamp 0.5 1.5 (contextWeight t) |};
     falsePositiveCount := falsePositiveCount d |}.

(** [n] calls of [updateThresholds] with the same outcome. *)
Fixpoint feedback (outcome : string) (n : nat) (d : detector) : detector :=
  match n with
  | O => d
  | S n' => updateThresholds outcome (feedback outcome n' d)
  end.

(** The [level] field of the object [classifyEmergency] returns. *)
Definition classifyEmergency (score : jsnum) : level :=
  if num_leb (Num 70) score then emergency
  else if num_leb (Num 40) score then suspicious
  else safe.

End Client.

(** ** The thresholds on IEEE doubles

    [updateThresholds] again, on binary64 numbers, to compare the values the
    rationals give with the ones the program computes. *)

Module Double.

Record thresholds := {
  motionSensitivity : float;
  audioSensitivity : float;
  contextWeight : float;
}.

Record detector := {
  userThresholds : thresholds;
  falsePositiveCount : nat;
}.

Definition new : detector :=
  {| userThresholds := {| motionSensitivity := 1.0; audioSensitivity := 1.0; contextWeight := 1.0 |};
     falsePositiveCount := 0 |}%float.

(** [Math.min] and [Math.max] on numbers that are not NaN. *)
Definition min (a b : float) : float := if PrimFloat.ltb b a then b else a.
Definition max (a b : float) : float := if PrimFloat.ltb a b then b else a.

Definition clamp (lo hi x : float) : float := max lo (min hi x).

Definition updateThresholds (outcome : string) (d : detector) : detector :=
  let t := userThresholds d in
  let d :=
    if String.eqb outcome "false_positive" then
      let count := S (falsePositiveCount d) in
      let motion := (motionSensitivity t * 0.95)%float in
      let audio := (audioSensitivity t * 0.95)%float in
      let context :=
        if (5 <? count)%nat then (contextWeight t * 0.9)%float else contextWeight t in
      {| userThresholds :=
           {| motionSensitivity := motion; audioSensitivity := audio; contextWeight := context |};
         falsePositiveCount := count |}
    else if String.eqb outcome "missed_emergency" then
      {| userThresholds :=
           {| motionSensitivity := (motionSensitivity t * 1.05)%float;
              audioSensitivity := (audioSensitivity t * 1.05)%float;
              contextWeight := (contextWeight t * 1.02)%float |};
         falsePositiveCount := falsePositiveCount d |}
    else d in
  let t := userThresholds d in
  {| userThresholds :=
       {| motionSensitivity := clamp 0.3 2.0 (motionSensitivity t);
          audioSensitivity := clamp 0.3 2.0 (audioSensitivity t);
          contextWeight := clamp 0.5 1.5 (contextWeight t) |}%float;
     falsePositiveCount := falsePositiveCount d |}.

Fixpoint feedback (outcome : string) (n : nat) (d : detector) : detector :=
  match n with
  | O => d
  | S n' => updateThresholds outcome (feedback outcome n' d)
  end.

End Double.

(** ** client/src/contexts/SensorContext.js *)

Module SensorContext.

(** The status that [processSensorData] derives from [score.totalScore]. *)
Definition status (total : jsnum) : level :=
  if num_ltb (Num 70) total then emergency
  else if num_ltb (Num 40) total then suspicious
  else safe.

End SensorContext.

(** ** client/src/contexts/AuthContext.js *)

Module AuthContext.
Section Detection.
Context `{StringToNumber}.

(** [processRealSensorData], for the [sensorData.motion] the effect holds:
    the score and the status it sets. *)
Definition processRealSensorData (motion : value) : result (Q * level) :=
  let score := 0 in
  magnitude ← getProp motion "magnitude";
  let score := bump (js_gt magnitude 20) 40 score in
  variance ← getProp motion "variance";
  let score := bump (js_gt variance 10) 30 score in
  inactivityDuration ← getProp motion "inactivityDuration";
  let score := bump (js_gt inactivityDuration 30000) 30 score in
  let status :=
    if Qltb 70 score then emergency
    else if Qltb 40 score then suspicious
    else safe in
  Ok (score, status).

End Detection.
End AuthContext.

(** ** The document store and the outside world *)

(** A Firestore document, as [doc.data()] returns it. *)
Abbreviation doc := (list (string * value)).

(** [v === s] for a string [s] *)
Definition js_strict_eq_str (v : value) (s : string) : bool :=
  negb (js_strict_ne_str v s).

(** Writing a field of a document: an existing field is replaced in place,
    a new one is added. *)
Fixpoint setField (k : string) (v : value) (d : doc) : doc :=
  match d with
  | [] => [(k, v)]
  | (k', v') :: rest =>
      if String.eqb k k' then (k, v) :: rest else (k', v') :: setField k v rest
  end.

(** The merge that [DocumentReference.update] does. *)
Definition mergeFields (patch : doc) (d : doc) : doc :=
  fold_left (λ acc kv, setField kv.1 kv.2 acc) patch d.

(** A value that holds no [undefined], at any depth. *)
Fixpoint defined (v : value) : bool :=
  match v with
  | VUndefined => false
  | VNull | VBool _ | VNum _ | VStr _ => true
  | VObj fields =>
      (fix all (fs : list (string * value)) : bool :=
         match fs with
         | [] => true
         | f :: rest => defined f.2 && all rest
         end) fields
  | VArr items =>
      (fix all (l : list value) : bool :=
         match l with
         | [] => true
         | x :: rest => defined x && all rest
         end) items
  end.

Definition definedDoc (d : doc) : bool := defined (VObj d).

(** The error of a write the store refuses; its message is not modelled. *)
Definition WriteRefused : string := "write refused".

Record firestore := {
  emergencies : gmap string (list (string * value));
  learning_data : list (list (string * value));
  emergency_contacts : list (list (string * value));
  sos_events : list (list (string * value));
}.

Record mailOptions := {
  from : value;
  to : value;
  subject : string;
  html : string;
}.

Record recipient := {
  name : value;
  email : value;
  type : string;
}.

(** What the services reach outside the process: the mail transport, the
    environment, the text of the alert, which the embedding leaves
    abstract, and the validation the store applies to the data of an [add]
    and of an [update], of which the embedding knows only that it refuses
    [undefined]. [sendEmergencyNotifications] belongs to
    [services/notifications], which the route requires and whose errors it
    swallows. *)
Class Platform := {
  World : Type;
  sendMail : mailOptions → World → World * result unit;
  sendEmergencyNotifications : string → value → World → World;
  EMAIL_USER : value;
  alertText : recipient → string → value → value → string;
  validAdd : doc → bool;
  validUpdate : doc → bool;
  validAdd_defined : ∀ d, validAdd d = true → definedDoc d = true;
  validUpdate_defined : ∀ d, validUpdate d = true → definedDoc d = true;
}.

(** ** server/services/emergencyNotificationService.js *)

Module Notification.

Definition adminEmail : string := "kanijayachandran25@gmail.com".

Definition adminRecipient : recipient :=
  {| name := VStr "SilentSOS Admin"; email := VStr adminEmail; type := "admin" |}.

Inductive sendStatus := sent | failed_to_send.

Record detail := {
  d_recipient : value;
  d_status : sendStatus;
  d_type : string;
  d_error : option string;
}.

Record emailResults := {
  total : nat;
  successful : nat;
  failed : nat;
  details : list detail;
}.


(** The contact's email is the operator address. *)
Definition sharesAdminEmail (contact : doc) : bool :=
  js_strict_eq_str (lookupField "email" contact) adminEmail.

(** The test of [contactsSnapshot.forEach] on a contact. *)
Definition eligible (contact : doc) : bool :=
  let e := lookupField "email" contact in
  truthy e && js_strict_ne_str e adminEmail.

Definition contactRecipient (contact : doc) : recipient :=
  {| name := lookupField "name" contact;
     email := lookupField "email" contact;
     type := "emergency_contact" |}.

(** The body of [contactsSnapshot.forEach]. *)
Definition pushContact (recipients : list recipient) (contact : doc) : list recipient :=
  if eligible contact then recipients ++ [contactRecipient contact] else recipients.

(** Build recipient list *)
Definition buildRecipients (contacts : list doc) : list recipient :=
  fold_left pushContact contacts [adminRecipient].

(** [db.collection('emergency_contacts').where('userId', '==', userId).get()] *)
Definition contactsOf (db : firestore) (userId : string) : list doc :=
  List.filter (λ d, js_strict_eq_str (lookupField "userId" d) userId) (emergency_contacts db).

(** The active tracking records of a user, in the order in which the store
    returns them: the [sos_events] query without its limit. *)
Definition trackingOf (db : firestore) (userId : string) : list doc :=
  List.filter (λ d, js_strict_eq_str (lookupField "userId" d) userId
                    && js_strict_eq_str (lookupField "status" d) "active")
              (sos_events db).

(** [new Date(updatedAt)]: a [Date] object, whatever the field holds; the
    embedding keeps what it was built from. *)
Definition dateOf (updatedAt : value) : value := VObj [("date", updatedAt)].

(** The location built from a tracking record. *)
Definition locationFrom (locationDoc : doc) : value :=
  let severity := lookupField "severity" locationDoc in
  VObj [("latitude", lookupField "latitude" locationDoc);
        ("longitude", lookupField "longitude" locationDoc);
        ("accuracy", lookupField "accuracy" locationDoc);
        ("lastUpdate", dateOf (lookupField "updatedAt" locationDoc));
        ("severity", if truthy severity then severity else VStr "emergency")].

(** The [sos_events] query with [limit(1)], then the location built from
    [docs[0]]: the sort that follows the query sees one record at most and
    compares nothing. In [updatedAt?.toDate?.() || new Date(updatedAt)] a
    [toDate] property of a stored value is not a function (the values of
    the embedding hold none): calling it raises, the error is caught and no
    location is built. *)
Definition latestLocation (db : firestore) (userId : string) : option value :=
  match trackingOf db userId with
  | [] => None
  | locationDoc :: _ =>
      if Server.notNullish (getPropOpt (lookupField "updatedAt" locationDoc) "toDate")
      then None
      else Some (locationFrom locationDoc)
  end.

Section Service.
Context `{Platform}.

(** [generateEmergencyAlertHTML]: the text is [alertText]; the model keeps
    the property reads and method calls that can raise. *)
Definition generateEmergencyAlertHTML (r : recipient) (userId : string)
    (emergencyData locationData : value) : result string :=
  located ←
    (if truthy locationData then
       latitude ← getProp locationData "latitude";
       longitude ← getProp locationData "longitude";
       lastUpdate ← getProp locationData "lastUpdate";
       shownLat ← toFixed latitude;
       shownLon ← toFixed longitude;
       toLocaleString lastUpdate
     else Ok ());
  id ← getProp emergencyData "id";
  confidence ← getProp emergencyData "confidence";
  bd ← getProp emergencyData "breakdown";
  Ok (alertText r userId emergencyData locationData).

(** The state of the [for ... of recipients] loop: the world, the counters
    and the messages handed to [transporter.sendMail] so far. *)
Record loopState := {
  world : World;
  results : emailResults;
  outbox : list mailOptions;
}.

Definition recordSent (r : recipient) (res : emailResults) : emailResults :=
  {| total := total res;
     successful := S (successful res);
     failed := failed res;
     details := details res ++
       [ {| d_recipient := email r; d_status := sent; d_type := type r; d_error := None |} ] |}.

Definition recordFailed (r : recipient) (message : string) (res : emailResults) : emailResults :=
  {| total := total res;
     successful := successful res;
     failed := S (failed res);
     details := details res ++
       [ {| d_recipient := email r; d_status := failed_to_send; d_type := type r;
            d_error := Some message |} ] |}.

Definition mailFor (r : recipient) (htmlContent : string) : mailOptions :=
  {| from := EMAIL_USER; to := email r;
     subject := "URGENT: SilentSOS Emergency Detected";
     html := htmlContent |}.


(** One iteration: the [try] block and its [catch]. *)
Definition sendOne (userId : string) (emergencyData locationData : value)
    (st : loopState) (r : recipient) : loopState :=
  match generateEmergencyAlertHTML r userId emergencyData locationData with
  | Throw e =>
      {| world := world st; results := recordFailed r e (results st); outbox := outbox st |}
  | Ok htmlContent =>
      let mail := mailFor r htmlContent in
      let (w, outcome) := sendMail mail (world st) in
      match outcome with
      | Ok _ =>
          {| world := w; results := recordSent r (results st); outbox := outbox st ++ [mail] |}
      | Throw e =>
          {| world := w; results := recordFailed r e (results st); outbox := outbox st ++ [mail] |}
      end
  end.

(** Send emails *)
Definition dispatch (userId : string) (emergencyData locationData : value)
    (recipients : list recipient) (w : World) : loopState :=
  fold_left (sendOne userId emergencyData locationData) recipients
    {| world := w;
       results := {| total := length recipients; successful := 0; failed := 0; details := [] |};
       outbox := [] |}.

Inductive alertResult :=
| NoContacts                         (* success: false, emailsSent: 0 *)
| AlertsSent (emailed : emailResults) (locationIncluded : bool).

Definition is_null (v : value) : bool :=
  match v with VNull => true | _ => false end.

(** The recipients of an alert: none are built when the contacts query is
    empty, where [sendEmergencyAlert] returns early. *)
Definition resolveRecipients (db : firestore) (userId : string) : option (list recipient) :=
  match contactsOf db userId with
  | [] => None
  | contactsSnapshot => Some (buildRecipients contactsSnapshot)
  end.

Definition sendEmergencyAlert (db : firestore) (userId : string)
    (emergencyData locationData : value) (w : World)
  : World * alertResult * list mailOptions :=
  (* the default value of the parameter *)
  let locationData := match locationData with VUndefined => VNull | v => v end in
  match resolveRecipients db userId with
  | None => (w, NoContacts, [])
  | Some recipients =>
      (* Get user's current location if not provided *)
      let locationData :=
        if negb (truthy locationData) then
          match latestLocation db userId with
          | Some l => l
          | None => locationData
          end
        else locationData in
      let st := dispatch userId emergencyData locationData recipients w in
      (world st, AlertsSent (results st) (negb (is_null locationData)), outbox st)
  end.

End Service.
End Notification.

(** ** server/routes/emergency.js *)

Module Routes.

Record user := {
  uid : string;
  userEmail : value;
  isAnonymous : bool;
}.

Inductive response := Json (status : nat) (body : value).

(** [a || b] *)
Definition js_or (a b : value) : value := if truthy a then a else b.

(** The score object of a manual alert. *)
Definition manualBreakdown : value :=
  VObj [("sensorScore", VNum 0);
        ("contextScore", VNum 0);
        ("locationScore", VNum 0);
        ("crowdScore", VNum 0);
        ("totalScore", VNum 100);
        ("manual", VBool true);
        ("note", VStr "Manual emergency alert - 100% confidence")].

Definition manualScore : value :=
  VObj [("totalScore", VNum 100); ("breakdown", manualBreakdown)].

(** The object [calculateEmergencyScore] returns. *)
Definition breakdownObject (b : breakdown Q) : value :=
  VObj [("sensorScore", VNum (sensorScore b));
        ("contextScore", VNum (contextScore b));
        ("locationScore", VNum (locationScore b));
        ("crowdScore", VNum (crowdScore b));
        ("totalScore", VNum (totalScore b))].

Section Handlers.
Context `{StringToNumber} `{Platform}.

Record server := {
  db : firestore;
  mail : World;
  dashboard : list (string * value);   (* events emitted to the dashboard room *)
}.

Definition emit (event : string) (payload : value) (st : server) : server :=
  {| db := db st; mail := mail st; dashboard := dashboard st ++ [(event, payload)] |}.

(** Create emergency record *)
Definition record (isoNow : string) (u : user)
    (sensorData location contextData timestamp confidence bd manual : value) : doc :=
  [("userId", VStr (uid u));
   ("sensorData", sensorData);
   ("location", location);
   ("contextData", contextData);
   ("timestamp", js_or timestamp (VStr isoNow));
   ("confidence", confidence);
   ("breakdown", bd);
   ("status", VStr "active");
   ("resolved", VBool false);
   ("createdAt", VStr isoNow);
   ("userEmail", userEmail u);
   ("isAnonymous", VBool (isAnonymous u));
   ("manual", js_or manual (VBool false))].

(** The [try] block of [POST /report]; [docId] is the id Firestore gives
    the new document, [isoNow] is [new Date().toISOString()]. *)
Definition reportBody (clk : clock) (isoNow docId : string) (u : user) (body : value)
    (st : server) : result (server * response) :=
  sensorData ← getProp body "sensorData";
  location ← getProp body "location";
  contextData ← getProp body "contextData";
  timestamp ← getProp body "timestamp";
  manual ← getProp body "manual";
  let userId := uid u in
  (* Calculate emergency score (skip for manual alerts) *)
  emergencyScore ←
    (if truthy manual then Ok manualScore
     else b ← Server.calculateEmergencyScore clk sensorData contextData location;
          Ok (breakdownObject b));
  total ← getProp emergencyScore "totalScore";
  bd ← getProp emergencyScore "breakdown";
  let confidence := if truthy manual then VNum 100 else total in
  (* Create emergency record *)
  let emergencyData : doc :=
    record isoNow u sensorData location contextData timestamp confidence bd manual in
  (* db.collection('emergencies').add(emergencyData) *)
  if negb (validAdd emergencyData) then Throw WriteRefused else
  let store := db st in
  let store :=
    {| emergencies := <[docId := emergencyData]> (emergencies store);
       learning_data := learning_data store;
       emergency_contacts := emergency_contacts store;
       sos_events := sos_events store |} in
  let st := {| db := store; mail := mail st; dashboard := dashboard st |} in
  (* Emit real-time update to dashboard *)
  let withId := VObj (("id", VStr docId) :: emergencyData) in
  let st := emit "new-emergency" withId st in
  (* Send notifications to trusted contacts *)
  let w := sendEmergencyNotifications userId withId (mail st) in
  (* Send emergency alerts with live location to emergency contacts *)
  let alertData :=
    VObj (mergeFields emergencyData
            [("id", VStr docId); ("confidence", confidence); ("breakdown", bd);
             ("manual", js_or manual (VBool false))]) in
  let '(w, alertResult, _) := Notification.sendEmergencyAlert (db st) userId alertData location w in
  let st := {| db := db st; mail := w; dashboard := dashboard st |} in
  Ok (st, Json 200 (VObj [("success", VBool true);
                          ("emergencyId", VStr docId);
                          ("score", confidence);
                          ("breakdown", bd);
                          ("manual", js_or manual (VBool false))])).

Definition report (clk : clock) (isoNow docId : string) (u : user) (body : value)
    (st : server) : server * response :=
  match reportBody clk isoNow docId u body st with
  | Ok r => r
  | Throw e =>
      (st, Json 500 (VObj [("success", VBool false);
                           ("error", VStr "Failed to report emergency");
                           ("details", VStr e)]))
  end.

(** [db.collection('emergencies').doc(id).update(patch)]: fails on data
    the store refuses and on a document that does not exist. *)
Definition updateEmergency (id : string) (patch : doc) (store : firestore) : result firestore :=
  if negb (validUpdate patch) then Throw WriteRefused else
  match emergencies store !! id with
  | None => Throw "NOT_FOUND"
  | Some d =>
      Ok {| emergencies := <[id := mergeFields patch d]> (emergencies store);
            learning_data := learning_data store;
            emergency_contacts := emergency_contacts store;
            sos_events := sos_events store |}
  end.

(** The fields [POST /cancel] writes. *)
Definition cancelPatch (isoNow : string) (reason : value) : doc :=
  [("status", VStr "cancelled");
   ("cancelledAt", VStr isoNow);
   ("cancelReason", reason);
   ("resolved", VBool true)].

(** The learning record [POST /cancel] adds. *)
Definition cancelLearning (isoNow emergencyId : string) (u : user)
    (sensorSnapshot : value) : doc :=
  [("userId", VStr (uid u));
   ("emergencyId", VStr emergencyId);
   ("sensorSnapshot", sensorSnapshot);
   ("outcome", VStr "false_positive");
   ("timestamp", VStr isoNow)].

(** The fields [POST /resolve] writes. *)
Definition resolvePatch (isoNow : string) (u : user) (notes : value) : doc :=
  [("status", VStr "resolved");
   ("resolvedAt", VStr isoNow);
   ("resolvedBy", js_or (userEmail u) (VStr (uid u)));
   ("resolutionNotes", notes);
   ("resolved", VBool true)].

Definition addLearningData (d : doc) (store : firestore) : firestore :=
  {| emergencies := emergencies store;
     learning_data := learning_data store ++ [d];
     emergency_contacts := emergency_contacts store;
     sos_events := sos_events store |}.

(** The [try] block of [POST /cancel/:emergencyId]. *)
Definition cancelBody (isoNow emergencyId : string) (u : user) (body : value)
    (st : server) : result (server * response) :=
  reason ← getProp body "reason";
  sensorSnapshot ← getProp body "sensorSnapshot";
  let userId := uid u in
  (* Verify the emergency belongs to the authenticated user *)
  match emergencies (db st) !! emergencyId with
  | None => Ok (st, Json 404 (VObj [("error", VStr "Emergency not found")]))
  | Some emergencyData =>
      if js_strict_ne_str (lookupField "userId" emergencyData) userId then
        Ok (st, Json 403 (VObj [("error", VStr "You can only cancel your own emergencies")]))
      else
        (* Update emergency status *)
        store ← updateEmergency emergencyId (cancelPatch isoNow reason) (db st);
        (* Store learning data for adaptive algorithm *)
        let learning := cancelLearning isoNow emergencyId u sensorSnapshot in
        if truthy sensorSnapshot && negb (validAdd learning) then
          (* the refused [add] is caught; the update above is not undone *)
          Ok ({| db := store; mail := mail st; dashboard := dashboard st |},
              Json 500 (VObj [("error", VStr "Failed to cancel emergency")]))
        else
        let store := if truthy sensorSnapshot then addLearningData learning store else store in
        let st := {| db := store; mail := mail st; dashboard := dashboard st |} in
        (* Emit cancellation to dashboard *)
        let st := emit "emergency-cancelled"
                    (VObj [("emergencyId", VStr emergencyId); ("reason", reason)]) st in
        Ok (st, Json 200 (VObj [("success", VBool true)]))
  end.

Definition cancel (isoNow emergencyId : string) (u : user) (body : value)
    (st : server) : server * response :=
  match cancelBody isoNow emergencyId u body st with
  | Ok r => r
  | Throw _ => (st, Json 500 (VObj [("error", VStr "Failed to cancel emergency")]))
  end.

(** The [try] block of [POST /resolve/:emergencyId]. *)
Definition resolveBody (isoNow emergencyId : string) (u : user) (body : value)
    (st : server) : result (server * response) :=
  notes ← getProp body "notes";
  let resolvedBy := js_or (userEmail u) (VStr (uid u)) in
  store ← updateEmergency emergencyId (resolvePatch isoNow u notes) (db st);
  let st := {| db := store; mail := mail st; dashboard := dashboard st |} in
  (* Emit resolution to dashboard *)
  let st := emit "emergency-resolved"
              (VObj [("emergencyId", VStr emergencyId); ("resolvedBy", resolvedBy);
                     ("notes", notes)]) st in
  Ok (st, Json 200 (VObj [("success", VBool true)])).

Definition resolve (isoNow emergencyId : string) (u : user) (body : value)
    (st : server) : server * response :=
  match resolveBody isoNow emergencyId u body st with
  | Ok r => r
  | Throw _ => (st, Json 500 (VObj [("error", VStr "Failed to resolve emergency")]))
  end.

(** The [status] field of a stored emergency. *)
Definition statusOf (st : server) (emergencyId : string) : option value :=
  lookupField "status" <$> emergencies (db st) !! emergencyId.

(** The two requests that change the status of a reported emergency. *)
Inductive request :=
| Cancel (isoNow : string) (u : user) (body : value)
| Resolve (isoNow : string) (u : user) (body : value).

Definition handle (emergencyId : string) (st : server) (r : request) : server :=
  match r with
  | Cancel isoNow u body => (cancel isoNow emergencyId u body st).1
  | Resolve isoNow u body => (resolve isoNow emergencyId u body st).1
  end.

(** The statuses an emergency goes through under a sequence of requests. *)
Fixpoint history (emergencyId : string) (st : server) (rs : list request)
  : list (option value) :=
  match rs with
  | [] => []
  | r :: rest =>
      let st' := handle emergencyId st r in
      statusOf st' emergencyId :: history emergencyId st' rest
  end.

(** The fields a request asks to write. *)
Definition patchOf (r : request) : doc :=
  match r with
  | Cancel isoNow _ body => cancelPatch isoNow (getPropOpt body "reason")
  | Resolve isoNow u body => resolvePatch isoNow u (getPropOpt body "notes")
  end.

(** The request is accepted: it passes the checks of its route on the
    record (the body can be read and, for a cancellation, the record belongs
    to the caller) and the store accepts the fields it writes. *)
Definition accepted (record : doc) (r : request) : bool :=
  match r with
  | Cancel _ u body =>
      returns (getProp body "reason")
      && js_strict_eq_str (lookupField "userId" record) (uid u)
      && validUpdate (patchOf r)
  | Resolve _ _ body => returns (getProp body "notes") && validUpdate (patchOf r)
  end.

Definition statusSet (r : request) : string :=
  match r with Cancel _ _ _ => "cancelled" | Resolve _ _ _ => "resolved" end.

(** The fields a request writes. *)
Definition written (r : request) : list string :=
  match r with
  | Cancel _ _ _ => ["status"; "cancelledAt"; "cancelReason"; "resolved"]
  | Resolve _ _ _ => ["status"; "resolvedAt"; "resolvedBy"; "resolutionNotes"; "resolved"]
  end.

End Handlers.
End Routes.

(** ** client/src/services/RealSensorManager.js *)

Module RealSensor.

(** An entry of [motionHistory]. The magnitude is the square root the
    handler computes; the history keeps it as it is. *)
Record sample := {
  magnitude : jsnum;
  timestamp : Z;
}.

(** [now - entry.timestamp <= 2000] *)
Definition withinWindow (now : Z) (entry : sample) : bool :=
  (now - timestamp entry <=? 2000)%Z.

(** The push and the filter of [handleMotion]. *)
Definition pushSample (now : Z) (m : jsnum) (motionHistory : list sample) : list sample :=
  List.filter (withinWindow now) (motionHistory ++ [ {| magnitude := m; timestamp := now |} ]).

(** The loop that finds the last significant movement, from the last
    entry of the history backwards. *)
Fixpoint scanBack (now : Z) (fromLast : list sample) (inactivityDuration : Z) : Z :=
  match fromLast with
  | [] => inactivityDuration
  | entry :: earlier =>
      if num_ltb (Num 1.0) (magnitude entry) then inactivityDuration
      else scanBack now earlier (now - timestamp entry)
  end.

Definition inactivityDuration (now : Z) (motionHistory : list sample) : Z :=
  scanBack now (rev motionHistory) 0.

(** The object handed to the motion callback. The raw readings and the
    rounded magnitude and variance are arguments; the inactivity is a
    difference of two [Date.now()] values, which [Math.round] leaves as it
    is. *)
Definition motionData (acceleration accelerationIncludingGravity rotationRate
    magnitude variance interval : value) (inactivity now : Z) : value :=
  VObj [("acceleration", acceleration);
        ("accelerationIncludingGravity", accelerationIncludingGravity);
        ("rotationRate", rotationRate);
        ("magnitude", magnitude);
        ("variance", variance);
        ("inactivityDuration", VNum (inject_Z inactivity));
        ("timestamp", VNum (inject_Z now));
        ("interval", interval);
        ("dataSource", VStr "DeviceMotionEvent API");
        ("note", VStr "Derived from real device sensors")].

(** One [devicemotion] event: the new history and the reading computed
    from it, which the handler hands to the callback every 250 ms. *)
Definition handleMotion (acceleration accelerationIncludingGravity rotationRate
    magnitude variance interval : value) (m : jsnum) (now : Z)
    (motionHistory : list sample) : list sample * value :=
  let motionHistory := pushSample now m motionHistory in
  (motionHistory,
   motionData acceleration accelerationIncludingGravity rotationRate
     magnitude variance interval (inactivityDuration now motionHistory) now).

End RealSensor.

(** ** The countdown of SensorContext.js and AuthContext.js

    [triggerEmergency] and [cancelEmergency] (and their twins
    [triggerRealEmergency] and [cancelEmergency] of AuthContext.js), with
    the timer made explicit: an interval that has not been cleared may
    tick. *)

Module Countdown.

Record state := {
  sosCountdown : option Z;        (* null or the seconds left *)
  live : list nat;                (* the intervals not cleared *)
  windowInterval : option nat;    (* window.emergencyCountdownInterval *)
  nextInterval : nat;             (* the id the next setInterval returns *)
  alerts : nat;                   (* calls of sendEmergencyAlert *)
}.

Definition idle : state :=
  {| sosCountdown := None; live := []; windowInterval := None;
     nextInterval := 1; alerts := 0 |}.

Definition clearInterval (i : nat) (l : list nat) : list nat :=
  List.filter (λ j, negb (Nat.eqb j i)) l.

(** [triggerEmergency] *)
Definition trigger (st : state) : state :=
  let countdownInterval := nextInterval st in
  {| sosCountdown := Some 5%Z;
     live := countdownInterval :: live st;
     windowInterval := Some countdownInterval;
     nextInterval := S countdownInterval;
     alerts := alerts st |}.

(** [prev <= 1], where [null] compares as 0. *)
Definition expired (prev : option Z) : bool :=
  match prev with
  | Some n => (n <=? 1)%Z
  | None => true
  end.

(** One tick of the interval [i]: the updater passed to
    [setSosCountdown]. A cleared interval does not tick. *)
Definition tick (i : nat) (st : state) : state :=
  if negb (existsb (Nat.eqb i) (live st)) then st
  else if expired (sosCountdown st) then
    {| sosCountdown := None;
       live := clearInterval i (live st);
       windowInterval := windowInterval st;
       nextInterval := nextInterval st;
       alerts := S (alerts st) |}
  else
    {| sosCountdown := (λ prev, prev - 1)%Z <$> sosCountdown st;
       live := live st;
       windowInterval := windowInterval st;
       nextInterval := nextInterval st;
       alerts := alerts st |}.

(** [cancelEmergency], up to the feedback it stores. *)
Definition cancel (st : state) : state :=
  let cleared :=
    match windowInterval st with
    | Some i => if Nat.eqb i 0 then None else Some i
    | None => None
    end in
  {| sosCountdown := None;
     live := match cleared with Some i => clearInterval i (live st) | None => live st end;
     windowInterval := match cleared with Some _ => None | None => windowInterval st end;
     nextInterval := nextInterval st;
     alerts := alerts st |}.

Inductive event := Trigger | Tick (i : nat) | Cancel.

Definition step (st : state) (e : event) : state :=
  match e with
  | Trigger => trigger st
  | Tick i => tick i st
  | Cancel => cancel st
  end.

Definition run (st : state) (es : list event) : state := fold_left step es st.

Definition isTrigger (e : event) : bool :=
  match e with Trigger => true | _ => false end.

End Countdown.

(** ** The users routes (src/unnamed/part_000): the learning route *)

Module Users.

(** A document of the [users] collection: the profile fields, which the
    learning route does not read, and the two fields it writes. The
    thresholds, when present, hold three numbers. *)
Record userDoc := {
  profile : list (string * value);
  adaptiveThresholds : option Client.thresholds;
  lastLearningUpdate : option string;
}.

Record store := {
  users : gmap string userDoc;
  learning_data : list (list (string * value));
}.

Definition defaultThresholds : Client.thresholds :=
  {| Client.motionSensitivity := 1.0; Client.audioSensitivity := 1.0;
     Client.contextWeight := 1.0 |}.

(** Adjust thresholds based on outcome *)
Definition adjust (outcome : value) (t : Client.thresholds) : Client.thresholds :=
  if js_strict_eq_str outcome "false_positive" then
    {| Client.motionSensitivity := Client.motionSensitivity t * 0.95;
       Client.audioSensitivity := Client.audioSensitivity t * 0.95;
       Client.contextWeight := Client.contextWeight t |}
  else if js_strict_eq_str outcome "missed_emergency" then
    {| Client.motionSensitivity := Client.motionSensitivity t * 1.05;
       Client.audioSensitivity := Client.audioSensitivity t * 1.05;
       Client.contextWeight := Client.contextWeight t |}
  else t.

(** The record the route adds to [learning_data]. *)
Definition learningRecord (isoNow userId : string)
    (sensorSnapshot outcome emergencyId : value) : list (string * value) :=
  [("userId", VStr userId);
   ("sensorSnapshot", sensorSnapshot);
   ("outcome", outcome);
   ("emergencyId", emergencyId);
   ("timestamp", VStr isoNow)].

(** The fields the route writes to the user document. *)
Definition thresholdsPatch (isoNow : string) (t : Client.thresholds) : list (string * value) :=
  [("adaptiveThresholds",
    VObj [("motionSensitivity", VNum (Client.motionSensitivity t));
          ("audioSensitivity", VNum (Client.audioSensitivity t));
          ("contextWeight", VNum (Client.contextWeight t))]);
   ("lastLearningUpdate", VStr isoNow)].

Section Route.
Context `{Platform}.

(** The [try] block of [POST /learning/:userId], past [validateUserAccess]. *)
Definition learningBody (isoNow userId : string) (body : value) (st : store)
  : result (store * Routes.response) :=
  sensorSnapshot ← getProp body "sensorSnapshot";
  outcome ← getProp body "outcome";
  emergencyId ← getProp body "emergencyId";
  let added := learningRecord isoNow userId sensorSnapshot outcome emergencyId in
  (* db.collection('learning_data').add(...) *)
  if negb (validAdd added) then Throw WriteRefused else
  let learning := (learning_data st ++ [added])%list in
  (* Update user's adaptive thresholds *)
  match users st !! userId with
  | Some userData =>
      let currentThresholds :=
        match adaptiveThresholds userData with
        | Some t => t
        | None => defaultThresholds
        end in
      let currentThresholds := adjust outcome currentThresholds in
      if negb (validUpdate (thresholdsPatch isoNow currentThresholds)) then
        (* the refused [update] is caught; the record added above stays *)
        Ok ({| users := users st; learning_data := learning |},
            Routes.Json 500 (VObj [("error", VStr "Failed to store learning data")]))
      else
        Ok ({| users := <[userId := {| profile := profile userData;
                                       adaptiveThresholds := Some currentThresholds;
                                       lastLearningUpdate := Some isoNow |}]> (users st);
               learning_data := learning |},
            Routes.Json 200 (VObj [("success", VBool true)]))
  | None =>
      Ok ({| users := users st; learning_data := learning |},
          Routes.Json 200 (VObj [("success", VBool true)]))
  end.

(** [validateUserAccess], then the route. *)
Definition learning (isoNow : string) (u : Routes.user) (requestedUserId : string)
    (body : value) (st : store) : store * Routes.response :=
  if negb (String.eqb requestedUserId (Routes.uid u)) then
    (st, Routes.Json 403
           (VObj [("error", VStr "Forbidden: You can only access your own data")]))
  else
    match learningBody isoNow requestedUserId body st with
    | Ok r => r
    | Throw _ => (st, Routes.Json 500 (VObj [("error", VStr "Failed to store learning data")]))
    end.

(** [n] feedback requests of one user with the same body. *)
Fixpoint repeated (n : nat) (isoNow : string) (u : Routes.user) (body : value)
    (st : store) : store :=
  match n with
  | O => st
  | S n' => (learning isoNow u (Routes.uid u) body (repeated n' isoNow u body st)).1
  end.

End Route.
End Users.

(** ** Vocabulary of the properties *)

Module Facts.

(** A number that is not NaN and not negative; it may be infinite. *)
Definition nonnegative (x : jsnum) : Prop :=
  match x with
  | Num q => 0 <= q
  | PosInf => True
  | NaN | NegInf => False
  end.

(** The thresholds lie in the ranges [updateThresholds] clamps them to. *)
Definition inRange (t : Client.thresholds) : Prop :=
  0.3 <= Client.motionSensitivity t <= 2.0 ∧
  0.3 <= Client.audioSensitivity t <= 2.0 ∧
  0.5 <= Client.contextWeight t <= 1.5.

(** A sequence of outcomes fed to [updateThresholds], first to last. *)
Definition feedbackAll (outcomes : list string) (d : Client.detector) : Client.detector :=
  fold_left (λ d outcome, Client.updateThresholds outcome d) outcomes d.

(** The indicators of the simplified detector that fire on a reading. *)
Definition indicators `{StringToNumber} (motion : value) : list bool :=
  [js_gt (getPropOpt motion "magnitude") 20;
   js_gt (getPropOpt motion "variance") 10;
   js_gt (getPropOpt motion "inactivityDuration") 30000].

Definition firing (bs : list bool) : nat := length (List.filter id bs).

(** The fields the cancel and resolve routes write. *)
Definition lifecycleFields : list string :=
  ["status"; "cancelledAt"; "cancelReason"; "resolved";
   "resolvedAt"; "resolvedBy"; "resolutionNotes"].

(** Two versions of a record that differ in the lifecycle fields only. *)
Definition sameReport (before after : doc) : Prop :=
  ∀ k, k ∉ lifecycleFields → lookupField k after = lookupField k before.

(** A sequence of cancel and resolve requests, each with the emergency id of
    its URL, served first to last. *)
Definition serve `{StringToNumber} `{Platform} (st : Routes.server)
    (requests : list (string * Routes.request)) : Routes.server :=
  fold_left (λ st r, Routes.handle r.1 st r.2) requests st.

(** What cancel and resolve requests leave alone between two states of the
    server. *)
Definition undisturbed `{StringToNumber} `{Platform} (st st' : Routes.server) : Prop :=
  Routes.mail st' = Routes.mail st ∧
  emergency_contacts (Routes.db st') = emergency_contacts (Routes.db st) ∧
  sos_events (Routes.db st') = sos_events (Routes.db st) ∧
  learning_data (Routes.db st) `prefix_of` learning_data (Routes.db st') ∧
  Routes.dashboard st `prefix_of` Routes.dashboard st' ∧
  ∀ id, option_Forall2 sameReport
          (emergencies (Routes.db st) !! id) (emergencies (Routes.db st') !! id).

(** The thresholds the learning route starts from:
    [userData.adaptiveThresholds || { ... }]. *)
Definition thresholdsOf (userData : Users.userDoc) : Client.thresholds :=
  match Users.adaptiveThresholds userData with
  | Some t => t
  | None => Users.defaultThresholds
  end.

(** [n] times the factor [f]. *)
Fixpoint scaled (n : nat) (f x : Q) : Q :=
  match n with
  | O => x
  | S n' => scaled n' f x * f
  end.

End Facts.

(** ** Concrete inputs *)

Module Examples.

(** A [StringToNumber] that reads decimal digits only. *)
Fixpoint digitsValue (acc : Z) (s : string) : option Z :=
  match s with
  | EmptyString => Some acc
  | String c rest =>
      let n := Z.of_nat (Ascii.nat_of_ascii c) in
      if ((48 <=? n) && (n <=? 57))%Z then digitsValue (10 * acc + (n - 48)) rest else None
  end.

Definition digitsOnly : StringToNumber :=
  λ s, match digitsValue 0 s with Some z => Num (inject_Z z) | None => NaN end.

(** The reading of the scenario: strong motion, irregular movement, 35 s of
    inactivity, no audio. *)
Definition motionReading (inactivityField : string) : value :=
  VObj [("magnitude", VNum 20.5); ("variance", VNum 12); (inactivityField, VNum 35000)].

(** The sensor manager names the inactivity [inactivityDuration]
    (milliseconds). *)
Definition scenarioMotion : value := motionReading "inactivityDuration".

Definition scenario : value := VObj [("motion", scenarioMotion)].

Definition noon : clock := {| hours := 12; nowMs := 1700000000000 |}.

(** A fall as the server reads it: an impact followed by irregular
    motion. *)
Definition fall : value :=
  VObj [("motion", VObj [("suddenImpact", VObj [("magnitude", VNum 18)]);
                         ("acceleration", VObj [("variance", VNum 12)])])].

Definition fallBreakdown : breakdown Q :=
  {| sensorScore := 65; contextScore := 0; locationScore := 0; crowdScore := 0;
     totalScore := Server.weightedTotal 65 0 0 0 |}.


(** A transport whose second send fails, and a store that accepts the data
    that holds no [undefined]. The world counts the sends. *)
Definition flaky : Platform :=
  {| World := nat;
     sendMail := λ _ n, (S n, if Nat.eqb n 1 then Throw "ECONNREFUSED" else Ok ());
     sendEmergencyNotifications := λ _ _ n, n;
     EMAIL_USER := VStr "alerts@silentsos.example";
     alertText := λ _ _ _ _, "alert";
     validAdd := definedDoc;
     validUpdate := definedDoc;
     validAdd_defined := λ _ accepted, accepted;
     validUpdate_defined := λ _ accepted, accepted |}.

Definition contact (userId name email : string) : doc :=
  [("userId", VStr userId); ("name", VStr name); ("email", VStr email)].

Definition reported (userId : string) : doc :=
  [("userId", VStr userId);
   ("sensorData", scenario);
   ("status", VStr "active");
   ("resolved", VBool false);
   ("createdAt", VStr "2024-05-01T10:00:00.000Z")].

(** Alice has three contacts, one of them the operator; Erin has none. *)
Definition store : firestore :=
  {| emergencies := {[ "e1" := reported "alice" ]};
     learning_data := [];
     emergency_contacts :=
       [contact "alice" "Bob" "bob@example.org";
        contact "alice" "Kani" Notification.adminEmail;
        contact "dave" "Dan" "dan@example.org";
        contact "alice" "Carol" "carol@example.org"];
     sos_events := [] |}.

Definition alice : Routes.user :=
  {| Routes.uid := "alice"; Routes.userEmail := VStr "alice@example.org";
     Routes.isAnonymous := false |}.

Definition mallory : Routes.user :=
  {| Routes.uid := "mallory"; Routes.userEmail := VStr "mallory@example.org";
     Routes.isAnonymous := false |}.

Definition running : Routes.server (H0 := flaky) :=
  @Routes.Build_server flaky store 0%nat [].

(** A manual report that carries nothing the scoring engine could read. *)
Definition manualReport : value :=
  VObj [("manual", VBool true)].

Definition alertData : value :=
  VObj [("id", VStr "e1"); ("confidence", VNum 100)].



Definition falseAlarm : value := VObj [("reason", VStr "false alarm")].

Definition handled : value := VObj [("notes", VStr "checked by phone")].

End Examples.

Module Samples.

(** A clock at night. *)
Definition night : clock := {| hours := 23; nowMs := 1700000000000 |}.

(** Two crowd signals nearby, recent and alarming, and one far away. *)
Definition crowd : list value :=
  [VObj [("distance", VNum 120); ("emergencyScore", VNum 80); ("timestamp", VNum 1699999990000)];
   VObj [("distance", VNum 900); ("emergencyScore", VNum 95); ("timestamp", VNum 1699999990000)];
   VObj [("distance", VNum 300); ("emergencyScore", VNum 75); ("timestamp", VNum 1699999950000)]].

(** A reading far out of range. *)
Definition wildReading : value :=
  VObj [("motion", VObj [("variance", VNum 1000000); ("magnitude", VNum 25)]);
        ("audio", VObj [("distressSound", VObj [("confidence", VNum 5)])])].

Definition drifted : Client.detector :=
  {| Client.userThresholds :=
       {| Client.motionSensitivity := 7; Client.audioSensitivity := 0;
          Client.contextWeight := -1 |};
     Client.falsePositiveCount := 3 |}.

(** A position as the client's location service reports it. *)
Definition clientLocation : value :=
  VObj [("latitude", VNum 48.137154); ("longitude", VNum 11.576124);
        ("accuracy", VNum 12); ("timestamp", VNum 1700000000000);
        ("dataSource", VStr "Geolocation API")].

(** A caller who signed in anonymously: the token carries no email. *)
Definition guest : Routes.user :=
  {| Routes.uid := "guest"; Routes.userEmail := VUndefined; Routes.isAnonymous := true |}.

(** A manual report as the app sends it, with the position of the phone. *)
Definition positionedReport : value :=
  VObj [("sensorData", Examples.scenario); ("location", clientLocation);
        ("contextData", VObj []); ("timestamp", VStr "2024-05-01T12:00:00.000Z");
        ("confidence", VNum 100); ("manual", VBool true)].

(** An automatic report as the app sends it. *)
Definition automaticReport : value :=
  VObj [("sensorData", Examples.fall); ("location", clientLocation);
        ("contextData", VObj [("timestamp", VNum 1700000000000); ("timeOfDay", VNum 12);
                              ("note", VStr "Real sensor data only")]);
        ("timestamp", VStr "2024-05-01T12:00:00.000Z");
        ("confidence", VNum 70)].

(** An automatic report that carries a reading and nothing else. *)
Definition bareReport : value := VObj [("sensorData", Examples.fall)].

(** Alice has a profile and no thresholds yet. *)
Definition profiles : Users.store :=
  {| Users.users :=
       {[ "alice" := {| Users.profile := [("name", VStr "Alice")];
                        Users.adaptiveThresholds := None;
                        Users.lastLearningUpdate := None |} ]};
     Users.learning_data := [] |}.

Definition falsePositive : value :=
  VObj [("sensorSnapshot", Examples.scenario); ("outcome", VStr "false_positive");
        ("emergencyId", VStr "e1")].




Definition quietNight : breakdown Q :=
  {| sensorScore := 0; contextScore := 15; locationScore := 0; crowdScore := 0;
     totalScore := Server.weightedTotal 0 15 0 0 |}.

(** A place with a hospital at the given distance and nothing else known. *)
Definition nearHospital (d : Q) : value :=
  VObj [("safeZones", VObj [("nearestHospital", VObj [("distance", VNum d)])])].

End Samples.

(** * Properties *)

(** ** Comparisons *)

Lemma Qltb_lt (a b : Q) : Qltb a b = true ↔ a < b.
Proof.
  unfold Qltb. rewrite negb_true_iff, <- not_true_iff_false, Qle_bool_iff.
  split; [apply Qnot_le_lt | apply Qlt_not_le].
Qed.

Lemma Qltb_ge (a b : Q) : Qltb a b = false ↔ b <= a.
Proof. unfold Qltb. rewrite negb_false_iff. apply Qle_bool_iff. Qed.

Lemma Qle_bool_gt (a b : Q) : Qle_bool a b = false ↔ b < a.
Proof.
  rewrite <- not_true_iff_false, Qle_bool_iff.
  split; [apply Qnot_le_lt | apply Qlt_not_le].
Qed.

(** ** Classification *)

Lemma classifyEmergency_spec (t : Q) :
  Client.classifyEmergency (Num t) =
    if Qle_bool 70 t then emergency else if Qle_bool 40 t then suspicious else safe.
Proof. reflexivity. Qed.

(** [classifyEmergency] puts the boundary 70 on the emergency side. *)
Lemma classifyEmergency_cases (t : Q) :
  (t < 40 → Client.classifyEmergency (Num t) = safe) ∧
  (40 <= t → t < 70 → Client.classifyEmergency (Num t) = suspicious) ∧
  (70 <= t → Client.classifyEmergency (Num t) = emergency).
Proof.
  rewrite classifyEmergency_spec. repeat split.
  - intros Hlt. assert (H70 : t < 70) by lra.
    apply Qle_bool_gt in H70, Hlt. by rewrite H70, Hlt.
  - intros Hge Hlt. apply Qle_bool_gt in Hlt. apply Qle_bool_iff in Hge.
    by rewrite Hlt, Hge.
  - intros Hge. apply Qle_bool_iff in Hge. by rewrite Hge.
Qed.

(** [processSensorData] puts the boundary 40 on the safe side. *)
Lemma status_cases (t : Q) :
  (t <= 40 → SensorContext.status (Num t) = safe) ∧
  (40 < t → t <= 70 → SensorContext.status (Num t) = suspicious) ∧
  (70 < t → SensorContext.status (Num t) = emergency).
Proof.
  unfold SensorContext.status, num_ltb. repeat split.
  - intros Hle. assert (H70 : t <= 70) by lra.
    apply Qltb_ge in H70, Hle. by rewrite H70, Hle.
  - intros Hgt Hle. apply Qltb_ge in Hle. apply Qltb_lt in Hgt. by rewrite Hle, Hgt.
  - intros Hgt. apply Qltb_lt in Hgt. by rewrite Hgt.
Qed.

(** C1. The README gives "< 40 normal, 40-70 suspicious, > 70 emergency".
    The two classifiers of the client each move one boundary:
    [classifyEmergency] returns [emergency] at 70 (it tests [score >= 70]),
    and the status of [processSensorData] is [safe] at 40 (it tests
    [totalScore > 40]). Each agrees with the README on the other
    boundary. *)
Theorem classification_boundaries :
  Client.classifyEmergency (Num 70) = emergency ∧
  SensorContext.status (Num 40) = safe ∧
  Client.classifyEmergency (Num 40) = suspicious ∧
  SensorContext.status (Num 70) = suspicious.
Proof. repeat split; reflexivity. Qed.

(** ** Adaptive thresholds *)

Lemma clamp_lower (lo hi x : Q) : lo <= Client.clamp lo hi x.
Proof. unfold Client.clamp. apply Q.le_max_l. Qed.

Lemma clamp_upper (lo hi x : Q) : lo <= hi → Client.clamp lo hi x <= hi.
Proof.
  intros Hle. unfold Client.clamp. apply Q.max_lub; [exact Hle | apply Q.le_min_l].
Qed.

Lemma updateThresholds_motion_floor (outcome : string) (d : Client.detector) :
  0.3 <= Client.motionSensitivity (Client.userThresholds (Client.updateThresholds outcome d)).
Proof. unfold Client.updateThresholds. simpl. apply clamp_lower. Qed.

Lemma updateThresholds_bounds (outcome : string) (d : Client.detector) :
  let t := Client.userThresholds (Client.updateThresholds outcome d) in
  0.3 <= Client.motionSensitivity t <= 2.0 ∧
  0.3 <= Client.audioSensitivity t <= 2.0 ∧
  0.5 <= Client.contextWeight t <= 1.5.
Proof.
  unfold Client.updateThresholds. cbn [Client.userThresholds Client.motionSensitivity
    Client.audioSensitivity Client.contextWeight].
  repeat split; first [apply clamp_lower | apply clamp_upper; lra].
Qed.

Lemma feedback_motion_floor (outcome : string) (n : nat) :
  0.3 <= Client.motionSensitivity (Client.userThresholds (Client.feedback outcome n Client.new)).
Proof.
  destruct n as [|n]; simpl.
  - lra.
  - apply updateThresholds_motion_floor.
Qed.

Lemma feedback_count (n : nat) (d : Client.detector) :
  Client.falsePositiveCount (Client.feedback "false_positive" n d)
  = (n + Client.falsePositiveCount d)%nat.
Proof.
  induction n as [|n IH]; simpl; [reflexivity |].
  unfold Client.updateThresholds. simpl. by rewrite IH.
Qed.

(** On doubles the same values come out: the products by 1 are exact and
    the clamp returns the floor itself. *)
Lemma false_positive_feedback_double :
  let after n := Double.userThresholds (Double.feedback "false_positive" n Double.new) in
  (Double.motionSensitivity (after 1%nat) = 0.95 ∧
   Double.audioSensitivity (after 1%nat) = 0.95 ∧
   Double.contextWeight (after 1%nat) = 1.0 ∧
   Double.contextWeight (after 5%nat) = 1.0 ∧
   Double.contextWeight (after 6%nat) = 0.9 ∧
   Double.motionSensitivity (after 50%nat) = 0.3)%float.
Proof. cbv zeta. repeat split; vm_compute; reflexivity. Qed.

(** C6. From the default thresholds, one false positive gives motion and
    audio sensitivity 0.95 and leaves the context weight at 1; the context
    weight is still 1 after five false positives and is 0.9 after the
    sixth, when the sensitivities are 0.95^6; after fifty false positives
    the motion sensitivity is the floor 0.3, and it is never below the
    floor after any number of them. *)
Theorem false_positive_feedback :
  let after n := Client.userThresholds (Client.feedback "false_positive" n Client.new) in
  Client.motionSensitivity (after 1%nat) == 0.95 ∧
  Client.audioSensitivity (after 1%nat) == 0.95 ∧
  Client.contextWeight (after 1%nat) == 1 ∧
  Client.contextWeight (after 5%nat) == 1 ∧
  Client.contextWeight (after 6%nat) == 0.9 ∧
  Client.motionSensitivity (after 6%nat) == 0.95 ^ 6 ∧
  Client.audioSensitivity (after 6%nat) == 0.95 ^ 6 ∧
  Client.motionSensitivity (after 50%nat) == 0.3 ∧
  ∀ n, 0.3 <= Client.motionSensitivity (after n).
Proof.
  cbv zeta. repeat split; try (vm_compute; reflexivity).
  intros n. apply feedback_motion_floor.
Qed.

(** ** The scenario of the specification *)

Lemma scenario_client `{StringToNumber} :
  Client.analyzeSensorData Examples.scenario = Ok (Num 54).
Proof. reflexivity. Qed.

Lemma scenario_server `{StringToNumber} :
  Server.analyzeSensorData Examples.scenario = Ok 0.
Proof. reflexivity. Qed.

(** C2, as stated, fails on both scoring engines: neither returns a sensor
    score of 100 for the scenario, under either name of the inactivity
    field. *)
Lemma scenario_sensorScore_not_100 :
  Forall (λ field,
            let reading := VObj [("motion", Examples.motionReading field)] in
            ¬ (∃ s, Client.analyzeSensorData (H := Examples.digitsOnly) reading = Ok s
                    ∧ num_eq s (Num 100)) ∧
            ¬ (∃ s, Server.analyzeSensorData (H := Examples.digitsOnly) reading = Ok s
                    ∧ s == 100))
    ["inactivityDuration"; "inactivityDurationMs"].
Proof.
  repeat constructor; intros (s & Hs & Heq); vm_compute in Hs;
    injection Hs as <-; simpl in Heq; lra.
Qed.

(** C2, amended. For the scenario (magnitude 20.5, variance 12, 35 s of
    inactivity, no audio) the simplified detector of [AuthContext] gives
    the score 40 + 30 + 30 = 100 and the status [emergency]. The scoring
    engine does not read [motion.inactivityDuration]: its sensor score is
    54 on the client (24 for the variance, 30 for the magnitude) and 0 on
    the server, and with the default thresholds the client's sensor term
    of the total is 27, which [classifyEmergency] calls [safe]. *)
Theorem scenario_scores `{StringToNumber} :
  AuthContext.processRealSensorData Examples.scenarioMotion = Ok (100, emergency) ∧
  Client.analyzeSensorData Examples.scenario = Ok (Num 54) ∧
  Server.analyzeSensorData Examples.scenario = Ok 0 ∧
  num_eq (Client.weightedTotal (Client.userThresholds Client.new)
            (Num 54) (Num 0) (Num 0) (Num 0)) (Num 27) ∧
  Client.classifyEmergency
    (Client.weightedTotal (Client.userThresholds Client.new)
       (Num 54) (Num 0) (Num 0) (Num 0)) = safe.
Proof. repeat split; vm_compute; reflexivity. Qed.

(** With a sensor score of 54, default thresholds and no crowd signals
    (the client passes none), no context and location scores within
    [0, 100] bring the client's total to 70. *)
Lemma scenario_client_total_below_70 (c l : Q) :
  0 <= c <= 100 → 0 <= l <= 100 →
  ∃ t, Client.weightedTotal (Client.userThresholds Client.new)
         (Num 54) (Num c) (Num l) (Num 0) = Num t ∧ t < 70.
Proof.
  intros Hc Hl. unfold Client.weightedTotal. simpl. eexists. split; [reflexivity |].
  apply Q.min_lt_iff. right. lra.
Qed.

(** ** The weighted total of the server *)

Lemma bind_Ok {A B} (m : result A) (f : A → result B) (b : B) :
  m ≫= f = Ok b → ∃ a, m = Ok a ∧ f a = Ok b.
Proof. destruct m as [a|e]; simpl; [eauto | discriminate]. Qed.

Lemma bump_nonneg (cond : bool) (pts score : Q) :
  0 <= pts → 0 <= score → 0 <= bump cond pts score.
Proof. intros Hp Hs. unfold bump. destruct cond; lra. Qed.

Lemma Qmin_100_bounds (score : Q) : 0 <= score → 0 <= Qmin 100 score <= 100.
Proof.
  intros Hs. split; [apply Q.min_glb; lra | apply Q.le_min_l].
Qed.

(** Takes a successful run apart, one statement at a time. *)
Ltac run_ok H :=
  lazymatch type of H with
  | Ok _ = Ok _ => injection H as H; try subst
  | Throw _ = Ok _ => discriminate H
  | (_ ≫= _) = Ok _ =>
      let a := fresh "a" in
      let Ha := fresh "Ha" in
      apply bind_Ok in H; destruct H as (a & Ha & H); run_ok Ha; run_ok H
  | (if ?c then _ else _) = Ok _ =>
      let Hc := fresh "Hc" in destruct c eqn:Hc; run_ok H
  | js_and _ _ = Ok _ => unfold js_and in H; run_ok H
  | _ => idtac
  end.

Ltac score_nonneg :=
  repeat first [ apply bump_nonneg | lra ].

Section ServerBounds.
Context `{StringToNumber}.

Lemma analyzeSensorData_bounds (sensorData : value) (s : Q) :
  Server.analyzeSensorData sensorData = Ok s → 0 <= s <= 100.
Proof.
  unfold Server.analyzeSensorData. intros Hrun. run_ok Hrun;
    apply Qmin_100_bounds; score_nonneg.
Qed.

Lemma analyzeContextData_bounds (clk : clock) (contextData : value) (s : Q) :
  Server.analyzeContextData clk contextData = Ok s → 0 <= s <= 100.
Proof.
  unfold Server.analyzeContextData. intros Hrun. run_ok Hrun;
    apply Qmin_100_bounds; score_nonneg.
Qed.

Lemma analyzeLocationData_bounds (location : value) (s : Q) :
  Server.analyzeLocationData location = Ok s → 0 <= s <= 100.
Proof.
  unfold Server.analyzeLocationData. intros Hrun.
  destruct (truthy location); simpl in Hrun.
  - run_ok Hrun;
      (split; [apply Q.le_max_l | apply Q.max_lub; [lra | apply Q.le_min_l]]).
  - injection Hrun as <-. lra.
Qed.

Lemma analyzeCrowdData_bounds (clk : clock) (crowdSignals : value) (s : Q) :
  Server.analyzeCrowdData clk crowdSignals = Ok s → 0 <= s <= 100.
Proof.
  unfold Server.analyzeCrowdData. intros Hrun.
  apply bind_Ok in Hrun. destruct Hrun as (len & _ & Hrun).
  destruct (negb (truthy crowdSignals) || js_is_zero len).
  - injection Hrun as <-. lra.
  - destruct crowdSignals; try discriminate Hrun.
    run_ok Hrun. apply Qmin_100_bounds. score_nonneg.
Qed.

Lemma weightedTotal_bounds (s c l cr : Q) :
  0 <= s → 0 <= c → 0 <= l → 0 <= cr →
  0 <= Server.weightedTotal s c l cr <= 100.
Proof.
  intros Hs Hc Hl Hcr. unfold Server.weightedTotal.
  split; [apply Q.min_glb; lra | apply Q.le_min_l].
Qed.

Lemma calculateEmergencyScore_inv (clk : clock) (sensorData contextData location : value)
    (b : breakdown Q) :
  Server.calculateEmergencyScore clk sensorData contextData location = Ok b →
  Server.analyzeSensorData sensorData = Ok (sensorScore b) ∧
  Server.analyzeContextData clk contextData = Ok (contextScore b) ∧
  Server.analyzeLocationData location = Ok (locationScore b) ∧
  (∃ crowdSignals, Server.analyzeCrowdData clk crowdSignals = Ok (crowdScore b)) ∧
  totalScore b = Server.weightedTotal (sensorScore b) (contextScore b)
                   (locationScore b) (crowdScore b).
Proof.
  unfold Server.calculateEmergencyScore. intros Hrun.
  apply bind_Ok in Hrun. destruct Hrun as (s & Hs & Hrun).
  apply bind_Ok in Hrun. destruct Hrun as (c & Hc & Hrun).
  apply bind_Ok in Hrun. destruct Hrun as (l & Hl & Hrun).
  apply bind_Ok in Hrun. destruct Hrun as (signals & _ & Hrun).
  apply bind_Ok in Hrun. destruct Hrun as (cr & Hcr & Hrun).
  injection Hrun as <-. simpl. eauto 10.
Qed.

Lemma weightedTotal_mono (s s' c c' l l' cr cr' : Q) :
  s <= s' → c <= c' → l <= l' → cr <= cr' →
  Server.weightedTotal s c l cr <= Server.weightedTotal s' c' l' cr'.
Proof.
  intros Hs Hc Hl Hcr. unfold Server.weightedTotal.
  apply Q.min_le_compat_l. lra.
Qed.

End ServerBounds.

(** *** The engine returns on well-formed inputs *)

Lemma getProp_notNullish (v : value) (k : string) :
  Server.notNullish v = true → getProp v k = Ok (getPropOpt v k).
Proof. unfold getPropOpt. destruct v; simpl; try discriminate; reflexivity. Qed.

Lemma truthy_notNullish (v : value) : truthy v = true → Server.notNullish v = true.
Proof. destruct v; simpl; try discriminate; reflexivity. Qed.

Lemma getProp_truthy (v : value) (k : string) :
  truthy v = true → getProp v k = Ok (getPropOpt v k).
Proof. intros Hv. apply getProp_notNullish. by apply truthy_notNullish. Qed.

(** Runs the statements of an analysis that cannot raise. *)
Ltac run_through :=
  repeat first
    [ match goal with
      | Hv : truthy ?v = true |- context [getProp ?v ?k] => rewrite (getProp_truthy v k Hv)
      | Hv : Server.notNullish ?v = true |- context [getProp ?v ?k] =>
          rewrite (getProp_notNullish v k Hv)
      | |- context [js_and ?v _] => unfold js_and
      | |- context [if truthy ?v then _ else _] => destruct (truthy v) eqn:?
      | |- ∃ _, Ok _ = Ok _ => eexists; reflexivity
      end
    | progress simpl ].

Section ServerReturns.
Context `{StringToNumber}.

Lemma analyzeSensorData_returns (sensorData : value) :
  Server.notNullish sensorData = true →
  Server.impactShown sensorData = true →
  ∃ s, Server.analyzeSensorData sensorData = Ok s.
Proof.
  intros Hpresent Himpact. unfold Server.analyzeSensorData, Server.impactShown in *.
  run_through;
    try match goal with
        | |- context [toFixed ?magnitude] =>
            destruct (js_gt magnitude 15) eqn:Hgt;
            [ simpl in Himpact; destruct magnitude; try discriminate Himpact | ];
            run_through
        end.
Qed.

Lemma analyzeContextData_returns (clk : clock) (contextData : value) :
  Server.notNullish contextData = true →
  ∃ s, Server.analyzeContextData clk contextData = Ok s.
Proof. intros Hpresent. unfold Server.analyzeContextData. run_through. Qed.

Lemma analyzeLocationData_returns (location : value) :
  ∃ s, Server.analyzeLocationData location = Ok s.
Proof.
  unfold Server.analyzeLocationData.
  destruct (truthy location) eqn:Hlocation; simpl; [| eauto].
  run_through;
    repeat (match goal with |- context [if ?b then _ else _] => destruct b end;
            run_through).
Qed.

Lemma filterSignals_returns (clk : clock) (signals : list value) :
  forallb Server.notNullish signals = true →
  ∃ kept, Server.filterSignals clk signals = Ok kept.
Proof.
  induction signals as [|signal signals IH]; simpl; [eauto |].
  intros Hall. apply andb_true_iff in Hall. destruct Hall as [Hsignal Hall].
  destruct (IH Hall) as [kept ->]. unfold Server.nearbyEmergency.
  run_through;
    repeat (match goal with |- context [if ?b then _ else _] => destruct b end;
            run_through).
Qed.

Lemma analyzeCrowdData_returns (clk : clock) (crowdSignals : value) :
  match crowdSignals with
  | VArr signals => forallb Server.notNullish signals
  | _ => false
  end = true →
  ∃ s, Server.analyzeCrowdData clk crowdSignals = Ok s.
Proof.
  intros Hlisted. destruct crowdSignals as [| | | | | |signals]; try discriminate Hlisted.
  unfold Server.analyzeCrowdData. simpl.
  destruct (Qeq_bool _ 0); [eauto |].
  destruct (filterSignals_returns clk signals Hlisted) as [kept ->]. simpl. eauto.
Qed.

Lemma calculateEmergencyScore_returns (clk : clock) (sensorData contextData location : value) :
  Server.wellFormed sensorData contextData = true →
  ∃ b, Server.calculateEmergencyScore clk sensorData contextData location = Ok b.
Proof.
  unfold Server.wellFormed. rewrite !andb_true_iff.
  intros [[[Hsensor Hcontext] Himpact] Hcrowd].
  unfold Server.calculateEmergencyScore.
  destruct (analyzeSensorData_returns sensorData Hsensor Himpact) as [s ->].
  destruct (analyzeContextData_returns clk contextData Hcontext) as [c ->].
  destruct (analyzeLocationData_returns location) as [l ->].
  rewrite (getProp_notNullish contextData "crowdSignals" Hcontext). simpl.
  unfold Server.crowdListed in Hcrowd.
  destruct (truthy (getPropOpt contextData "crowdSignals")) eqn:Htruthy; simpl in Hcrowd.
  - destruct (analyzeCrowdData_returns clk _ Hcrowd) as [cr ->]. simpl. eauto.
  - simpl. eauto.
Qed.

End ServerReturns.

(** C7. Whenever the server's [calculateEmergencyScore] returns a
    breakdown, its total is the weighted total of the four sub-scores and
    lies in [0, 100]; and the weighted total does not decrease when one
    sub-score grows and the other three are held fixed. *)
Theorem totalScore_bounded_monotone `{StringToNumber}
    (clk : clock) (sensorData contextData location : value) (b : breakdown Q)
    (x x' s c l cr : Q) :
  Server.calculateEmergencyScore clk sensorData contextData location = Ok b →
  x <= x' →
  (0 <= totalScore b <= 100 ∧
   totalScore b = Server.weightedTotal (sensorScore b) (contextScore b)
                    (locationScore b) (crowdScore b)) ∧
  Server.weightedTotal x c l cr <= Server.weightedTotal x' c l cr ∧
  Server.weightedTotal s x l cr <= Server.weightedTotal s x' l cr ∧
  Server.weightedTotal s c x cr <= Server.weightedTotal s c x' cr ∧
  Server.weightedTotal s c l x <= Server.weightedTotal s c l x'.
Proof.
  intros Hrun Hle.
  destruct (calculateEmergencyScore_inv _ _ _ _ _ Hrun)
    as (Hs & Hc & Hl & (signals & Hcr) & Htotal).
  apply analyzeSensorData_bounds in Hs. apply analyzeContextData_bounds in Hc.
  apply analyzeLocationData_bounds in Hl. apply analyzeCrowdData_bounds in Hcr.
  split; [split; [| exact Htotal] |].
  - rewrite Htotal. apply weightedTotal_bounds; tauto.
  - repeat split; apply weightedTotal_mono; lra.
Qed.

Lemma totalScore_bounded_monotone_witness :
  0 <= totalScore Examples.fallBreakdown <= 100 ∧
  Server.weightedTotal 40 10 10 0 <= Server.weightedTotal 65 10 10 0.
Proof.
  destruct (totalScore_bounded_monotone (H := Examples.digitsOnly) Examples.noon
              Examples.fall (VObj []) VNull Examples.fallBreakdown 40 65 0 10 10 0)
    as ((Hbounds & _) & Hmono & _); [reflexivity | lra |].
  split; [exact Hbounds | exact Hmono].
Defined.

(** ** Missing and malformed inputs *)

Lemma missing_parts_contribute_zero `{StringToNumber} (clk : clock) :
  ∃ b, Server.calculateEmergencyScore clk (VObj []) (VObj []) VUndefined = Ok b ∧
       sensorScore b = 0 ∧ locationScore b = 0 ∧ crowdScore b = 0 ∧
       contextScore b = Qmin 100 (bump (Server.lateNight (hours clk)) 15 0).
Proof. eexists. split; [reflexivity |]. repeat split. Qed.

(** A [null] reading is not a missing one: it compares as zero. *)
Lemma null_readings_score `{StringToNumber} :
  Server.analyzeContextData Examples.noon
    (VObj [("environment",
            VObj [("noiseLevel", VNull); ("lightLevel", VNull); ("temperature", VNull)])])
  = Ok 23.
Proof. reflexivity. Qed.

(** A numeric string passes the comparison and then has no [toFixed]. *)
Lemma string_magnitude_throws :
  Server.analyzeSensorData (H := Examples.digitsOnly)
    (VObj [("motion", VObj [("suddenImpact", VObj [("magnitude", VStr "20")])])])
  = Throw TypeError.
Proof. reflexivity. Qed.

(** C8. [calculateEmergencyScore] reads [contextData.environment] and
    [sensorData.motion] without testing its argument first, unlike
    [analyzeLocationData], which returns 0 for a missing location: on a
    missing or [null] [contextData] or [sensorData] it throws. So it does
    on crowd signals that are not a list of objects. *)
Theorem calculateEmergencyScore_throws `{StringToNumber} (clk : clock) :
  Server.calculateEmergencyScore clk (VObj []) VUndefined VNull = Throw TypeError ∧
  Server.calculateEmergencyScore clk (VObj []) VNull VNull = Throw TypeError ∧
  Server.calculateEmergencyScore clk VUndefined (VObj []) VNull = Throw TypeError ∧
  Server.calculateEmergencyScore clk (VObj []) (VObj [("crowdSignals", VArr [VNull])]) VNull
    = Throw TypeError ∧
  Server.calculateEmergencyScore clk (VObj []) (VObj [("crowdSignals", VNum 5)]) VNull
    = Throw TypeError.
Proof. repeat split; reflexivity. Qed.

(** ** Recipients *)

Lemma fold_pushContact (contacts : list doc) (acc : list recipient) :
  fold_left Notification.pushContact contacts acc
  = (acc ++ map Notification.contactRecipient
              (List.filter Notification.eligible contacts))%list.
Proof.
  revert acc. induction contacts as [|c contacts IH]; intros acc; simpl.
  - by rewrite app_nil_r.
  - rewrite IH. unfold Notification.pushContact.
    destruct (Notification.eligible c); simpl; [by rewrite <- app_assoc | done].
Qed.

Lemma buildRecipients_spec (contacts : list doc) :
  Notification.buildRecipients contacts
  = Notification.adminRecipient
      :: map Notification.contactRecipient (List.filter Notification.eligible contacts).
Proof. unfold Notification.buildRecipients. by rewrite fold_pushContact. Qed.

Lemma sharesAdminEmail_not_eligible (c : doc) :
  Notification.sharesAdminEmail c = true → Notification.eligible c = false.
Proof.
  unfold Notification.sharesAdminEmail, Notification.eligible, js_strict_eq_str.
  intros Hshare. apply negb_true_iff in Hshare. rewrite Hshare. apply andb_false_r.
Qed.

Lemma eligible_count (contacts : list doc) :
  Forall (λ c, truthy (lookupField "email" c) = true) contacts →
  (length (List.filter Notification.eligible contacts)
   + length (List.filter Notification.sharesAdminEmail contacts))%nat = length contacts.
Proof.
  induction 1 as [|c contacts Hc _ IH]; simpl; [reflexivity |].
  unfold Notification.eligible at 1, Notification.sharesAdminEmail at 1, js_strict_eq_str.
  rewrite Hc. simpl.
  destruct (js_strict_ne_str (lookupField "email" c) Notification.adminEmail); simpl; lia.
Qed.

Lemma resolveRecipients_some (db : firestore) (userId : string) :
  Notification.contactsOf db userId ≠ [] →
  Notification.resolveRecipients db userId
  = Some (Notification.buildRecipients (Notification.contactsOf db userId)).
Proof.
  unfold Notification.resolveRecipients.
  destruct (Notification.contactsOf db userId); [congruence | reflexivity].
Qed.

(** C3, as stated, fails for a user without contacts: no recipient list is
    built, and the alert goes to nobody, the operator included. *)
Lemma no_contacts_no_recipients :
  Notification.contactsOf Examples.store "erin" = [] ∧
  ¬ (∃ rs, Notification.resolveRecipients Examples.store "erin" = Some rs
           ∧ length rs = 1%nat) ∧
  Notification.sendEmergencyAlert (H := Examples.flaky)
    Examples.store "erin" Examples.alertData VNull 0%nat
  = (0%nat, Notification.NoContacts, []).
Proof.
  split; [reflexivity |]. split; [| reflexivity].
  intros (rs & Hrs & _). discriminate Hrs.
Qed.

(** C3, amended. For a user with at least one contact the recipients are the
    operator, first, followed by the user's contacts, in order, that have a
    non-empty email other than the operator address; so when every contact
    has an email, the list has one entry more than there are contacts not
    sharing the operator address. For a user without contacts
    [sendEmergencyAlert] returns early: no list is built and nothing is
    sent. *)
Theorem recipients_resolved `{Platform} (db : firestore) (userId : string)
    (emergencyData locationData : value) (w : World) :
  let contacts := Notification.contactsOf db userId in
  (contacts = [] →
     Notification.resolveRecipients db userId = None ∧
     Notification.sendEmergencyAlert db userId emergencyData locationData w
     = (w, Notification.NoContacts, [])) ∧
  (contacts ≠ [] →
     ∃ rs, Notification.resolveRecipients db userId
           = Some (Notification.adminRecipient :: rs) ∧
           rs = map Notification.contactRecipient
                  (List.filter Notification.eligible contacts) ∧
           (Forall (λ c, truthy (lookupField "email" c) = true) contacts →
            (length rs + length (List.filter Notification.sharesAdminEmail contacts))%nat
            = length contacts)).
Proof.
  intros contacts. split.
  - intros Hnone. unfold Notification.sendEmergencyAlert, Notification.resolveRecipients.
    fold contacts. rewrite Hnone. by destruct locationData.
  - intros Hsome. eexists. split; [| split; [reflexivity |]].
    + rewrite resolveRecipients_some by exact Hsome. by rewrite buildRecipients_spec.
    + intros Hall. rewrite length_map. by apply eligible_count.
Qed.

(** Alice's three contacts, one of them sharing the operator address, give
    three recipients, the operator first. *)
Lemma recipients_resolved_witness :
  ∃ rs, Notification.resolveRecipients Examples.store "alice"
        = Some (Notification.adminRecipient :: rs) ∧ length rs = 2%nat.
Proof.
  destruct (recipients_resolved (H := Examples.flaky) Examples.store "alice"
              Examples.alertData VNull 0%nat) as [_ Hsome].
  destruct Hsome as (rs & Hrs & _ & Hlen); [discriminate |].
  exists rs. split; [exact Hrs |].
  assert (Hall : Forall (λ c, truthy (lookupField "email" c) = true)
                   (Notification.contactsOf Examples.store "alice")).
  { vm_compute. repeat constructor. }
  specialize (Hlen Hall). change (length rs + 1 = 3)%nat in Hlen. lia.
Defined.

(** ** The dispatch loop *)

Section Dispatch.
Context `{Platform}.
Variables (userId : string) (emergencyData locationData : value).

Local Abbreviation step := (Notification.sendOne userId emergencyData locationData).
Local Abbreviation run := (fold_left step).








End Dispatch.




(** ** Documents *)

Lemma lookupField_setField_eq (k : string) (v : value) (d : doc) :
  lookupField k (setField k v d) = v.
Proof.
  induction d as [|[k' v'] d IH]; simpl.
  - by rewrite String.eqb_refl.
  - destruct (String.eqb k k') eqn:Hk; simpl.
    + by rewrite String.eqb_refl.
    + by rewrite Hk.
Qed.

Lemma lookupField_setField_ne (k k' : string) (v : value) (d : doc) :
  k ≠ k' → lookupField k (setField k' v d) = lookupField k d.
Proof.
  intros Hne. apply String.eqb_neq in Hne.
  induction d as [|[k'' v''] d IH]; simpl.
  - by rewrite Hne.
  - destruct (String.eqb k' k'') eqn:Hk; simpl.
    + apply String.eqb_eq in Hk. subst k''. by rewrite Hne.
    + by rewrite IH.
Qed.

Lemma lookupField_mergeFields_other (k : string) (patch d : doc) :
  k ∉ patch.*1 → lookupField k (mergeFields patch d) = lookupField k d.
Proof.
  unfold mergeFields. revert d. induction patch as [|[k' v'] patch IH]; intros d Hk; simpl.
  - reflexivity.
  - rewrite fmap_cons, not_elem_of_cons in Hk. destruct Hk as [Hne Hk].
    rewrite IH by exact Hk. by apply lookupField_setField_ne.
Qed.

Lemma getProp_returns (v : value) (k k' : string) :
  returns (getProp v k) = true → ∃ x, getProp v k' = Ok x.
Proof. destruct v; simpl; try discriminate; eauto. Qed.

Lemma getProp_Ok_opt (v x : value) (k : string) :
  getProp v k = Ok x → getPropOpt v k = x.
Proof. intros Hread. unfold getPropOpt. by rewrite Hread. Qed.

(** ** Writes the store refuses *)

Section Store.
Context `{Platform}.

Lemma undefined_refused_add (d : doc) : definedDoc d = false → validAdd d = false.
Proof.
  intros Hd. destruct (validAdd d) eqn:Hvalid; [| reflexivity].
  apply validAdd_defined in Hvalid. congruence.
Qed.

Lemma undefined_refused_update (d : doc) : definedDoc d = false → validUpdate d = false.
Proof.
  intros Hd. destruct (validUpdate d) eqn:Hvalid; [| reflexivity].
  apply validUpdate_defined in Hvalid. congruence.
Qed.

(** A report with an undefined part is not stored. *)
Lemma record_refused (isoNow : string) (u : Routes.user)
    (sensorData location contextData timestamp confidence bd manual : value) :
  defined sensorData && defined location && defined contextData
  && defined bd && defined (Routes.userEmail u) = false →
  validAdd (Routes.record isoNow u sensorData location contextData timestamp
              confidence bd manual) = false.
Proof.
  intros Hundefined. apply undefined_refused_add.
  unfold definedDoc, Routes.record. simpl.
  destruct (defined sensorData); [| reflexivity].
  destruct (defined location); [| reflexivity].
  destruct (defined contextData); [| reflexivity].
  destruct (defined bd); [| by rewrite !andb_false_r].
  simpl in Hundefined. rewrite Hundefined. by rewrite !andb_false_r.
Qed.

End Store.

(** ** Manual reports *)

(** C4. A report whose [manual] field is truthy never reaches the scoring
    engine: whatever the sensor, context and location fields of the body
    are, and whatever the clock is, the score is the fixed manual score
    (total 100, [manual] true, the four sub-scores 0). When the store
    accepts the record, the answer carries the score 100 and the manual
    breakdown, and the record is stored with the confidence 100 and the
    same breakdown. But the route passes the body's fields and the caller's
    email to the store as they are: when one of them is undefined (a body
    without [sensorData], a caller signed in anonymously, whose token has no
    email), the store refuses the record, and the manual report is answered
    500 and leaves nothing behind. *)
Theorem manual_report_bypasses_scoring `{StringToNumber} `{Platform}
    (clk : clock) (isoNow docId : string) (u : Routes.user) (body manual : value)
    (st : Routes.server) :
  getProp body "manual" = Ok manual →
  truthy manual = true →
  let stored :=
    Routes.record isoNow u (getPropOpt body "sensorData") (getPropOpt body "location")
      (getPropOpt body "contextData") (getPropOpt body "timestamp")
      (VNum 100) Routes.manualBreakdown manual in
  (validAdd stored = true →
   ∃ st',
     Routes.report clk isoNow docId u body st
     = (st', Routes.Json 200
               (VObj [("success", VBool true);
                      ("emergencyId", VStr docId);
                      ("score", VNum 100);
                      ("breakdown", Routes.manualBreakdown);
                      ("manual", manual)])) ∧
     emergencies (Routes.db st') !! docId = Some stored ∧
     lookupField "confidence" stored = VNum 100 ∧
     lookupField "breakdown" stored = Routes.manualBreakdown ∧
     lookupField "manual" stored = manual) ∧
  (validAdd stored = false →
   ∃ details,
     Routes.report clk isoNow docId u body st
     = (st, Routes.Json 500 (VObj [("success", VBool false);
                                   ("error", VStr "Failed to report emergency");
                                   ("details", VStr details)]))) ∧
  (defined (getPropOpt body "sensorData") && defined (getPropOpt body "location")
   && defined (getPropOpt body "contextData") && defined (Routes.userEmail u) = false →
   validAdd stored = false) ∧
  (∀ clk', Routes.report clk' isoNow docId u body st
           = Routes.report clk isoNow docId u body st) ∧
  getProp Routes.manualScore "totalScore" = Ok (VNum 100) ∧
  getProp Routes.manualBreakdown "manual" = Ok (VBool true) ∧
  Forall (λ k, getProp Routes.manualBreakdown k = Ok (VNum 0))
    ["sensorScore"; "contextScore"; "locationScore"; "crowdScore"].
Proof.
  intros Hmanual Htruthy stored.
  assert (Hbody : Server.notNullish body = true)
    by (destruct body; try reflexivity; discriminate Hmanual).
  assert (Hread : getPropOpt body "manual" = manual)
    by (unfold getPropOpt; by rewrite Hmanual).
  assert (Hrun : ∀ clk',
            Routes.reportBody clk' isoNow docId u body st
            = if negb (validAdd stored) then Throw WriteRefused
              else
                let db' :=
                  {| emergencies := <[docId := stored]> (emergencies (Routes.db st));
                     learning_data := learning_data (Routes.db st);
                     emergency_contacts := emergency_contacts (Routes.db st);
                     sos_events := sos_events (Routes.db st) |} in
                let withId := VObj (("id", VStr docId) :: stored) in
                let alertData :=
                  VObj (mergeFields stored
                          [("id", VStr docId); ("confidence", VNum 100);
                           ("breakdown", Routes.manualBreakdown);
                           ("manual", Routes.js_or manual (VBool false))]) in
                let '(w, _, _) :=
                  Notification.sendEmergencyAlert db' (Routes.uid u) alertData
                    (getPropOpt body "location")
                    (sendEmergencyNotifications (Routes.uid u) withId (Routes.mail st)) in
                Ok ({| Routes.db := db'; Routes.mail := w;
                       Routes.dashboard :=
                         (Routes.dashboard st ++ [("new-emergency", withId)])%list |},
                    Routes.Json 200
                      (VObj [("success", VBool true);
                             ("emergencyId", VStr docId);
                             ("score", VNum 100);
                             ("breakdown", Routes.manualBreakdown);
                             ("manual", manual)]))).
  { intros clk'. unfold Routes.reportBody.
    rewrite !(getProp_notNullish body _ Hbody), Hread. simpl. rewrite Htruthy. simpl.
    fold stored. destruct (validAdd stored); simpl; [| reflexivity].
    unfold Routes.emit. simpl. unfold Routes.js_or at 3. rewrite Htruthy.
    reflexivity. }
  split; [| split; [| split; [| split]]].
  - intros Hvalid. unfold Routes.report. rewrite Hrun, Hvalid. simpl.
    destruct (Notification.sendEmergencyAlert _ _ _ _ _) as [[w alertResult] sentMails].
    eexists. split; [reflexivity |]. split; [apply lookup_insert_eq |].
    subst stored. unfold Routes.record, Routes.js_or. simpl. rewrite Htruthy.
    by repeat split.
  - intros Hrefused. eexists. unfold Routes.report. by rewrite Hrun, Hrefused.
  - intros Hundefined. apply record_refused.
    destruct (defined (getPropOpt body "sensorData")); [| reflexivity].
    destruct (defined (getPropOpt body "location")); [| reflexivity].
    destruct (defined (getPropOpt body "contextData")); [| reflexivity].
    exact Hundefined.
  - intros clk'. unfold Routes.report. by rewrite !Hrun.
  - repeat split; try reflexivity. repeat constructor.
Qed.

(** Alice's manual report from the app is answered with the score 100,
    where the engine would raise on readings that are missing. *)
Lemma manual_report_witness :
  Server.calculateEmergencyScore (H := Examples.digitsOnly) Examples.noon
    VUndefined VUndefined VUndefined = Throw TypeError ∧
  ∃ st',
    Routes.report (H := Examples.digitsOnly) Examples.noon "2024-05-01T12:00:00.000Z" "e2"
      Examples.alice Samples.positionedReport Examples.running
    = (st', Routes.Json 200
              (VObj [("success", VBool true);
                     ("emergencyId", VStr "e2");
                     ("score", VNum 100);
                     ("breakdown", Routes.manualBreakdown);
                     ("manual", VBool true)])).
Proof.
  split; [reflexivity |].
  destruct (manual_report_bypasses_scoring (H := Examples.digitsOnly) (H0 := Examples.flaky)
              Examples.noon "2024-05-01T12:00:00.000Z" "e2" Examples.alice
              Samples.positionedReport (VBool true) Examples.running)
    as ((st' & Hreport & _) & _); [reflexivity | reflexivity | reflexivity |].
  exists st'. exact Hreport.
Defined.

(** The same report from a caller who signed in anonymously, and a manual
    report that is nothing but the flag, are refused. *)
Lemma manual_report_refused :
  ∃ details,
    Routes.report (H := Examples.digitsOnly) (H0 := Examples.flaky) Examples.noon
      "2024-05-01T12:00:00.000Z" "e2" Samples.guest Samples.positionedReport
      Examples.running
    = (Examples.running,
       Routes.Json 500 (VObj [("success", VBool false);
                              ("error", VStr "Failed to report emergency");
                              ("details", VStr details)])) ∧
    Routes.report (H := Examples.digitsOnly) (H0 := Examples.flaky) Examples.noon
      "2024-05-01T12:00:00.000Z" "e2" Examples.alice Examples.manualReport Examples.running
    = (Examples.running,
       Routes.Json 500 (VObj [("success", VBool false);
                              ("error", VStr "Failed to report emergency");
                              ("details", VStr details)])).
Proof. eexists. split; reflexivity. Qed.

(** ** Cancelling and resolving *)

Section Lifecycle.
Context `{Platform}.

Lemma updateEmergency_found (id : string) (patch record : doc) (store : firestore) :
  validUpdate patch = true →
  emergencies store !! id = Some record →
  Routes.updateEmergency id patch store
  = Ok {| emergencies := <[id := mergeFields patch record]> (emergencies store);
          learning_data := learning_data store;
          emergency_contacts := emergency_contacts store;
          sos_events := sos_events store |}.
Proof.
  intros Hvalid Hfound. unfold Routes.updateEmergency. by rewrite Hvalid, Hfound.
Qed.

Lemma updateEmergency_refused (id : string) (patch : doc) (store : firestore) :
  validUpdate patch = false → Routes.updateEmergency id patch store = Throw WriteRefused.
Proof. intros Hvalid. unfold Routes.updateEmergency. by rewrite Hvalid. Qed.

Lemma patchOf_keys (r : Routes.request) : (Routes.patchOf r).*1 = Routes.written r.
Proof. by destruct r. Qed.

Lemma patchOf_status (r : Routes.request) (record : doc) :
  lookupField "status" (mergeFields (Routes.patchOf r) record) = VStr (Routes.statusSet r).
Proof.
  destruct r; unfold mergeFields; simpl;
    rewrite !lookupField_setField_ne by discriminate;
    apply lookupField_setField_eq.
Qed.

(** An accepted request replaces the record by the record merged with the
    fields the route writes, also when the learning record of a
    cancellation is refused afterwards. *)
Lemma handle_accepted (id : string) (st : Routes.server) (r : Routes.request) (record : doc) :
  emergencies (Routes.db st) !! id = Some record →
  Routes.accepted record r = true →
  emergencies (Routes.db (Routes.handle id st r)) !! id
  = Some (mergeFields (Routes.patchOf r) record).
Proof.
  intros Hfound Hacc. destruct r as [isoNow u body | isoNow u body]; simpl in Hacc.
  - apply andb_true_iff in Hacc. destruct Hacc as [Hacc Hvalid].
    apply andb_true_iff in Hacc. destruct Hacc as [Hbody Howner].
    assert (Hpresent : Server.notNullish body = true)
      by (destruct body; try reflexivity; discriminate Hbody).
    unfold js_strict_eq_str in Howner. apply negb_true_iff in Howner.
    simpl. unfold Routes.cancel, Routes.cancelBody.
    rewrite !(getProp_notNullish body _ Hpresent). simpl. rewrite Hfound, Howner.
    rewrite (updateEmergency_found _ _ _ _ Hvalid Hfound). simpl.
    destruct (truthy (getPropOpt body "sensorSnapshot")); simpl;
      [destruct (validAdd _); simpl |]; apply lookup_insert_eq.
  - apply andb_true_iff in Hacc. destruct Hacc as [Hbody Hvalid].
    assert (Hpresent : Server.notNullish body = true)
      by (destruct body; try reflexivity; discriminate Hbody).
    simpl. unfold Routes.resolve, Routes.resolveBody.
    rewrite !(getProp_notNullish body _ Hpresent). simpl.
    rewrite (updateEmergency_found _ _ _ _ Hvalid Hfound). simpl.
    apply lookup_insert_eq.
Qed.

(** A request that is not accepted changes nothing. *)
Lemma handle_refused (id : string) (st : Routes.server) (r : Routes.request) (record : doc) :
  emergencies (Routes.db st) !! id = Some record →
  Routes.accepted record r = false →
  Routes.handle id st r = st.
Proof.
  intros Hfound Hrefused. destruct r as [isoNow u body | isoNow u body]; simpl in *.
  - unfold Routes.cancel, Routes.cancelBody.
    destruct (getProp body "reason") as [reason|] eqn:Hreason; simpl; [| reflexivity].
    assert (Hpresent : Server.notNullish body = true)
      by (destruct body; try reflexivity; discriminate Hreason).
    rewrite (getProp_notNullish body _ Hpresent). simpl. rewrite Hfound.
    unfold js_strict_eq_str in Hrefused.
    destruct (js_strict_ne_str (lookupField "userId" record) (Routes.uid u)); simpl;
      [reflexivity |].
    simpl in Hrefused. rewrite (getProp_Ok_opt _ _ _ Hreason) in Hrefused.
    by rewrite (updateEmergency_refused _ _ _ Hrefused).
  - unfold Routes.resolve, Routes.resolveBody.
    destruct (getProp body "notes") as [notes|] eqn:Hnotes; simpl; [| reflexivity].
    simpl in Hrefused. rewrite (getProp_Ok_opt _ _ _ Hnotes) in Hrefused.
    by rewrite (updateEmergency_refused _ _ _ Hrefused).
Qed.

End Lifecycle.

(** C9, as stated, fails: Alice cancels her emergency and an operator then
    resolves it, so the record is cancelled and later resolved; and in the
    other order a resolved record becomes cancelled. *)
Lemma cancelled_then_resolved :
  Routes.history "e1" Examples.running
    [Routes.Cancel "2024-05-01T10:01:00.000Z" Examples.alice Examples.falseAlarm;
     Routes.Resolve "2024-05-01T10:05:00.000Z" Examples.mallory Examples.handled]
  = [Some (VStr "cancelled"); Some (VStr "resolved")] ∧
  Routes.history "e1" Examples.running
    [Routes.Resolve "2024-05-01T10:01:00.000Z" Examples.mallory Examples.handled;
     Routes.Cancel "2024-05-01T10:05:00.000Z" Examples.alice Examples.falseAlarm]
  = [Some (VStr "resolved"); Some (VStr "cancelled")].
Proof. split; vm_compute; reflexivity. Qed.

Section Sequences.
Context `{Platform}.

Lemma accepted_same_owner (record record' : doc) (r : Routes.request) :
  lookupField "userId" record' = lookupField "userId" record →
  Routes.accepted record' r = Routes.accepted record r.
Proof. intros Howner. destruct r; simpl; by rewrite ?Howner. Qed.

Lemma userId_not_written (r : Routes.request) : "userId" ∉ Routes.written r.
Proof.
  destruct r; simpl; rewrite !not_elem_of_cons;
    repeat split; try discriminate; apply not_elem_of_nil.
Qed.

Lemma last_accepted_cons (record : doc) (r : Routes.request) (rs : list Routes.request) :
  last (List.filter (Routes.accepted record) (r :: rs))
  = match last (List.filter (Routes.accepted record) rs) with
    | Some r' => Some r'
    | None => if Routes.accepted record r then Some r else None
    end.
Proof.
  simpl. destruct (Routes.accepted record r); [| by destruct (last _)].
  destruct (List.filter (Routes.accepted record) rs) as [|r' rest]; [reflexivity |].
  change (last (r :: r' :: rest)) with (last (r' :: rest)).
  by destruct (last (r' :: rest)) eqn:Hlast; [| apply last_None in Hlast].
Qed.

(** The status after a sequence of requests: the one the last accepted
    request sets, or the one before. *)
Lemma serve_status (id : string) (rs : list Routes.request) :
  ∀ (st : Routes.server) (owned record : doc),
    emergencies (Routes.db st) !! id = Some record →
    lookupField "userId" record = lookupField "userId" owned →
    Routes.statusOf (fold_left (Routes.handle id) rs st) id
    = Some (match last (List.filter (Routes.accepted owned) rs) with
            | Some r => VStr (Routes.statusSet r)
            | None => lookupField "status" record
            end).
Proof.
  induction rs as [|r rs IH]; intros st owned record Hfound Howner.
  - simpl. unfold Routes.statusOf. by rewrite Hfound.
  - rewrite last_accepted_cons. simpl fold_left.
    rewrite <- (accepted_same_owner owned record r Howner).
    destruct (Routes.accepted record r) eqn:Hacc.
    + pose proof (handle_accepted id st r record Hfound Hacc) as Hnew.
      rewrite (IH _ owned _ Hnew).
      * rewrite patchOf_status. by destruct (last _).
      * rewrite <- Howner. apply lookupField_mergeFields_other.
        rewrite patchOf_keys. apply userId_not_written.
    + rewrite (handle_refused id st r record Hfound Hacc).
      rewrite (IH _ owned _ Hfound Howner). by destruct (last _).
Qed.

End Sequences.

(** C9, amended. A record has one status at a time, but neither route
    looks at it. A request is accepted when it passes the checks of its
    route (a cancellation comes from the owner, a resolution from any
    caller) and the store accepts the fields it writes; an accepted request
    sets its status whatever the status was before and changes no field
    other than the ones its route writes, and a request that is not accepted
    changes nothing. So after any sequence of cancel and resolve requests
    the status is the one of the last accepted request, or the earlier
    status when none was accepted. *)
Theorem last_request_decides_status `{Platform}
    (id : string) (st : Routes.server) (record : doc) (rs : list Routes.request) :
  emergencies (Routes.db st) !! id = Some record →
  Routes.statusOf (fold_left (Routes.handle id) rs st) id
  = Some (match last (List.filter (Routes.accepted record) rs) with
          | Some r => VStr (Routes.statusSet r)
          | None => lookupField "status" record
          end) ∧
  (∀ r, Routes.accepted record r = true →
        ∃ record', emergencies (Routes.db (Routes.handle id st r)) !! id = Some record' ∧
                   lookupField "status" record' = VStr (Routes.statusSet r) ∧
                   ∀ k, k ∉ Routes.written r → lookupField k record' = lookupField k record) ∧
  (∀ r, Routes.accepted record r = false → Routes.handle id st r = st).
Proof.
  intros Hfound. split; [| split].
  - by apply (serve_status id rs st record record).
  - intros r Hacc. eexists. split; [by apply handle_accepted |].
    split; [apply patchOf_status |].
    intros k Hk. apply lookupField_mergeFields_other. by rewrite patchOf_keys.
  - intros r Hrefused. by apply (handle_refused id st r record).
Qed.

(** An operator resolves Alice's emergency, Alice cancels it, and Mallory's
    cancellation is refused: the record is cancelled. *)
Lemma last_request_decides_status_witness :
  Routes.statusOf
    (fold_left (Routes.handle (H0 := Examples.flaky) "e1")
       [Routes.Resolve "2024-05-01T10:01:00.000Z" Examples.mallory Examples.handled;
        Routes.Cancel "2024-05-01T10:03:00.000Z" Examples.alice Examples.falseAlarm;
        Routes.Cancel "2024-05-01T10:05:00.000Z" Examples.mallory Examples.falseAlarm]
       Examples.running) "e1"
  = Some (VStr "cancelled").
Proof.
  apply (last_request_decides_status (H := Examples.flaky) "e1" Examples.running
           (Examples.reported "alice")
           [Routes.Resolve "2024-05-01T10:01:00.000Z" Examples.mallory Examples.handled;
            Routes.Cancel "2024-05-01T10:03:00.000Z" Examples.alice Examples.falseAlarm;
            Routes.Cancel "2024-05-01T10:05:00.000Z" Examples.mallory Examples.falseAlarm]).
  reflexivity.
Defined.

(** C10. A cancellation changes the server state only if the emergency
    exists and its [userId] is the caller's uid. With a readable body, a
    missing emergency is answered 404 and another user's emergency 403, and
    in both cases the state (the record and [learning_data] included) is
    the one before. *)
Theorem cancel_guarded `{Platform}
    (isoNow id : string) (u : Routes.user) (body : value) (st : Routes.server) :
  ((Routes.cancel isoNow id u body st).1 ≠ st →
     ∃ record, emergencies (Routes.db st) !! id = Some record ∧
               js_strict_eq_str (lookupField "userId" record) (Routes.uid u) = true) ∧
  (returns (getProp body "reason") = true →
     emergencies (Routes.db st) !! id = None →
     Routes.cancel isoNow id u body st
     = (st, Routes.Json 404 (VObj [("error", VStr "Emergency not found")]))) ∧
  (returns (getProp body "reason") = true →
     ∀ record, emergencies (Routes.db st) !! id = Some record →
     js_strict_eq_str (lookupField "userId" record) (Routes.uid u) = false →
     Routes.cancel isoNow id u body st
     = (st, Routes.Json 403
              (VObj [("error", VStr "You can only cancel your own emergencies")]))).
Proof.
  unfold Routes.cancel, Routes.cancelBody, js_strict_eq_str. repeat split.
  - intros Hchanged.
    destruct (getProp body "reason") as [reason|]; simpl in *; [| done].
    destruct (getProp body "sensorSnapshot") as [snapshot|]; simpl in *; [| done].
    destruct (emergencies (Routes.db st) !! id) as [record|]; simpl in *; [| done].
    destruct (js_strict_ne_str (lookupField "userId" record) (Routes.uid u)) eqn:Hne;
      simpl in *; [done |].
    exists record. by rewrite Hne.
  - intros Hbody Hmissing.
    destruct (getProp_returns body "reason" "reason" Hbody) as [reason ->].
    destruct (getProp_returns body "reason" "sensorSnapshot" Hbody) as [snapshot ->].
    simpl. by rewrite Hmissing.
  - intros Hbody record Hfound Hother. apply negb_false_iff in Hother.
    destruct (getProp_returns body "reason" "reason" Hbody) as [reason ->].
    destruct (getProp_returns body "reason" "sensorSnapshot" Hbody) as [snapshot ->].
    simpl. by rewrite Hfound, Hother.
Qed.

Lemma cancel_guarded_witness :
  Routes.cancel (H0 := Examples.flaky) "2024-05-01T10:01:00.000Z" "e1"
    Examples.mallory Examples.falseAlarm Examples.running
  = (Examples.running,
     Routes.Json 403 (VObj [("error", VStr "You can only cancel your own emergencies")])) ∧
  Routes.cancel (H0 := Examples.flaky) "2024-05-01T10:01:00.000Z" "e9"
    Examples.alice Examples.falseAlarm Examples.running
  = (Examples.running, Routes.Json 404 (VObj [("error", VStr "Emergency not found")])).
Proof.
  split.
  - apply (cancel_guarded (H := Examples.flaky) "2024-05-01T10:01:00.000Z" "e1"
             Examples.mallory Examples.falseAlarm Examples.running)
      with (record := Examples.reported "alice"); reflexivity.
  - apply (cancel_guarded (H := Examples.flaky) "2024-05-01T10:01:00.000Z" "e9"
             Examples.alice Examples.falseAlarm Examples.running); reflexivity.
Defined.


(** * Further properties of the code *)

(** ** The server's scores *)

Lemma bump_upper (cond : bool) (pts score bound : Q) :
  0 <= pts → score <= bound → bump cond pts score <= bound + pts.
Proof. intros Hp Hs. unfold bump. destruct cond; lra. Qed.

(** Splits on every condition of a sum of [bump]s. *)
Ltac bump_cases :=
  unfold bump;
  repeat match goal with |- context [if ?c then _ else _] => destruct c end.

Section ServerRanges.
Context `{StringToNumber}.

Lemma analyzeContextData_upper (clk : clock) (contextData : value) (s : Q) :
  Server.analyzeContextData clk contextData = Ok s → s <= 60.
Proof.
  unfold Server.analyzeContextData. intros Hrun. run_ok Hrun;
    (eapply Qle_trans; [apply Q.le_min_r |]); bump_cases; lra.
Qed.

Lemma analyzeLocationData_upper (location : value) (s : Q) :
  Server.analyzeLocationData location = Ok s → s <= 48.
Proof.
  unfold Server.analyzeLocationData. intros Hrun.
  destruct (truthy location); simpl in Hrun.
  - run_ok Hrun;
      (apply Q.max_lub; [lra |]; eapply Qle_trans; [apply Q.le_min_r |]);
      bump_cases; lra.
  - injection Hrun as <-. lra.
Qed.

Lemma analyzeCrowdData_values (clk : clock) (crowdSignals : value) (s : Q) :
  Server.analyzeCrowdData clk crowdSignals = Ok s → s == 0 ∨ s == 20 ∨ s == 50.
Proof.
  unfold Server.analyzeCrowdData. intros Hrun.
  apply bind_Ok in Hrun. destruct Hrun as (len & _ & Hrun).
  destruct (negb (truthy crowdSignals) || js_is_zero len).
  - injection Hrun as <-. left. reflexivity.
  - destruct crowdSignals; try discriminate Hrun.
    apply bind_Ok in Hrun. destruct Hrun as (kept & _ & Hrun).
    injection Hrun as <-.
    destruct kept as [|s1 [|s2 [|s3 kept]]]; simpl; [left | right; left ..| right; right];
      vm_compute; reflexivity.
Qed.

End ServerRanges.

Lemma server_ranges `{StringToNumber}
    (clk : clock) (sensorData contextData location : value) (b : breakdown Q) :
  Server.calculateEmergencyScore clk sensorData contextData location = Ok b →
  0 <= sensorScore b <= 100 ∧
  contextScore b <= 60 ∧
  locationScore b <= 48 ∧
  (crowdScore b == 0 ∨ crowdScore b == 20 ∨ crowdScore b == 50) ∧
  totalScore b == sensorScore b * 0.5 + contextScore b * 0.2
                  + locationScore b * 0.2 + crowdScore b * 0.1.
Proof.
  intros Hrun.
  destruct (calculateEmergencyScore_inv _ _ _ _ _ Hrun)
    as (Hs & Hc & Hl & (signals & Hcr) & Htotal).
  pose proof (analyzeSensorData_bounds _ _ Hs) as Hs100.
  pose proof (analyzeContextData_upper _ _ _ Hc) as Hc60.
  pose proof (analyzeLocationData_upper _ _ Hl) as Hl48.
  pose proof (analyzeCrowdData_values _ _ _ Hcr) as Hcrowd.
  assert (Hcr50 : crowdScore b <= 50) by (destruct Hcrowd as [E | [E | E]]; rewrite E; lra).
  repeat split; try tauto.
  rewrite Htotal. unfold Server.weightedTotal. apply Q.min_r. lra.
Qed.

(** X1. The context score of the server is at most 60, its location score
    at most 48 and its crowd score 0, 20 or 50; so the cap of the total is
    never reached: the total is the plain weighted sum and at most 76.6. *)
Theorem server_total_never_capped `{StringToNumber}
    (clk : clock) (sensorData contextData location : value) (b : breakdown Q) :
  Server.calculateEmergencyScore clk sensorData contextData location = Ok b →
  contextScore b <= 60 ∧
  locationScore b <= 48 ∧
  (crowdScore b == 0 ∨ crowdScore b == 20 ∨ crowdScore b == 50) ∧
  totalScore b == sensorScore b * 0.5 + contextScore b * 0.2
                  + locationScore b * 0.2 + crowdScore b * 0.1 ∧
  totalScore b <= 76.6.
Proof.
  intros Hrun.
  destruct (server_ranges _ _ _ _ _ Hrun) as (Hs & Hc & Hl & Hcr & Hsum).
  repeat split; try assumption.
  rewrite Hsum. destruct Hcr as [E | [E | E]]; rewrite E; lra.
Qed.

Lemma server_total_never_capped_witness :
  totalScore Examples.fallBreakdown == 65 * 0.5 + 0 * 0.2 + 0 * 0.2 + 0 * 0.1.
Proof.
  destruct (server_total_never_capped (H := Examples.digitsOnly) Examples.noon
              Examples.fall (VObj []) VNull Examples.fallBreakdown)
    as (_ & _ & _ & Hsum & _); [reflexivity |].
  exact Hsum.
Defined.

(** X2. Context, location and crowd cannot raise the alarm on the server
    by themselves: with a sensor score of at most 25 both classifiers of
    the client call the server's total safe, and a total of 70 or more
    needs a sensor score above 86. *)
Theorem server_needs_sensor_evidence `{StringToNumber}
    (clk : clock) (sensorData contextData location : value) (b : breakdown Q) :
  Server.calculateEmergencyScore clk sensorData contextData location = Ok b →
  (sensorScore b <= 25 →
     Client.classifyEmergency (Num (totalScore b)) = safe ∧
     SensorContext.status (Num (totalScore b)) = safe) ∧
  (70 <= totalScore b → 86 < sensorScore b).
Proof.
  intros Hrun.
  destruct (server_ranges _ _ _ _ _ Hrun) as (Hs & Hc & Hl & Hcr & Hsum).
  assert (Hcr50 : crowdScore b <= 50) by (destruct Hcr as [E | [E | E]]; rewrite E; lra).
  split.
  - intros Hweak. assert (Hlt : totalScore b < 40) by (rewrite Hsum; lra).
    split.
    + by apply classifyEmergency_cases.
    + apply status_cases. lra.
  - intros Hhigh. rewrite Hsum in Hhigh. lra.
Qed.

Lemma server_needs_sensor_evidence_witness :
  Client.classifyEmergency (Num (totalScore Samples.quietNight)) = safe ∧
  SensorContext.status (Num (totalScore Samples.quietNight)) = safe.
Proof.
  destruct (server_needs_sensor_evidence (H := Examples.digitsOnly) Samples.night
              (VObj []) (VObj []) VNull Samples.quietNight) as [Hweak _]; [reflexivity |].
  apply Hweak. unfold Qle. simpl. lia.
Defined.

(** X3. On well-formed inputs (sensor and context data present, an impact
    magnitude above the threshold a number, crowd signals absent or a list
    without null entries) the server's engine returns a breakdown, whatever
    the location is, and its total lies between 0 and 76.6. *)
Theorem engine_returns_when_well_formed `{StringToNumber}
    (clk : clock) (sensorData contextData location : value) :
  Server.wellFormed sensorData contextData = true →
  ∃ b, Server.calculateEmergencyScore clk sensorData contextData location = Ok b ∧
       0 <= totalScore b <= 76.6.
Proof.
  intros Hwf.
  destruct (calculateEmergencyScore_returns clk sensorData contextData location Hwf)
    as [b Hrun].
  exists b. split; [exact Hrun |].
  destruct (server_ranges _ _ _ _ _ Hrun) as (Hs & Hc & Hl & Hcr & Hsum).
  destruct (calculateEmergencyScore_inv _ _ _ _ _ Hrun)
    as (_ & Hc0 & Hl0 & (signals & Hcr0) & _).
  apply analyzeContextData_bounds in Hc0. apply analyzeLocationData_bounds in Hl0.
  rewrite Hsum. destruct Hcr as [E | [E | E]]; rewrite E; lra.
Qed.

Lemma engine_returns_when_well_formed_witness :
  ∃ b, Server.calculateEmergencyScore (H := Examples.digitsOnly) Samples.night
         Examples.fall (VObj [("crowdSignals", VArr Samples.crowd)])
         (Samples.nearHospital 250) = Ok b ∧
       0 <= totalScore b <= 76.6.
Proof.
  apply (engine_returns_when_well_formed (H := Examples.digitsOnly)). reflexivity.
Defined.

(** X4. How the nearest safe zone counts in the server's location score,
    for a location without isolation data whose only known safe zone is a
    hospital at distance [d]: below 1000 the score is 0 (the reduction does
    not go below zero), up to 10000 it is 0, above it is 15; and at
    distance 0 the hospital counts as unknown ([0 || Infinity]), so the
    score is 15 as if help were far. *)
Theorem hospital_distance_steps `{StringToNumber} (location : value) (d : Q) :
  let safeZones := getPropOpt location "safeZones" in
  truthy location = true →
  truthy (getPropOpt location "isolation") = false →
  truthy safeZones = true →
  getPropOpt (getPropOpt safeZones "nearestHospital") "distance" = VNum d →
  truthy (getPropOpt (getPropOpt safeZones "nearestPolice") "distance") = false →
  truthy (getPropOpt (getPropOpt safeZones "nearestFireStation") "distance") = false →
  ∃ s, Server.analyzeLocationData location = Ok s ∧
       (d == 0 → s == 15) ∧
       (0 < d → d < 1000 → s == 0) ∧
       (1000 <= d → d <= 10000 → s == 0) ∧
       (10000 < d → s == 15) ∧
       (d < 0 → s == 0).
Proof.
  intros safeZones Hlocation Hisolation HsafeZones Hhospital Hpolice Hfire.
  unfold Server.analyzeLocationData. rewrite Hlocation. simpl.
  rewrite (getProp_truthy location "isolation" Hlocation). simpl.
  rewrite Hisolation. simpl.
  rewrite (getProp_truthy location "safeZones" Hlocation). simpl.
  fold safeZones. rewrite HsafeZones.
  rewrite !(getProp_truthy safeZones _ HsafeZones). simpl.
  unfold Server.distanceOrInfinity. rewrite Hhospital, Hpolice, Hfire. simpl.
  destruct (Qeq_bool d 0) eqn:Hzero; simpl.
  - apply Qeq_bool_iff in Hzero. eexists. split; [reflexivity |].
    repeat split; intros; try lra; vm_compute; reflexivity.
  - apply Qeq_bool_neq in Hzero.
    destruct (Qltb d 1000) eqn:Hnear; simpl.
    + apply Qltb_lt in Hnear. eexists. split; [reflexivity |].
      repeat split; intros; try lra; vm_compute; reflexivity.
    + apply Qltb_ge in Hnear.
      destruct (Qltb 10000 d) eqn:Hfar; simpl.
      * eexists. split; [reflexivity |].
        apply Qltb_lt in Hfar. repeat split; intros; try lra; vm_compute; reflexivity.
      * eexists. split; [reflexivity |].
        apply Qltb_ge in Hfar. repeat split; intros; try lra; vm_compute; reflexivity.
Qed.

Lemma hospital_distance_steps_witness :
  ∃ s, Server.analyzeLocationData (H := Examples.digitsOnly) (Samples.nearHospital 0) = Ok s ∧
       s == 15.
Proof.
  destruct (hospital_distance_steps (H := Examples.digitsOnly) (Samples.nearHospital 0) 0)
    as (s & Hs & Hzero & _); try reflexivity.
  exists s. split; [exact Hs |]. apply Hzero. reflexivity.
Defined.


(** ** The client's detector *)

Section ClientScore.
Context `{StringToNumber}.

Lemma js_gt_nonnegative (v : value) (c : Q) :
  0 <= c → js_gt v c = true → Facts.nonnegative (toNumber v).
Proof.
  unfold js_gt, num_ltb. intros Hc Hgt.
  destruct (toNumber v) as [|q| |]; simpl; try discriminate Hgt; [| exact I].
  apply Qltb_lt in Hgt. lra.
Qed.

Lemma num_mul_nonnegative (x : jsnum) (k : Q) :
  0 < k → Facts.nonnegative x → Facts.nonnegative (num_mul x (Num k)).
Proof.
  intros Hk Hx. destruct x as [|q| |]; simpl in *; try contradiction.
  - apply Qmult_le_0_compat; lra.
  - unfold Qsign_pos. apply Qltb_lt in Hk. by rewrite Hk.
Qed.

Lemma num_div_nonnegative (x : jsnum) (k : Q) :
  0 < k → Facts.nonnegative x → Facts.nonnegative (num_div x k).
Proof.
  intros Hk Hx. unfold num_div. apply num_mul_nonnegative; [| exact Hx].
  by apply Qinv_lt_0_compat.
Qed.

Lemma num_min_nonnegative (k : Q) (x : jsnum) :
  0 <= k → Facts.nonnegative x → Facts.nonnegative (num_min (Num k) x).
Proof.
  intros Hk Hx. destruct x as [|q| |]; simpl in *; try contradiction; [| exact Hk].
  apply Q.min_glb; assumption.
Qed.

Lemma num_add_nonnegative (x y : jsnum) :
  Facts.nonnegative x → Facts.nonnegative y → Facts.nonnegative (num_add x y).
Proof.
  intros Hx Hy. destruct x, y; simpl in *; try contradiction; try exact I. lra.
Qed.

Lemma add_if_nonnegative (cond : bool) (pts score : jsnum) :
  (cond = true → Facts.nonnegative pts) → Facts.nonnegative score →
  Facts.nonnegative (Client.add_if cond pts score).
Proof.
  intros Hp Hs. unfold Client.add_if. destruct cond; [| exact Hs].
  apply num_add_nonnegative; [exact Hs | by apply Hp].
Qed.

Lemma capped_is_finite (score : jsnum) :
  Facts.nonnegative score → ∃ q, num_min (Num 100) score = Num q ∧ 0 <= q <= 100.
Proof.
  intros Hs. destruct score as [|q| |]; simpl in *; try contradiction.
  - eexists. split; [reflexivity |]. split; [apply Q.min_glb; lra | apply Q.le_min_l].
  - eexists. split; [reflexivity |]. lra.
Qed.

(** Proves that a sum of contributions is not negative. *)
Ltac contributions :=
  repeat first
    [ exact I
    | assumption
    | apply add_if_nonnegative; [intros ? |]
    | apply num_add_nonnegative
    | apply num_min_nonnegative; [lra |]
    | apply num_mul_nonnegative; [lra |]
    | apply num_div_nonnegative; [lra |]
    | match goal with
      | Hgt : js_gt ?v ?c = true |- Facts.nonnegative (toNumber ?v) =>
          apply (js_gt_nonnegative v c); [lra | exact Hgt]
      | |- Facts.nonnegative (Num _) => simpl; lra
      end ].

Opaque num_add num_min num_mul num_div Client.add_if.

Lemma analyzeSensorData_finite (sensorData : value) (s : jsnum) :
  Client.analyzeSensorData sensorData = Ok s →
  ∃ q, s = Num q ∧ 0 <= q <= 100.
Proof.
  unfold Client.analyzeSensorData. intros Hrun. run_ok Hrun;
    repeat match goal with
           | H1 : ?x = Ok ?a, H2 : ?x = Ok ?b |- _ => rewrite H1 in H2; injection H2 as <-
           end;
    first [ apply capped_is_finite; contributions
          | eexists; split; [reflexivity |]; split; [apply Q.min_glb; lra | apply Q.le_min_l] ].
Qed.

Transparent num_add num_min num_mul num_div Client.add_if.

End ClientScore.

(** X5. The sensor score of the client is always a number between 0 and
    100 when the analysis returns: the contributions computed from the
    readings are never NaN or negative, and an infinite one is cut by the
    final cap. *)
Theorem client_sensor_score_finite `{StringToNumber} (sensorData : value) (s : jsnum) :
  Client.analyzeSensorData sensorData = Ok s →
  ∃ q, s = Num q ∧ 0 <= q <= 100.
Proof. apply analyzeSensorData_finite. Qed.

Lemma client_sensor_score_finite_witness :
  ∃ q, Client.analyzeSensorData (H := Examples.digitsOnly) Samples.wildReading = Ok (Num q)
       ∧ 0 <= q <= 100.
Proof.
  destruct (client_sensor_score_finite (H := Examples.digitsOnly) Samples.wildReading
              (Num (Qmin 100 (0 + Qmin 25 (1000000 * 2) + 30 + 5 * 35))))
    as (q & Hq & Hbounds); [reflexivity |].
  exists q. rewrite <- Hq. split; [reflexivity | exact Hbounds].
Defined.


(** ** Feedback *)

Lemma feedbackAll_snoc (outcomes : list string) (outcome : string) (d : Client.detector) :
  Facts.feedbackAll (outcomes ++ [outcome]) d
  = Client.updateThresholds outcome (Facts.feedbackAll outcomes d).
Proof. unfold Facts.feedbackAll. by rewrite fold_left_app. Qed.

(** X6. Whatever thresholds a detector starts from, and whatever the
    outcomes are (also ones the detector does not know), after any
    non-empty sequence of feedback the motion and audio sensitivities lie
    in [0.3, 2.0] and the context weight in [0.5, 1.5]. *)
Theorem thresholds_stay_in_range (outcomes : list string) (d : Client.detector) :
  outcomes ≠ [] →
  Facts.inRange (Client.userThresholds (Facts.feedbackAll outcomes d)).
Proof.
  intros Hne. destruct (exists_last Hne) as (front & outcome & ->).
  rewrite feedbackAll_snoc. apply updateThresholds_bounds.
Qed.

Lemma thresholds_stay_in_range_witness :
  Facts.inRange
    (Client.userThresholds (Facts.feedbackAll ["true_positive"] Samples.drifted)).
Proof. apply thresholds_stay_in_range. discriminate. Defined.

Lemma updateThresholds_count (outcome : string) (d : Client.detector) :
  Client.falsePositiveCount (Client.updateThresholds outcome d)
  = ((if String.eqb outcome "false_positive" then 1 else 0)
     + Client.falsePositiveCount d)%nat.
Proof.
  unfold Client.updateThresholds.
  destruct (String.eqb outcome "false_positive"); simpl; [reflexivity |].
  destruct (String.eqb outcome "missed_emergency"); reflexivity.
Qed.

(** X7. The false-positive counter of the detector counts exactly the
    [false_positive] outcomes it was given: no other outcome changes it and
    nothing resets it. *)
Theorem false_positive_counter (outcomes : list string) (d : Client.detector) :
  Client.falsePositiveCount (Facts.feedbackAll outcomes d)
  = (length (List.filter (λ o, String.eqb o "false_positive") outcomes)
     + Client.falsePositiveCount d)%nat.
Proof.
  revert d. induction outcomes as [|outcome outcomes IH]; intros d; [reflexivity |].
  change (Facts.feedbackAll (outcome :: outcomes) d)
    with (Facts.feedbackAll outcomes (Client.updateThresholds outcome d)).
  rewrite IH, updateThresholds_count. simpl.
  destruct (String.eqb outcome "false_positive"); simpl; lia.
Qed.

(** *** Saturation *)

Lemma clamp_at_floor (lo hi x : Q) : lo <= hi → x <= lo → Client.clamp lo hi x == lo.
Proof.
  intros Hle Hx. unfold Client.clamp.
  rewrite (Q.min_r hi x) by lra. apply Q.max_l. exact Hx.
Qed.

Lemma clamp_at_ceiling (lo hi x : Q) : lo <= hi → hi <= x → Client.clamp lo hi x == hi.
Proof.
  intros Hle Hx. unfold Client.clamp.
  rewrite (Q.min_l hi x) by lra. apply Q.max_r. exact Hle.
Qed.

Lemma false_positive_keeps_floor (d : Client.detector) :
  Client.motionSensitivity (Client.userThresholds d) == 0.3 →
  Client.audioSensitivity (Client.userThresholds d) == 0.3 →
  let d' := Client.updateThresholds "false_positive" d in
  Client.motionSensitivity (Client.userThresholds d') == 0.3 ∧
  Client.audioSensitivity (Client.userThresholds d') == 0.3.
Proof.
  intros Hm Ha. unfold Client.updateThresholds. simpl.
  split; apply clamp_at_floor; lra.
Qed.

Lemma false_positive_keeps_context_floor (d : Client.detector) :
  (5 <= Client.falsePositiveCount d)%nat →
  Client.contextWeight (Client.userThresholds d) == 0.5 →
  Client.contextWeight (Client.userThresholds (Client.updateThresholds "false_positive" d))
  == 0.5.
Proof.
  intros Hcount Hc. unfold Client.updateThresholds. simpl.
  destruct (Client.falsePositiveCount d) as [|[|[|[|[|n]]]]]; try lia. simpl.
  apply clamp_at_floor; lra.
Qed.

Lemma missed_emergency_keeps_ceiling (d : Client.detector) :
  let t := Client.userThresholds d in
  let t' := Client.userThresholds (Client.updateThresholds "missed_emergency" d) in
  (Client.motionSensitivity t == 2.0 → Client.motionSensitivity t' == 2.0) ∧
  (Client.audioSensitivity t == 2.0 → Client.audioSensitivity t' == 2.0) ∧
  (Client.contextWeight t == 1.5 → Client.contextWeight t' == 1.5).
Proof.
  unfold Client.updateThresholds. simpl.
  repeat split; intros Heq; apply clamp_at_ceiling; lra.
Qed.

Lemma false_positives_reach_floor (n : nat) :
  (24 <= n)%nat →
  let t := Client.userThresholds (Client.feedback "false_positive" n Client.new) in
  Client.motionSensitivity t == 0.3 ∧ Client.audioSensitivity t == 0.3.
Proof.
  induction 1 as [|n Hn IH].
  - split; vm_compute; reflexivity.
  - destruct IH as [Hm Ha]. by apply false_positive_keeps_floor.
Qed.

Lemma false_positives_reach_context_floor (n : nat) :
  (12 <= n)%nat →
  Client.contextWeight (Client.userThresholds (Client.feedback "false_positive" n Client.new))
  == 0.5.
Proof.
  induction 1 as [|n Hn IH].
  - vm_compute. reflexivity.
  - apply false_positive_keeps_context_floor; [| exact IH].
    rewrite feedback_count. simpl. lia.
Qed.

Lemma missed_emergencies_reach_ceiling (n : nat) :
  (15 <= n)%nat →
  let t := Client.userThresholds (Client.feedback "missed_emergency" n Client.new) in
  Client.motionSensitivity t == 2.0 ∧ Client.audioSensitivity t == 2.0.
Proof.
  induction 1 as [|n Hn IH].
  - split; vm_compute; reflexivity.
  - destruct IH as [Hm Ha].
    destruct (missed_emergency_keeps_ceiling
                (Client.feedback "missed_emergency" n Client.new)) as (Hm' & Ha' & _).
    split; [by apply Hm' | by apply Ha'].
Qed.

Lemma missed_emergencies_reach_context_ceiling (n : nat) :
  (21 <= n)%nat →
  Client.contextWeight (Client.userThresholds (Client.feedback "missed_emergency" n Client.new))
  == 1.5.
Proof.
  induction 1 as [|n Hn IH].
  - vm_compute. reflexivity.
  - destruct (missed_emergency_keeps_ceiling
                (Client.feedback "missed_emergency" n Client.new)) as (_ & _ & Hc').
    by apply Hc'.
Qed.

(** X8. Feedback saturates. From a new detector, the motion and audio
    sensitivities are at the floor 0.3 after 24 false positives and stay
    there, and the context weight is at its floor 0.5 after 12; after 15
    missed emergencies the sensitivities are at the ceiling 2.0, and after
    21 the context weight is at 1.5. One step earlier none of them has
    reached its bound. *)
Theorem feedback_saturates (n : nat) :
  let after outcome k := Client.userThresholds (Client.feedback outcome k Client.new) in
  ((24 <= n)%nat →
     Client.motionSensitivity (after "false_positive" n) == 0.3 ∧
     Client.audioSensitivity (after "false_positive" n) == 0.3) ∧
  ((12 <= n)%nat → Client.contextWeight (after "false_positive" n) == 0.5) ∧
  ((15 <= n)%nat →
     Client.motionSensitivity (after "missed_emergency" n) == 2.0 ∧
     Client.audioSensitivity (after "missed_emergency" n) == 2.0) ∧
  ((21 <= n)%nat → Client.contextWeight (after "missed_emergency" n) == 1.5) ∧
  0.3 < Client.motionSensitivity (after "false_positive" 23%nat) ∧
  0.5 < Client.contextWeight (after "false_positive" 11%nat) ∧
  Client.motionSensitivity (after "missed_emergency" 14%nat) < 2.0 ∧
  Client.contextWeight (after "missed_emergency" 20%nat) < 1.5.
Proof.
  cbv zeta. split; [| split; [| split; [| split]]].
  - apply false_positives_reach_floor.
  - apply false_positives_reach_context_floor.
  - apply missed_emergencies_reach_ceiling.
  - apply missed_emergencies_reach_context_ceiling.
  - repeat split; vm_compute; reflexivity.
Qed.

Lemma feedback_saturates_witness :
  Client.motionSensitivity
    (Client.userThresholds (Client.feedback "false_positive" 30 Client.new)) == 0.3.
Proof.
  destruct (feedback_saturates 30) as (Hfloor & _).
  apply Hfloor. lia.
Defined.

(** ** The classifiers *)

(** X9. The two classifiers of the client give the same level for every
    score other than 40 and 70, NaN and the infinities included. *)
Theorem classifiers_agree_off_boundaries (score : jsnum) :
  (∀ q, score = Num q → ¬ q == 40 ∧ ¬ q == 70) →
  Client.classifyEmergency score = SensorContext.status score.
Proof.
  intros Hoff. destruct score as [|q| |]; try reflexivity.
  destruct (Hoff q eq_refl) as [H40 H70].
  destruct (classifyEmergency_cases q) as (Clow & Cmid & Chigh).
  destruct (status_cases q) as (Slow & Smid & Shigh).
  destruct (Qlt_le_dec q 40) as [Hlow | Hmid].
  - rewrite Clow, Slow; [reflexivity | lra | exact Hlow].
  - assert (H40' : 40 < q).
    { apply Qle_lteq in Hmid. destruct Hmid as [Hlt | Heq]; [exact Hlt |].
      exfalso. apply H40. symmetry. exact Heq. }
    destruct (Qlt_le_dec q 70) as [Hmid' | Hhigh].
    + rewrite Cmid, Smid; [reflexivity | exact H40' | lra | exact Hmid | exact Hmid'].
    + assert (H70' : 70 < q).
      { apply Qle_lteq in Hhigh. destruct Hhigh as [Hlt | Heq]; [exact Hlt |].
        exfalso. apply H70. symmetry. exact Heq. }
      rewrite Chigh, Shigh; [reflexivity | exact H70' | exact Hhigh].
Qed.

Lemma classifiers_agree_off_boundaries_witness :
  Client.classifyEmergency (Num 55) = SensorContext.status (Num 55).
Proof.
  apply classifiers_agree_off_boundaries.
  intros q Hq. injection Hq as <-. split; intros Heq; vm_compute in Heq; discriminate Heq.
Defined.

(** ** The simplified detector *)

(** X10. The simplified detector of AuthContext votes: its status is
    [emergency] exactly when all three indicators fire (strong motion,
    irregular motion, long inactivity), [suspicious] when exactly two
    fire, and [safe] otherwise; the score is never above 100. *)
Theorem simplified_detector_votes `{StringToNumber} (motion : value) (score : Q)
    (status : level) :
  AuthContext.processRealSensorData motion = Ok (score, status) →
  status = match Facts.firing (Facts.indicators motion) with
           | 3 => emergency
           | 2 => suspicious
           | _ => safe
           end%nat ∧
  0 <= score <= 100.
Proof.
  unfold AuthContext.processRealSensorData, Facts.indicators, Facts.firing.
  intros Hrun.
  assert (Hpresent : Server.notNullish motion = true).
  { destruct motion; try reflexivity; discriminate Hrun. }
  rewrite !(getProp_notNullish motion _ Hpresent) in Hrun. simpl in Hrun.
  injection Hrun as <- <-.
  destruct (js_gt (getPropOpt motion "magnitude") 20),
           (js_gt (getPropOpt motion "variance") 10),
           (js_gt (getPropOpt motion "inactivityDuration") 30000);
    (split; [reflexivity | vm_compute; split; discriminate]).
Qed.

Lemma simplified_detector_votes_witness :
  ∃ score, AuthContext.processRealSensorData (H := Examples.digitsOnly)
             Examples.scenarioMotion = Ok (score, emergency).
Proof.
  destruct (simplified_detector_votes (H := Examples.digitsOnly) Examples.scenarioMotion
              100 emergency) as [_ _]; [reflexivity |].
  exists 100. reflexivity.
Defined.

(** ** The motion history *)

Lemma scanBack_bound (now : Z) (fromLast : list RealSensor.sample) (acc : Z) :
  Forall (λ entry, RealSensor.withinWindow now entry = true) fromLast →
  (acc <= 2000)%Z →
  (RealSensor.scanBack now fromLast acc <= 2000)%Z.
Proof.
  intros Hall. revert acc. induction Hall as [|entry earlier Hentry _ IH]; intros acc Hacc.
  - exact Hacc.
  - cbn [RealSensor.scanBack]. destruct (num_ltb _ _); [exact Hacc |].
    apply IH. unfold RealSensor.withinWindow in Hentry. lia.
Qed.

Lemma pushSample_window (now : Z) (m : jsnum) (motionHistory : list RealSensor.sample) :
  Forall (λ entry, RealSensor.withinWindow now entry = true)
    (RealSensor.pushSample now m motionHistory).
Proof.
  unfold RealSensor.pushSample. apply Forall_forall. intros entry Hin.
  apply list_elem_of_In, filter_In in Hin. tauto.
Qed.

Lemma inactivity_bound (now : Z) (m : jsnum) (motionHistory : list RealSensor.sample) :
  (RealSensor.inactivityDuration now (RealSensor.pushSample now m motionHistory) <= 2000)%Z.
Proof.
  unfold RealSensor.inactivityDuration. apply scanBack_bound; [| lia].
  apply Forall_forall. intros entry Hin. apply list_elem_of_In, in_rev in Hin.
  pose proof (pushSample_window now m motionHistory) as Hall.
  rewrite Forall_forall in Hall. apply Hall. by apply list_elem_of_In.
Qed.

(** X11. The sensor manager keeps two seconds of motion history, so the
    inactivity it reports is never above 2000 ms, whatever the earlier
    history and the readings are; the simplified detector asks for more
    than 30000 ms. So on the readings of the sensor manager the third
    indicator never fires: the detector's score is at most 70 and its
    status is never [emergency]. *)
Theorem real_sensor_never_emergency `{StringToNumber}
    (acceleration accelerationIncludingGravity rotationRate magnitude variance
       interval : value)
    (m : jsnum) (now : Z) (motionHistory : list RealSensor.sample) :
  let reading :=
    (RealSensor.handleMotion acceleration accelerationIncludingGravity rotationRate
       magnitude variance interval m now motionHistory).2 in
  getProp reading "inactivityDuration"
  = Ok (VNum (inject_Z (RealSensor.inactivityDuration now
                          (RealSensor.pushSample now m motionHistory)))) ∧
  (RealSensor.inactivityDuration now (RealSensor.pushSample now m motionHistory) <= 2000)%Z ∧
  ∃ score status,
    AuthContext.processRealSensorData reading = Ok (score, status) ∧
    score <= 70 ∧ status ≠ emergency.
Proof.
  intros reading. split; [reflexivity |].
  pose proof (inactivity_bound now m motionHistory) as Hbound.
  split; [exact Hbound |].
  subst reading. unfold RealSensor.handleMotion, RealSensor.motionData,
    AuthContext.processRealSensorData. simpl.
  set (d := RealSensor.inactivityDuration now (RealSensor.pushSample now m motionHistory))
    in *.
  assert (Hquiet : js_gt (VNum (inject_Z d)) 30000 = false).
  { unfold js_gt. simpl. apply Qltb_ge. unfold Qle. simpl. lia. }
  rewrite Hquiet. eexists _, _. split; [reflexivity |].
  destruct (js_gt magnitude 20), (js_gt variance 10); simpl;
    (split; [vm_compute; discriminate | discriminate]).
Qed.

(** ** Feedback and the client's total *)

Lemma clamp_shrinks (lo hi x y : Q) : lo <= x → y <= x → Client.clamp lo hi y <= x.
Proof.
  intros Hlo Hy. unfold Client.clamp. apply Q.max_lub; [exact Hlo |].
  eapply Qle_trans; [apply Q.le_min_r | exact Hy].
Qed.

Lemma clamp_grows (lo hi x y : Q) : lo <= hi → x <= hi → x <= y → x <= Client.clamp lo hi y.
Proof.
  intros Hle Hhi Hy. unfold Client.clamp.
  eapply Qle_trans; [| apply Q.le_max_r]. apply Q.min_glb; assumption.
Qed.

Lemma scale_le (k x y : Q) : 0 <= k → x <= y → k * x <= k * y.
Proof.
  intros Hk Hxy. rewrite (Qmult_comm k x), (Qmult_comm k y).
  by apply Qmult_le_compat_r.
Qed.

Lemma weightedTotal_finite (t : Client.thresholds) (s c l cr : Q) :
  Client.weightedTotal t (Num s) (Num c) (Num l) (Num cr)
  = Num (Qmin 100 (s * 0.5 * Client.motionSensitivity t
                   + c * 0.2 * Client.contextWeight t + l * 0.2 + cr * 0.1)).
Proof. reflexivity. Qed.

(** X12. Feedback moves the client's total in the intended direction. For
    a detector whose thresholds are in range and for non-negative
    sub-scores, the weighted total computed after a [false_positive] is
    not above the one computed before, the one computed after a
    [missed_emergency] is not below it, and both lie in [0, 100]. *)
Theorem feedback_moves_total (d : Client.detector) (s c l cr : Q) :
  Facts.inRange (Client.userThresholds d) →
  0 <= s → 0 <= c → 0 <= l → 0 <= cr →
  ∃ lower before higher,
    Client.weightedTotal (Client.userThresholds (Client.updateThresholds "false_positive" d))
      (Num s) (Num c) (Num l) (Num cr) = Num lower ∧
    Client.weightedTotal (Client.userThresholds d) (Num s) (Num c) (Num l) (Num cr)
    = Num before ∧
    Client.weightedTotal (Client.userThresholds (Client.updateThresholds "missed_emergency" d))
      (Num s) (Num c) (Num l) (Num cr) = Num higher ∧
    0 <= lower ∧ lower <= before ∧ before <= higher ∧ higher <= 100.
Proof.
  intros (Hm & Ha & Hc) Hs Hcs Hl Hcr.
  rewrite !weightedTotal_finite. eexists _, _, _.
  split; [reflexivity |]. split; [reflexivity |]. split; [reflexivity |].
  set (t := Client.userThresholds d) in *.
  set (down := Client.userThresholds (Client.updateThresholds "false_positive" d)).
  set (up := Client.userThresholds (Client.updateThresholds "missed_emergency" d)).
  assert (Hdown_m : Client.motionSensitivity down <= Client.motionSensitivity t).
  { subst down t. unfold Client.updateThresholds. simpl. apply clamp_shrinks; lra. }
  assert (Hdown_c : Client.contextWeight down <= Client.contextWeight t).
  { subst down t. unfold Client.updateThresholds. simpl.
    destruct (5 <? S (Client.falsePositiveCount d))%nat; apply clamp_shrinks; lra. }
  assert (Hup_m : Client.motionSensitivity t <= Client.motionSensitivity up).
  { subst up t. unfold Client.updateThresholds. simpl. apply clamp_grows; lra. }
  assert (Hup_c : Client.contextWeight t <= Client.contextWeight up).
  { subst up t. unfold Client.updateThresholds. simpl. apply clamp_grows; lra. }
  assert (Hdown_m0 : 0.3 <= Client.motionSensitivity down)
    by apply updateThresholds_motion_floor.
  assert (Hdown_c0 : 0.5 <= Client.contextWeight down).
  { subst down. unfold Client.updateThresholds. simpl. apply clamp_lower. }
  repeat split.
  - apply Q.min_glb; [lra |].
    assert (0 <= s * 0.5 * Client.motionSensitivity down) by (apply Qmult_le_0_compat; lra).
    assert (0 <= c * 0.2 * Client.contextWeight down) by (apply Qmult_le_0_compat; lra).
    lra.
  - apply Q.min_le_compat_l.
    assert (s * 0.5 * Client.motionSensitivity down <= s * 0.5 * Client.motionSensitivity t)
      by (apply scale_le; [apply Qmult_le_0_compat; lra | assumption]).
    assert (c * 0.2 * Client.contextWeight down <= c * 0.2 * Client.contextWeight t)
      by (apply scale_le; [apply Qmult_le_0_compat; lra | assumption]).
    lra.
  - apply Q.min_le_compat_l.
    assert (s * 0.5 * Client.motionSensitivity t <= s * 0.5 * Client.motionSensitivity up)
      by (apply scale_le; [apply Qmult_le_0_compat; lra | assumption]).
    assert (c * 0.2 * Client.contextWeight t <= c * 0.2 * Client.contextWeight up)
      by (apply scale_le; [apply Qmult_le_0_compat; lra | assumption]).
    lra.
  - apply Q.le_min_l.
Qed.

Lemma feedback_moves_total_witness :
  ∃ lower before,
    Client.weightedTotal
      (Client.userThresholds (Client.updateThresholds "false_positive" Client.new))
      (Num 54) (Num 15) (Num 10) (Num 0) = Num lower ∧
    Client.weightedTotal (Client.userThresholds Client.new)
      (Num 54) (Num 15) (Num 10) (Num 0) = Num before ∧
    lower <= before.
Proof.
  destruct (feedback_moves_total Client.new 54 15 10 0)
    as (lower & before & higher & Hlower & Hbefore & _ & _ & Hle & _).
  - unfold Facts.inRange, Qle. simpl. lia.
  - unfold Qle. simpl. lia.
  - unfold Qle. simpl. lia.
  - unfold Qle. simpl. lia.
  - unfold Qle. simpl. lia.
  - exists lower, before. auto.
Defined.

(** ** The countdown *)

Section CountdownSteps.
Import Countdown.

Lemma existsb_eqb_In (i : nat) (l : list nat) : existsb (Nat.eqb i) l = true ↔ In i l.
Proof.
  rewrite existsb_exists. split.
  - intros (j & Hin & Heq). apply Nat.eqb_eq in Heq. by subst.
  - intros Hin. exists i. split; [exact Hin | apply Nat.eqb_refl].
Qed.

Lemma tick_cleared (i : nat) (st : state) : ¬ In i (live st) → tick i st = st.
Proof.
  intros Hout. unfold tick.
  destruct (existsb (Nat.eqb i) (live st)) eqn:Hin; [| reflexivity].
  apply existsb_eqb_In in Hin. contradiction.
Qed.

Lemma tick_counts_down (i : nat) (st : state) (n : Z) :
  In i (live st) → sosCountdown st = Some n → (1 < n)%Z →
  tick i st = {| sosCountdown := Some (n - 1)%Z; live := live st;
                 windowInterval := windowInterval st;
                 nextInterval := nextInterval st; alerts := alerts st |}.
Proof.
  intros Hin Hn Hgt. unfold tick. apply existsb_eqb_In in Hin. rewrite Hin, Hn. simpl.
  destruct (n <=? 1)%Z eqn:Hle; [lia | reflexivity].
Qed.

Lemma tick_fires (i : nat) (st : state) :
  In i (live st) → expired (sosCountdown st) = true →
  tick i st = {| sosCountdown := None; live := clearInterval i (live st);
                 windowInterval := windowInterval st;
                 nextInterval := nextInterval st; alerts := S (alerts st) |}.
Proof.
  intros Hin Hexp. unfold tick. apply existsb_eqb_In in Hin. by rewrite Hin, Hexp.
Qed.

Lemma clearInterval_out (i : nat) (l : list nat) : ¬ In i (clearInterval i l).
Proof.
  unfold clearInterval. rewrite filter_In. intros [_ Hne].
  by rewrite Nat.eqb_refl in Hne.
Qed.

Lemma ticks_after_trigger (st : state) (k : nat) :
  (k <= 4)%nat →
  run (trigger st) (repeat (Tick (nextInterval st)) k)
  = {| sosCountdown := Some (5 - Z.of_nat k)%Z;
       live := nextInterval st :: live st;
       windowInterval := Some (nextInterval st);
       nextInterval := S (nextInterval st);
       alerts := alerts st |}.
Proof.
  induction k as [|k IH]; intros Hk.
  - reflexivity.
  - replace (S k) with (k + 1)%nat by lia.
    rewrite repeat_app. unfold run in *. rewrite fold_left_app, IH by lia. simpl.
    erewrite tick_counts_down; [| by left | reflexivity | lia].
    f_equal. f_equal. lia.
Qed.

Lemma quiet_without_trigger (es : list event) (st : state) :
  live st = [] → forallb (λ e, negb (isTrigger e)) es = true →
  alerts (run st es) = alerts st ∧ live (run st es) = [].
Proof.
  revert st. induction es as [|e es IH]; intros st Hlive Hes; [by split |].
  simpl in Hes. apply andb_true_iff in Hes. destruct Hes as [He Hes].
  destruct e as [|i|]; try discriminate He; simpl.
  - rewrite tick_cleared by (rewrite Hlive; intros []). by apply IH.
  - destruct (IH (cancel st)) as [Halerts Hquiet]; [| exact Hes | by split].
    unfold cancel. simpl. rewrite Hlive.
    by destruct (windowInterval st) as [[|j]|].
Qed.

End CountdownSteps.

(** X13. A countdown that is left alone sends the alert on its fifth tick
    and not before: after the trigger and [k <= 4] ticks no alert has been
    sent and the countdown shows [5 - k]; the fifth tick sends exactly one
    alert, clears the interval and resets the countdown, and the interval
    never ticks again. *)
Theorem countdown_fires_on_fifth_tick (st : Countdown.state) (k : nat) :
  let i := Countdown.nextInterval st in
  let ticks n := repeat (Countdown.Tick i) n in
  (k <= 4)%nat →
  Countdown.alerts (Countdown.run st (Countdown.Trigger :: ticks k)) = Countdown.alerts st ∧
  Countdown.sosCountdown (Countdown.run st (Countdown.Trigger :: ticks k))
  = Some (5 - Z.of_nat k)%Z ∧
  let fired := Countdown.run st (Countdown.Trigger :: ticks 5%nat) in
  Countdown.alerts fired = S (Countdown.alerts st) ∧
  Countdown.sosCountdown fired = None ∧
  ¬ In i (Countdown.live fired) ∧
  ∀ n, Countdown.run fired (ticks n) = fired.
Proof.
  intros i ticks Hk. subst ticks i. cbv beta.
  set (i := Countdown.nextInterval st).
  change (Countdown.run st (Countdown.Trigger :: repeat (Countdown.Tick i) k))
    with (Countdown.run (Countdown.trigger st) (repeat (Countdown.Tick i) k)).
  change (Countdown.run st (Countdown.Trigger :: repeat (Countdown.Tick i) 5))
    with (Countdown.tick i (Countdown.run (Countdown.trigger st)
                              (repeat (Countdown.Tick i) 4))).
  subst i. rewrite !ticks_after_trigger by lia. simpl.
  split; [reflexivity |]. split; [reflexivity |].
  erewrite tick_fires; [| by left | reflexivity]. simpl.
  split; [reflexivity |]. split; [reflexivity |].
  assert (Hout : ¬ In (Countdown.nextInterval st)
                   (Countdown.clearInterval (Countdown.nextInterval st)
                      (Countdown.nextInterval st :: Countdown.live st)))
    by apply clearInterval_out.
  split; [exact Hout |].
  intros n. induction n as [|n IH]; [reflexivity |].
  simpl. rewrite tick_cleared by exact Hout. exact IH.
Qed.

Lemma countdown_fires_on_fifth_tick_witness :
  Countdown.alerts
    (Countdown.run Countdown.idle
       (Countdown.Trigger :: repeat (Countdown.Tick 1) 3)) = 0%nat ∧
  Countdown.alerts
    (Countdown.run Countdown.idle
       (Countdown.Trigger :: repeat (Countdown.Tick 1) 5)) = 1%nat.
Proof.
  destruct (countdown_fires_on_fifth_tick Countdown.idle 3) as (Hquiet & _ & Hfired & _);
    [lia |].
  split; [exact Hquiet | exact Hfired].
Defined.

(** X14. Cancelling stops a countdown: when no other countdown is
    running, a trigger followed by at most four ticks and a cancellation
    sends no alert, resets the countdown and leaves no interval alive, and
    no later tick or cancellation sends an alert. *)
Theorem cancel_stops_countdown (st : Countdown.state) (k : nat)
    (later : list Countdown.event) :
  Countdown.live st = [] →
  (0 < Countdown.nextInterval st)%nat →
  (k <= 4)%nat →
  forallb (λ e, negb (Countdown.isTrigger e)) later = true →
  let cancelled :=
    Countdown.run st (Countdown.Trigger :: repeat (Countdown.Tick (Countdown.nextInterval st)) k
                        ++ [Countdown.Cancel]) in
  Countdown.sosCountdown cancelled = None ∧
  Countdown.live cancelled = [] ∧
  Countdown.alerts (Countdown.run cancelled later) = Countdown.alerts st.
Proof.
  intros Hlive Hpositive Hk Hlater cancelled.
  assert (Hcancelled : cancelled
            = {| Countdown.sosCountdown := None; Countdown.live := [];
                 Countdown.windowInterval := None;
                 Countdown.nextInterval := S (Countdown.nextInterval st);
                 Countdown.alerts := Countdown.alerts st |}).
  { subst cancelled.
    change (Countdown.run st (Countdown.Trigger :: ?es))
      with (Countdown.run (Countdown.trigger st) es).
    unfold Countdown.run. rewrite fold_left_app.
    fold (Countdown.run (Countdown.trigger st)
            (repeat (Countdown.Tick (Countdown.nextInterval st)) k)).
    rewrite ticks_after_trigger by exact Hk. simpl.
    unfold Countdown.cancel. simpl. rewrite Hlive.
    destruct (Countdown.nextInterval st) as [|i] eqn:Hnext; [lia |]. simpl.
    by rewrite Nat.eqb_refl. }
  rewrite Hcancelled. simpl. split; [reflexivity |]. split; [reflexivity |].
  match goal with
  | |- Countdown.alerts (Countdown.run ?quiet later) = _ =>
      destruct (quiet_without_trigger later quiet) as [-> _]; [| exact Hlater |]; reflexivity
  end.
Qed.

Lemma cancel_stops_countdown_witness :
  Countdown.alerts
    (Countdown.run
       (Countdown.run Countdown.idle
          (Countdown.Trigger :: repeat (Countdown.Tick 1) 4 ++ [Countdown.Cancel]))
       [Countdown.Tick 1; Countdown.Tick 1; Countdown.Cancel; Countdown.Tick 1]) = 0%nat.
Proof.
  apply (cancel_stops_countdown Countdown.idle 4
           [Countdown.Tick 1; Countdown.Tick 1; Countdown.Cancel; Countdown.Tick 1]);
    [reflexivity | simpl; lia | lia | reflexivity].
Defined.

(** X15. Cancelling stops only the countdown started last. After two
    triggers in a row the cancellation clears the second interval and
    resets the countdown, but the first interval is still alive, and its
    next tick finds the countdown reset and sends the alert. *)
Theorem orphaned_countdown_fires (st : Countdown.state) :
  let first := Countdown.nextInterval st in
  let cancelled :=
    Countdown.run st [Countdown.Trigger; Countdown.Trigger; Countdown.Cancel] in
  Countdown.sosCountdown cancelled = None ∧
  Countdown.windowInterval cancelled = None ∧
  Countdown.alerts cancelled = Countdown.alerts st ∧
  In first (Countdown.live cancelled) ∧
  Countdown.alerts (Countdown.run cancelled [Countdown.Tick first])
  = S (Countdown.alerts st).
Proof.
  intros first cancelled. subst cancelled first.
  unfold Countdown.run. simpl. unfold Countdown.cancel. simpl.
  rewrite Nat.eqb_refl. simpl.
  assert (Hother : Nat.eqb (Countdown.nextInterval st) (S (Countdown.nextInterval st)) = false)
    by (apply Nat.eqb_neq; lia).
  rewrite Hother. simpl.
  split; [reflexivity |]. split; [reflexivity |]. split; [reflexivity |].
  split; [by left |].
  erewrite tick_fires; [reflexivity | by left | reflexivity].
Qed.


(** ** Alerts and the location *)

Section AlertText.
Context `{Platform}.
Variables (userId : string) (emergencyData locationData : value).

Lemma no_text_without_lastUpdate (r : recipient) :
  truthy locationData = true →
  Server.notNullish (getPropOpt locationData "lastUpdate") = false →
  Notification.generateEmergencyAlertHTML r userId emergencyData locationData
  = Throw TypeError.
Proof.
  intros Htruthy Hmissing. unfold Notification.generateEmergencyAlertHTML.
  rewrite Htruthy, !(getProp_truthy locationData _ Htruthy). simpl.
  destruct (getPropOpt locationData "latitude"); try reflexivity.
  destruct (getPropOpt locationData "longitude"); try reflexivity.
  by destruct (getPropOpt locationData "lastUpdate").
Qed.


Lemma all_sends_fail (recipients : list recipient) (st : Notification.loopState) :
  (∀ r, Notification.generateEmergencyAlertHTML r userId emergencyData locationData
        = Throw TypeError) →
  let st' := fold_left (Notification.sendOne userId emergencyData locationData)
               recipients st in
  Notification.world st' = Notification.world st ∧
  Notification.outbox st' = Notification.outbox st ∧
  Notification.successful (Notification.results st')
  = Notification.successful (Notification.results st) ∧
  Notification.failed (Notification.results st')
  = (Notification.failed (Notification.results st) + length recipients)%nat ∧
  Notification.total (Notification.results st')
  = Notification.total (Notification.results st).
Proof.
  intros Hthrows. revert st.
  induction recipients as [|r recipients IH]; intros st; simpl.
  - repeat split. lia.
  - assert (Hstep : Notification.sendOne userId emergencyData locationData st r
                    = {| Notification.world := Notification.world st;
                         Notification.results :=
                           Notification.recordFailed r TypeError (Notification.results st);
                         Notification.outbox := Notification.outbox st |})
      by (unfold Notification.sendOne; by rewrite Hthrows).
    destruct (IH (Notification.sendOne userId emergencyData locationData st r))
      as (Hw & Ho & Hs & Hf & Ht).
    rewrite Hw, Ho, Hs, Hf, Ht, Hstep. simpl. repeat split. lia.
Qed.



End AlertText.

(** X16. An alert for which the caller passes a location without a
    [lastUpdate] field, as the client's location service builds it, reaches
    nobody: the alert text cannot be generated for any recipient, so every
    recipient is counted as failed, no message is handed to the mail
    transport, and the service still answers that the location was
    included. *)
Theorem client_location_blocks_alerts `{Platform} (db : firestore) (userId : string)
    (emergencyData locationData : value) (w : World) :
  truthy locationData = true →
  Server.notNullish (getPropOpt locationData "lastUpdate") = false →
  Notification.contactsOf db userId ≠ [] →
  ∃ emailed,
    Notification.sendEmergencyAlert db userId emergencyData locationData w
    = (w, Notification.AlertsSent emailed true, []) ∧
    Notification.successful emailed = 0%nat ∧
    Notification.failed emailed = Notification.total emailed ∧
    Notification.total emailed
    = S (length (List.filter Notification.eligible (Notification.contactsOf db userId))).
Proof.
  intros Htruthy Hmissing Hcontacts.
  unfold Notification.sendEmergencyAlert.
  rewrite resolveRecipients_some by exact Hcontacts.
  assert (Hsame : match locationData with VUndefined => VNull | v => v end = locationData)
    by (destruct locationData; try reflexivity; discriminate Htruthy).
  rewrite Hsame, Htruthy. simpl.
  set (recipients := Notification.buildRecipients (Notification.contactsOf db userId)).
  pose proof (all_sends_fail userId emergencyData locationData recipients
                {| Notification.world := w;
                   Notification.results :=
                     {| Notification.total := length recipients;
                        Notification.successful := 0;
                        Notification.failed := 0;
                        Notification.details := [] |};
                   Notification.outbox := [] |}) as Hfail.
  cbv zeta in Hfail. simpl in Hfail.
  destruct Hfail as (Hw & Ho & Hs & Hf & Ht).
  { intros r. by apply no_text_without_lastUpdate. }
  unfold Notification.dispatch. fold recipients. rewrite Hw, Ho.
  assert (Hnull : Notification.is_null locationData = false)
    by (destruct locationData; try reflexivity; discriminate Htruthy).
  rewrite Hnull. simpl. eexists. split; [reflexivity |].
  split; [exact Hs |]. split; [congruence |].
  rewrite Ht. subst recipients. rewrite buildRecipients_spec. simpl.
  by rewrite length_map.
Qed.

(** Alice's alert with the position her phone reported: three recipients,
    three failures, nothing sent. *)
Lemma client_location_blocks_alerts_witness :
  ∃ emailed,
    Notification.sendEmergencyAlert (H := Examples.flaky) Examples.store "alice"
      Examples.alertData Samples.clientLocation 0%nat
    = (0%nat, Notification.AlertsSent emailed true, []) ∧
    Notification.failed emailed = 3%nat.
Proof.
  destruct (client_location_blocks_alerts (H := Examples.flaky) Examples.store "alice"
              Examples.alertData Samples.clientLocation 0%nat)
    as (emailed & Hrun & _ & Hfailed & Htotal);
    [reflexivity | reflexivity | discriminate |].
  exists emailed. split; [exact Hrun |]. rewrite Hfailed, Htotal. reflexivity.
Defined.





(** ** Reports *)

Section Reports.
Context `{StringToNumber} `{Platform}.

(** What a report that is answered has done. *)
Lemma reportBody_inv (clk : clock) (isoNow docId : string) (u : Routes.user) (body : value)
    (st st' : Routes.server) (resp : Routes.response) :
  Routes.reportBody clk isoNow docId u body st = Ok (st', resp) →
  ∃ location record answer alertData,
    getProp body "location" = Ok location ∧
    lookupField "userId" record = VStr (Routes.uid u) ∧
    lookupField "status" record = VStr "active" ∧
    lookupField "resolved" record = VBool false ∧
    lookupField "location" record = location ∧
    resp = Routes.Json 200 answer ∧
    Routes.db st'
    = {| emergencies := <[docId := record]> (emergencies (Routes.db st));
         learning_data := learning_data (Routes.db st);
         emergency_contacts := emergency_contacts (Routes.db st);
         sos_events := sos_events (Routes.db st) |} ∧
    Routes.dashboard st'
    = (Routes.dashboard st ++ [("new-emergency", VObj (("id", VStr docId) :: record))])%list ∧
    Routes.mail st'
    = (Notification.sendEmergencyAlert (Routes.db st') (Routes.uid u) alertData location
         (sendEmergencyNotifications (Routes.uid u)
            (VObj (("id", VStr docId) :: record)) (Routes.mail st))).1.1.
Proof.
  unfold Routes.reportBody. intros Hrun.
  apply bind_Ok in Hrun. destruct Hrun as (sensorData & _ & Hrun).
  apply bind_Ok in Hrun. destruct Hrun as (location & Hlocation & Hrun).
  apply bind_Ok in Hrun. destruct Hrun as (contextData & _ & Hrun).
  apply bind_Ok in Hrun. destruct Hrun as (timestamp & _ & Hrun).
  apply bind_Ok in Hrun. destruct Hrun as (manual & _ & Hrun).
  apply bind_Ok in Hrun. destruct Hrun as (emergencyScore & _ & Hrun).
  apply bind_Ok in Hrun. destruct Hrun as (total & _ & Hrun).
  apply bind_Ok in Hrun. destruct Hrun as (bd & _ & Hrun).
  destruct (validAdd _) eqn:Hvalid; simpl in Hrun; [| discriminate Hrun].
  unfold Routes.emit in Hrun. cbn [Routes.db Routes.mail Routes.dashboard] in Hrun.
  destruct (Notification.sendEmergencyAlert _ _ _ _ _) as [[w answer] sentMails] eqn:Halert.
  injection Hrun as <- <-. cbn [Routes.db Routes.mail Routes.dashboard].
  eexists location, _, _, _. rewrite Halert.
  repeat split; try reflexivity. exact Hlocation.
Qed.

Lemma report_answered (clk : clock) (isoNow docId : string) (u : Routes.user) (body : value)
    (st st' : Routes.server) (answer : value) :
  Routes.report clk isoNow docId u body st = (st', Routes.Json 200 answer) →
  Routes.reportBody clk isoNow docId u body st = Ok (st', Routes.Json 200 answer).
Proof.
  unfold Routes.report.
  destruct (Routes.reportBody clk isoNow docId u body st) as [[st1 resp]|e];
    intros Hrun; [by rewrite Hrun | discriminate Hrun].
Qed.

Lemma alert_leaves_world (db : firestore) (userId : string)
    (emergencyData locationData : value) (w : World) :
  truthy locationData = true →
  Server.notNullish (getPropOpt locationData "lastUpdate") = false →
  (Notification.sendEmergencyAlert db userId emergencyData locationData w).1.1 = w.
Proof.
  intros Htruthy Hmissing. unfold Notification.sendEmergencyAlert.
  destruct (Notification.resolveRecipients db userId) as [recipients|]; [| reflexivity].
  assert (Hsame : match locationData with VUndefined => VNull | v => v end = locationData)
    by (destruct locationData; try reflexivity; discriminate Htruthy).
  rewrite Hsame, Htruthy. simpl. unfold Notification.dispatch.
  apply (all_sends_fail userId emergencyData locationData recipients).
  intros r. by apply no_text_without_lastUpdate.
Qed.

End Reports.

(** X19. A report that carries the position of the phone, which has no
    [lastUpdate] field, is stored and answered, but the alert service sends
    no mail for it: the mail transport is left as the notification service
    left it. *)
Theorem report_with_position_mails_nobody `{StringToNumber} `{Platform}
    (clk : clock) (isoNow docId : string) (u : Routes.user) (body answer : value)
    (st st' : Routes.server) :
  Routes.report clk isoNow docId u body st = (st', Routes.Json 200 answer) →
  truthy (getPropOpt body "location") = true →
  Server.notNullish (getPropOpt (getPropOpt body "location") "lastUpdate") = false →
  ∃ record,
    emergencies (Routes.db st') !! docId = Some record ∧
    lookupField "location" record = getPropOpt body "location" ∧
    Routes.mail st'
    = sendEmergencyNotifications (Routes.uid u) (VObj (("id", VStr docId) :: record))
        (Routes.mail st).
Proof.
  intros Hreport Htruthy Hmissing. apply report_answered in Hreport.
  destruct (reportBody_inv _ _ _ _ _ _ _ _ Hreport)
    as (location & record & answer' & alertData & Hlocation & _ & _ & _ & Hstored & _
        & Hdb & _ & Hmail).
  apply getProp_Ok_opt in Hlocation. subst location.
  exists record. split; [by rewrite Hdb; apply lookup_insert_eq |].
  split; [exact Hstored |].
  rewrite Hmail. by apply alert_leaves_world.
Qed.

(** Alice's manual report from the app: answered, and no mail beyond the
    notification service's. *)
Lemma report_with_position_mails_nobody_witness :
  ∃ st' answer,
    Routes.report (H := Examples.digitsOnly) (H0 := Examples.flaky) Examples.noon
      "2024-05-01T12:00:00.000Z" "e2" Examples.alice Samples.positionedReport
      Examples.running
    = (st', Routes.Json 200 answer) ∧
    Routes.mail st' = 0%nat.
Proof.
  eexists _, _. split; [reflexivity |].
  destruct (report_with_position_mails_nobody (H := Examples.digitsOnly)
              (H0 := Examples.flaky) Examples.noon "2024-05-01T12:00:00.000Z" "e2"
              Examples.alice Samples.positionedReport _ Examples.running _ eq_refl)
    as (record & _ & _ & Hmail); [reflexivity | reflexivity |].
  exact Hmail.
Defined.

(** X20. A report has one of two outcomes. Either it is answered 500 and the
    server is as before: no record, no dashboard event, no mail. Or it is
    answered 200 and exactly one record was written, under the new id, owned
    by the authenticated caller whatever the body says, active and
    unresolved; one event went to the dashboard; and the learning data, the
    contacts and the tracking records are untouched. *)
Theorem report_outcomes `{StringToNumber} `{Platform}
    (clk : clock) (isoNow docId : string) (u : Routes.user) (body : value)
    (st : Routes.server) :
  let (st', resp) := Routes.report clk isoNow docId u body st in
  (st' = st ∧
   ∃ details, resp = Routes.Json 500 (VObj [("success", VBool false);
                                            ("error", VStr "Failed to report emergency");
                                            ("details", VStr details)])) ∨
  (∃ record answer,
     resp = Routes.Json 200 answer ∧
     emergencies (Routes.db st') = <[docId := record]> (emergencies (Routes.db st)) ∧
     lookupField "userId" record = VStr (Routes.uid u) ∧
     lookupField "status" record = VStr "active" ∧
     lookupField "resolved" record = VBool false ∧
     Routes.dashboard st'
     = (Routes.dashboard st
        ++ [("new-emergency", VObj (("id", VStr docId) :: record))])%list ∧
     learning_data (Routes.db st') = learning_data (Routes.db st) ∧
     emergency_contacts (Routes.db st') = emergency_contacts (Routes.db st) ∧
     sos_events (Routes.db st') = sos_events (Routes.db st)).
Proof.
  unfold Routes.report.
  destruct (Routes.reportBody clk isoNow docId u body st) as [[st' resp]|e] eqn:Hrun.
  - right.
    destruct (reportBody_inv _ _ _ _ _ _ _ _ Hrun)
      as (location & record & answer & alertData & _ & Howner & Hstatus & Hresolved & _
          & Hresp & Hdb & Hdashboard & _).
    exists record, answer. rewrite Hdb. by repeat split.
  - left. split; [reflexivity |]. by exists e.
Qed.

(** X21. An automatic report needs its readings: when the body has no
    [manual] flag and its [sensorData] or its [contextData] is missing or
    [null], the scoring engine raises, the report is answered 500, and
    nothing is stored, shown on the dashboard or mailed. *)
Theorem automatic_report_needs_readings `{StringToNumber} `{Platform}
    (clk : clock) (isoNow docId : string) (u : Routes.user) (body manual : value)
    (st : Routes.server) :
  getProp body "manual" = Ok manual →
  truthy manual = false →
  Server.notNullish (getPropOpt body "sensorData")
  && Server.notNullish (getPropOpt body "contextData") = false →
  ∃ details,
    Routes.report clk isoNow docId u body st
    = (st, Routes.Json 500 (VObj [("success", VBool false);
                                  ("error", VStr "Failed to report emergency");
                                  ("details", VStr details)])).
Proof.
  intros Hmanual Hfalsy Hmissing.
  assert (Hthrows : ∃ e, Routes.reportBody clk isoNow docId u body st = Throw e).
  { unfold Routes.reportBody.
    assert (Hbody : Server.notNullish body = true)
      by (destruct body; try reflexivity; discriminate Hmanual).
    rewrite !(getProp_notNullish body _ Hbody). simpl.
    rewrite <- (getProp_Ok_opt _ _ _ Hmanual) in Hfalsy. rewrite Hfalsy.
    unfold Server.calculateEmergencyScore.
    apply andb_false_iff in Hmissing. destruct Hmissing as [Hsensor | Hcontext].
    - exists TypeError. unfold Server.analyzeSensorData.
      by destruct (getPropOpt body "sensorData").
    - destruct (Server.analyzeSensorData (getPropOpt body "sensorData")) as [s|e];
        [| by exists e].
      exists TypeError. simpl. unfold Server.analyzeContextData.
      by destruct (getPropOpt body "contextData"). }
  destruct Hthrows as [e He]. exists e. unfold Routes.report. by rewrite He.
Qed.

Lemma automatic_report_needs_readings_witness :
  ∃ details,
    Routes.report (H := Examples.digitsOnly) (H0 := Examples.flaky) Examples.noon
      "2024-05-01T12:00:00.000Z" "e2" Examples.alice Samples.bareReport Examples.running
    = (Examples.running,
       Routes.Json 500 (VObj [("success", VBool false);
                              ("error", VStr "Failed to report emergency");
                              ("details", VStr details)])).
Proof.
  apply (automatic_report_needs_readings (H := Examples.digitsOnly) (H0 := Examples.flaky)
           Examples.noon "2024-05-01T12:00:00.000Z" "e2" Examples.alice Samples.bareReport
           VUndefined Examples.running); reflexivity.
Defined.

(** X26. No automatic report is ever stored. The route reads the
    [breakdown] property of what [calculateEmergencyScore] returns, which is
    the breakdown itself and has no such property, so the record of a report
    without the [manual] flag carries an undefined [breakdown] and the store
    refuses it: whatever the body is, the report is answered 500, and
    nothing is stored, shown on the dashboard or mailed. *)
Theorem automatic_report_never_stored `{StringToNumber} `{Platform}
    (clk : clock) (isoNow docId : string) (u : Routes.user) (body : value)
    (st : Routes.server) :
  truthy (getPropOpt body "manual") = false →
  ∃ details,
    Routes.report clk isoNow docId u body st
    = (st, Routes.Json 500 (VObj [("success", VBool false);
                                  ("error", VStr "Failed to report emergency");
                                  ("details", VStr details)])).
Proof.
  intros Hfalsy.
  assert (Hthrows : ∃ e, Routes.reportBody clk isoNow docId u body st = Throw e).
  { unfold Routes.reportBody.
    destruct (Server.notNullish body) eqn:Hbody;
      [| destruct body; try discriminate Hbody; by eexists].
    rewrite !(getProp_notNullish body _ Hbody). simpl. rewrite Hfalsy.
    destruct (Server.calculateEmergencyScore clk _ _ _) as [b|e]; simpl; [| by exists e].
    rewrite record_refused; [by eexists |].
    simpl. by rewrite andb_false_r. }
  destruct Hthrows as [e He]. exists e. unfold Routes.report. by rewrite He.
Qed.

(** The report the app sends on its own is scored by the engine and then
    refused. *)
Lemma automatic_report_never_stored_witness :
  returns (Server.calculateEmergencyScore (H := Examples.digitsOnly) Examples.noon
             (getPropOpt Samples.automaticReport "sensorData")
             (getPropOpt Samples.automaticReport "contextData")
             (getPropOpt Samples.automaticReport "location")) = true ∧
  ∃ details,
    Routes.report (H := Examples.digitsOnly) (H0 := Examples.flaky) Examples.noon
      "2024-05-01T12:00:00.000Z" "e2" Examples.alice Samples.automaticReport
      Examples.running
    = (Examples.running,
       Routes.Json 500 (VObj [("success", VBool false);
                              ("error", VStr "Failed to report emergency");
                              ("details", VStr details)])).
Proof.
  split; [reflexivity |].
  apply (automatic_report_never_stored (H := Examples.digitsOnly) (H0 := Examples.flaky)
           Examples.noon "2024-05-01T12:00:00.000Z" "e2" Examples.alice
           Samples.automaticReport Examples.running).
  reflexivity.
Defined.

(** ** Requests on stored reports *)

Section Requests.
Context `{StringToNumber} `{Platform}.

Lemma strict_ne_same (s : string) : js_strict_ne_str (VStr s) s = false.
Proof. simpl. by rewrite String.eqb_refl. Qed.

Lemma strict_ne_other (s t : string) : s ≠ t → js_strict_ne_str (VStr s) t = true.
Proof. intros Hne. simpl. apply negb_true_iff. by apply String.eqb_neq. Qed.

End Requests.

(** X22. The caller who reported an emergency can cancel it, and nobody
    else can. After a report that was answered 200, a cancellation of the
    new id by the same caller, when the store accepts the fields it writes,
    leaves the record cancelled and resolved, and is answered 200 unless a
    learning record is refused afterwards. A cancellation whose body has no
    reason writes an undefined [cancelReason]: the store refuses it, and the
    request is answered 500 and changes nothing. A cancellation by a caller
    with another uid is answered 403 and changes nothing. *)
Theorem reporter_can_cancel `{StringToNumber} `{Platform}
    (clk : clock) (isoNow later docId : string) (u other : Routes.user)
    (body answer request reason : value) (st st' : Routes.server) :
  Routes.report clk isoNow docId u body st = (st', Routes.Json 200 answer) →
  getProp request "reason" = Ok reason →
  Routes.uid other ≠ Routes.uid u →
  let snapshot := getPropOpt request "sensorSnapshot" in
  (validUpdate (Routes.cancelPatch later reason) = true →
   ∃ st'' resp,
     Routes.cancel later docId u request st' = (st'', resp) ∧
     (∃ record, emergencies (Routes.db st'') !! docId = Some record ∧
                lookupField "status" record = VStr "cancelled" ∧
                lookupField "resolved" record = VBool true ∧
                lookupField "userId" record = VStr (Routes.uid u)) ∧
     (truthy snapshot = false
      ∨ validAdd (Routes.cancelLearning later docId u snapshot) = true →
      resp = Routes.Json 200 (VObj [("success", VBool true)]))) ∧
  (validUpdate (Routes.cancelPatch later reason) = false →
   Routes.cancel later docId u request st'
   = (st', Routes.Json 500 (VObj [("error", VStr "Failed to cancel emergency")]))) ∧
  (reason = VUndefined → validUpdate (Routes.cancelPatch later reason) = false) ∧
  Routes.cancel later docId other request st'
  = (st', Routes.Json 403 (VObj [("error", VStr "You can only cancel your own emergencies")])).
Proof.
  intros Hreport Hreason Hother snapshot. apply report_answered in Hreport.
  destruct (reportBody_inv _ _ _ _ _ _ _ _ Hreport)
    as (location & record & answer' & alertData & _ & Howner & _ & _ & _ & _ & Hdb & _ & _).
  assert (Hfound : emergencies (Routes.db st') !! docId = Some record)
    by (rewrite Hdb; apply lookup_insert_eq).
  assert (Hpresent : Server.notNullish request = true)
    by (destruct request; try reflexivity; discriminate Hreason).
  assert (Hsnapshot : getProp request "sensorSnapshot" = Ok snapshot)
    by apply (getProp_notNullish request _ Hpresent).
  split; [| split; [| split]].
  - intros Hvalid. unfold Routes.cancel, Routes.cancelBody.
    rewrite Hreason, Hsnapshot. simpl. rewrite Hfound, Howner, strict_ne_same.
    rewrite (updateEmergency_found _ _ _ _ Hvalid Hfound). simpl.
    assert (Hrecord :
              lookupField "status" (mergeFields (Routes.cancelPatch later reason) record)
              = VStr "cancelled" ∧
              lookupField "resolved" (mergeFields (Routes.cancelPatch later reason) record)
              = VBool true ∧
              lookupField "userId" (mergeFields (Routes.cancelPatch later reason) record)
              = VStr (Routes.uid u)).
    { unfold mergeFields. simpl. rewrite lookupField_setField_eq.
      rewrite !(lookupField_setField_ne "status") by discriminate.
      rewrite !(lookupField_setField_ne "userId") by discriminate.
      by rewrite lookupField_setField_eq. }
    destruct (truthy snapshot) eqn:Htruthy; simpl.
    + destruct (validAdd (Routes.cancelLearning later docId u snapshot)) eqn:Hadd; simpl.
      * eexists _, _. split; [reflexivity |]. split; [| done].
        eexists. split; [apply lookup_insert_eq | exact Hrecord].
      * eexists _, _. split; [reflexivity |]. split; [| by intros [|]].
        eexists. split; [apply lookup_insert_eq | exact Hrecord].
    + eexists _, _. split; [reflexivity |]. split; [| done].
      eexists. split; [apply lookup_insert_eq | exact Hrecord].
  - intros Hrefused. unfold Routes.cancel, Routes.cancelBody.
    rewrite Hreason, Hsnapshot. simpl. rewrite Hfound, Howner, strict_ne_same.
    by rewrite (updateEmergency_refused _ _ _ Hrefused).
  - intros ->. by apply undefined_refused_update.
  - unfold Routes.cancel, Routes.cancelBody.
    rewrite Hreason, Hsnapshot. simpl. rewrite Hfound, Howner.
    rewrite strict_ne_other by congruence. reflexivity.
Qed.

(** Alice reports by hand from the app and cancels; Mallory's cancellation
    of the same emergency is refused. *)
Lemma reporter_can_cancel_witness :
  ∃ st' st'',
    Routes.cancel (H0 := Examples.flaky) "2024-05-01T12:01:00.000Z" "e2" Examples.alice
      Examples.falseAlarm st'
    = (st'', Routes.Json 200 (VObj [("success", VBool true)])) ∧
    Routes.cancel (H0 := Examples.flaky) "2024-05-01T12:01:00.000Z" "e2" Examples.mallory
      Examples.falseAlarm st'
    = (st', Routes.Json 403
              (VObj [("error", VStr "You can only cancel your own emergencies")])).
Proof.
  destruct (reporter_can_cancel (H := Examples.digitsOnly) (H0 := Examples.flaky)
              Examples.noon "2024-05-01T12:00:00.000Z" "2024-05-01T12:01:00.000Z" "e2"
              Examples.alice Examples.mallory Samples.positionedReport _ Examples.falseAlarm
              (VStr "false alarm") Examples.running _ eq_refl)
    as (Hcancel & _ & _ & Hrefused); [reflexivity | discriminate |].
  destruct (Hcancel eq_refl) as (st'' & resp & Hrun & _ & Hok).
  eexists _, st''. split; [| exact Hrefused].
  rewrite Hrun. f_equal. apply Hok. by left.
Defined.

Ltac lifecycle_keys :=
  intros ?k; simpl; unfold Facts.lifecycleFields;
  rewrite !elem_of_cons, !elem_of_nil; tauto.

Section Undisturbed.
Context `{StringToNumber} `{Platform}.

Lemma sameReport_refl (record : doc) : Facts.sameReport record record.
Proof. by intros k _. Qed.

Lemma sameReport_trans (a b c : doc) :
  Facts.sameReport a b → Facts.sameReport b c → Facts.sameReport a c.
Proof. intros Hab Hbc k Hk. by rewrite (Hbc k Hk), (Hab k Hk). Qed.

Lemma sameReport_merge (patch record : doc) :
  patch.*1 ⊆ Facts.lifecycleFields → Facts.sameReport record (mergeFields patch record).
Proof.
  intros Hkeys k Hk. apply lookupField_mergeFields_other.
  intros Hin. apply Hk, Hkeys, Hin.
Qed.

Lemma undisturbed_refl (st : Routes.server) : Facts.undisturbed st st.
Proof.
  repeat split; try reflexivity.
  intros id. destruct (emergencies (Routes.db st) !! id); constructor.
  apply sameReport_refl.
Qed.

Lemma undisturbed_trans (a b c : Routes.server) :
  Facts.undisturbed a b → Facts.undisturbed b c → Facts.undisturbed a c.
Proof.
  intros (Hm & Hc & Hs & Hl & Hd & Hr) (Hm' & Hc' & Hs' & Hl' & Hd' & Hr').
  repeat split; try congruence; try (etrans; eassumption).
  intros id. specialize (Hr id). specialize (Hr' id).
  destruct Hr as [x y Hxy|]; inversion Hr' as [y' z Hyz|]; subst; constructor.
  by apply (sameReport_trans x y z).
Qed.

Lemma undisturbed_update (id : string) (patch record : doc) (st : Routes.server)
    (learning : list doc) (events : list (string * value)) :
  emergencies (Routes.db st) !! id = Some record →
  patch.*1 ⊆ Facts.lifecycleFields →
  learning_data (Routes.db st) `prefix_of` learning →
  Routes.dashboard st `prefix_of` events →
  Facts.undisturbed st
    (@Routes.Build_server _
       {| emergencies := <[id := mergeFields patch record]> (emergencies (Routes.db st));
          learning_data := learning;
          emergency_contacts := emergency_contacts (Routes.db st);
          sos_events := sos_events (Routes.db st) |}
       (Routes.mail st)
       events).
Proof.
  intros Hfound Hkeys Hlearning Hevents.
  repeat split; simpl; try reflexivity; try assumption.
  intros id'. destruct (decide (id' = id)) as [-> | Hne].
  - rewrite lookup_insert_eq, Hfound. constructor. by apply sameReport_merge.
  - rewrite lookup_insert_ne by congruence.
    destruct (emergencies (Routes.db st) !! id'); constructor. apply sameReport_refl.
Qed.

Lemma handle_undisturbed (id : string) (st : Routes.server) (r : Routes.request) :
  Facts.undisturbed st (Routes.handle id st r).
Proof.
  destruct r as [isoNow u body | isoNow u body]; simpl.
  - unfold Routes.cancel, Routes.cancelBody.
    destruct (getProp body "reason") as [reason|]; simpl; [| apply undisturbed_refl].
    destruct (getProp body "sensorSnapshot") as [snapshot|]; simpl;
      [| apply undisturbed_refl].
    destruct (emergencies (Routes.db st) !! id) as [record|] eqn:Hfound; simpl;
      [| apply undisturbed_refl].
    destruct (js_strict_ne_str (lookupField "userId" record) (Routes.uid u)); simpl;
      [apply undisturbed_refl |].
    destruct (validUpdate (Routes.cancelPatch isoNow reason)) eqn:Hvalid;
      [| rewrite (updateEmergency_refused _ _ _ Hvalid); apply undisturbed_refl].
    rewrite (updateEmergency_found _ _ _ _ Hvalid Hfound). simpl.
    destruct (truthy snapshot); simpl;
      [destruct (validAdd _); simpl |];
      (apply (undisturbed_update id (Routes.cancelPatch isoNow reason) record st);
       [exact Hfound | lifecycle_keys | | ]);
      first [reflexivity | apply prefix_app_r; reflexivity].
  - unfold Routes.resolve, Routes.resolveBody.
    destruct (getProp body "notes") as [notes|]; simpl; [| apply undisturbed_refl].
    destruct (validUpdate (Routes.resolvePatch isoNow u notes)) eqn:Hvalid;
      [| rewrite (updateEmergency_refused _ _ _ Hvalid); apply undisturbed_refl].
    destruct (emergencies (Routes.db st) !! id) as [record|] eqn:Hfound.
    + rewrite (updateEmergency_found _ _ _ _ Hvalid Hfound).
      apply (undisturbed_update id (Routes.resolvePatch isoNow u notes) record st);
        [exact Hfound | lifecycle_keys | reflexivity | apply prefix_app_r; reflexivity].
    + unfold Routes.updateEmergency. rewrite Hvalid, Hfound. apply undisturbed_refl.
Qed.

Lemma serve_undisturbed (requests : list (string * Routes.request)) (st : Routes.server) :
  Facts.undisturbed st (Facts.serve st requests).
Proof.
  revert st. induction requests as [|[id r] requests IH]; intros st; simpl.
  - apply undisturbed_refl.
  - eapply undisturbed_trans; [apply handle_undisturbed | apply IH].
Qed.

End Undisturbed.

(** X23. Whatever cancel and resolve requests arrive, from whichever callers,
    for whichever ids and with whichever bodies, accepted or refused: no
    emergency record is created or deleted; every record keeps all its
    fields but the seven lifecycle fields the two routes write, so its
    owner, readings, location, confidence and creation time stay as
    reported; the contacts and the tracking records are untouched; no mail
    is sent; and the learning data and the dashboard events only grow. *)
Theorem requests_keep_reports `{StringToNumber} `{Platform}
    (st : Routes.server) (requests : list (string * Routes.request)) :
  let st' := Facts.serve st requests in
  Routes.mail st' = Routes.mail st ∧
  emergency_contacts (Routes.db st') = emergency_contacts (Routes.db st) ∧
  sos_events (Routes.db st') = sos_events (Routes.db st) ∧
  learning_data (Routes.db st) `prefix_of` learning_data (Routes.db st') ∧
  Routes.dashboard st `prefix_of` Routes.dashboard st' ∧
  ∀ id,
    match emergencies (Routes.db st) !! id, emergencies (Routes.db st') !! id with
    | None, None => True
    | Some before, Some after =>
        ∀ k, k ∉ ["status"; "cancelledAt"; "cancelReason"; "resolved";
                  "resolvedAt"; "resolvedBy"; "resolutionNotes"] →
             lookupField k after = lookupField k before
    | _, _ => False
    end.
Proof.
  intros st'. destruct (serve_undisturbed requests st) as (Hm & Hc & Hs & Hl & Hd & Hr).
  repeat split; try assumption.
  intros id. specialize (Hr id). fold st' in Hr.
  destruct Hr as [before after Hsame|]; [exact Hsame | exact I].
Qed.

(** ** The learning route *)

Lemma scaled_pos (n : nat) (f x : Q) : 0 < f → 0 < x → 0 < Facts.scaled n f x.
Proof. intros Hf Hx. induction n as [|n IH]; simpl; [exact Hx | nra]. Qed.

Lemma scaled_shrinks (n k : nat) (f x : Q) :
  0 < f <= 1 → 0 < x → Facts.scaled (k + n) f x <= Facts.scaled n f x.
Proof.
  intros Hf Hx. induction k as [|k IH]; simpl; [lra |].
  pose proof (scaled_pos (k + n) f x ltac:(lra) Hx). nra.
Qed.

Section Learning.
Context `{Platform}.

Lemma learning_step (isoNow : string) (u : Routes.user) (body : value) (st : Users.store)
    (d : Users.userDoc) :
  getProp body "outcome" = Ok (VStr "false_positive") →
  Users.users st !! Routes.uid u = Some d →
  validAdd (Users.learningRecord isoNow (Routes.uid u) (getPropOpt body "sensorSnapshot")
              (VStr "false_positive") (getPropOpt body "emergencyId")) = true →
  (∀ t, validUpdate (Users.thresholdsPatch isoNow t) = true) →
  let st' := (Users.learning isoNow u (Routes.uid u) body st).1 in
  Users.users st' !! Routes.uid u
  = Some {| Users.profile := Users.profile d;
            Users.adaptiveThresholds :=
              Some {| Client.motionSensitivity :=
                        Client.motionSensitivity (Facts.thresholdsOf d) * 0.95;
                      Client.audioSensitivity :=
                        Client.audioSensitivity (Facts.thresholdsOf d) * 0.95;
                      Client.contextWeight := Client.contextWeight (Facts.thresholdsOf d) |};
            Users.lastLearningUpdate := Some isoNow |} ∧
  length (Users.learning_data st') = S (length (Users.learning_data st)).
Proof.
  intros Houtcome Hfound Hadd Hupdate. unfold Users.learning, Users.learningBody.
  rewrite String.eqb_refl. simpl.
  assert (Hbody : Server.notNullish body = true)
    by (destruct body; try reflexivity; discriminate Houtcome).
  rewrite !(getProp_notNullish body _ Hbody).
  rewrite (getProp_Ok_opt _ _ _ Houtcome). simpl.
  rewrite Hadd. simpl. rewrite Hfound. simpl. rewrite Hupdate. simpl.
  split; [by rewrite lookup_insert_eq |]. rewrite length_app. simpl. lia.
Qed.

End Learning.

(** X24. The learning route of the server scales the stored motion and
    audio sensitivities by 0.95 on every false positive and never clamps
    them, unlike the detector of the client: when the store accepts the
    writes, after [n] such requests they are the starting values times 0.95
    to the power [n], the context weight and the profile are as before, one
    learning record was added per request, and from the default thresholds
    the two sensitivities are below the client's floor of 0.3 from the
    24th request on. A request whose body has no [sensorSnapshot] or no
    [emergencyId], as the app sends it, is refused by the store: it is
    answered 500 and changes nothing. *)
Theorem server_learning_has_no_floor `{Platform} (n : nat) (isoNow : string)
    (u : Routes.user) (body : value) (st : Users.store) (d : Users.userDoc) :
  getProp body "outcome" = Ok (VStr "false_positive") →
  Users.users st !! Routes.uid u = Some d →
  let added :=
    Users.learningRecord isoNow (Routes.uid u) (getPropOpt body "sensorSnapshot")
      (VStr "false_positive") (getPropOpt body "emergencyId") in
  (validAdd added = true →
   (∀ t, validUpdate (Users.thresholdsPatch isoNow t) = true) →
   let st' := Users.repeated n isoNow u body st in
   ∃ d', Users.users st' !! Routes.uid u = Some d' ∧
         Users.profile d' = Users.profile d ∧
         Client.motionSensitivity (Facts.thresholdsOf d')
         = Facts.scaled n 0.95 (Client.motionSensitivity (Facts.thresholdsOf d)) ∧
         Client.audioSensitivity (Facts.thresholdsOf d')
         = Facts.scaled n 0.95 (Client.audioSensitivity (Facts.thresholdsOf d)) ∧
         Client.contextWeight (Facts.thresholdsOf d')
         = Client.contextWeight (Facts.thresholdsOf d) ∧
         length (Users.learning_data st') = (length (Users.learning_data st) + n)%nat ∧
         (Users.adaptiveThresholds d = None → (24 <= n)%nat →
          0 < Client.motionSensitivity (Facts.thresholdsOf d') < 0.3 ∧
          0 < Client.audioSensitivity (Facts.thresholdsOf d') < 0.3)) ∧
  (defined (getPropOpt body "sensorSnapshot") && defined (getPropOpt body "emergencyId")
   = false →
   validAdd added = false ∧
   Users.learning isoNow u (Routes.uid u) body st
   = (st, Routes.Json 500 (VObj [("error", VStr "Failed to store learning data")]))).
Proof.
  intros Houtcome Hfound added. split.
  - intros Hadd Hupdate st'.
    assert (Hrun : ∃ d', Users.users st' !! Routes.uid u = Some d' ∧
              Users.profile d' = Users.profile d ∧
              Client.motionSensitivity (Facts.thresholdsOf d')
              = Facts.scaled n 0.95 (Client.motionSensitivity (Facts.thresholdsOf d)) ∧
              Client.audioSensitivity (Facts.thresholdsOf d')
              = Facts.scaled n 0.95 (Client.audioSensitivity (Facts.thresholdsOf d)) ∧
              Client.contextWeight (Facts.thresholdsOf d')
              = Client.contextWeight (Facts.thresholdsOf d) ∧
              length (Users.learning_data st')
              = (length (Users.learning_data st) + n)%nat).
    { subst st'. induction n as [|n IH]; simpl.
      - exists d. repeat split; [exact Hfound | lia].
      - destruct IH as (d1 & Hd1 & Hprofile & Hmotion & Haudio & Hcontext & Hlength).
        destruct (learning_step isoNow u body _ d1 Houtcome Hd1 Hadd Hupdate)
          as [Hnext Hgrown].
        cbv zeta in Hnext, Hgrown. eexists. split; [exact Hnext |].
        unfold Facts.thresholdsOf at 1 2 3. simpl.
        rewrite Hmotion, Haudio, Hcontext, Hgrown, Hlength.
        repeat split; [exact Hprofile | lia]. }
    destruct Hrun as (d' & Hd' & Hprofile & Hmotion & Haudio & Hcontext & Hlength).
    exists d'. do 6 (split; [assumption |]).
    intros Hnone Hmany.
    assert (Hdefault : Facts.thresholdsOf d = Users.defaultThresholds)
      by (unfold Facts.thresholdsOf; by rewrite Hnone).
    rewrite Hdefault in Hmotion, Haudio. simpl in Hmotion, Haudio.
    rewrite Hmotion, Haudio.
    assert (Hlow : 0 < Facts.scaled n 0.95 1.0 < 0.3).
    { split; [apply scaled_pos; lra |].
      replace n with ((n - 24) + 24)%nat by lia.
      eapply Qle_lt_trans; [apply scaled_shrinks; lra |].
      vm_compute. reflexivity. }
    split; exact Hlow.
  - intros Hundefined.
    assert (Hrefused : validAdd added = false).
    { apply undefined_refused_add. subst added.
      unfold definedDoc, Users.learningRecord. simpl.
      destruct (defined (getPropOpt body "sensorSnapshot")); [| reflexivity].
      simpl in Hundefined. by rewrite Hundefined. }
    split; [exact Hrefused |].
    unfold Users.learning, Users.learningBody. rewrite String.eqb_refl. simpl.
    assert (Hbody : Server.notNullish body = true)
      by (destruct body; try reflexivity; discriminate Houtcome).
    rewrite !(getProp_notNullish body _ Hbody).
    rewrite (getProp_Ok_opt _ _ _ Houtcome). simpl.
    fold added. by rewrite Hrefused.
Qed.

(** Alice's thresholds after 24 false positives. *)
Lemma server_learning_has_no_floor_witness :
  ∃ d', Users.users (Users.repeated (H := Examples.flaky) 24 "2024-05-01T12:00:00.000Z"
                       Examples.alice Samples.falsePositive Samples.profiles) !! "alice"
        = Some d' ∧
        Client.motionSensitivity (Facts.thresholdsOf d') < 0.3.
Proof.
  destruct (server_learning_has_no_floor (H := Examples.flaky) 24
              "2024-05-01T12:00:00.000Z" Examples.alice
              Samples.falsePositive Samples.profiles
              {| Users.profile := [("name", VStr "Alice")];
                 Users.adaptiveThresholds := None;
                 Users.lastLearningUpdate := None |})
    as [Hscaled _]; [reflexivity | reflexivity |].
  destruct Hscaled as (d' & Hd' & _ & _ & _ & _ & _ & Hlow);
    [reflexivity | intros t; reflexivity |].
  exists d'. split; [exact Hd' |]. apply Hlow; [reflexivity | lia].
Defined.

(** X25. A learning request touches nothing but the caller's own data: the
    documents of the other users are as before; a caller without a user
    document gets none; the caller's profile and context weight are as
    before; no learning record is removed or changed; and a request for
    another user's id changes nothing at all. *)
Theorem learning_touches_only_caller `{Platform} (isoNow : string) (u : Routes.user)
    (requestedUserId : string) (body : value) (st : Users.store) :
  let st' := (Users.learning isoNow u requestedUserId body st).1 in
  (∀ v, v ≠ Routes.uid u → Users.users st' !! v = Users.users st !! v) ∧
  match Users.users st !! Routes.uid u, Users.users st' !! Routes.uid u with
  | None, None => True
  | Some d, Some d' =>
      Users.profile d' = Users.profile d ∧
      Client.contextWeight (Facts.thresholdsOf d')
      = Client.contextWeight (Facts.thresholdsOf d)
  | _, _ => False
  end ∧
  Users.learning_data st `prefix_of` Users.learning_data st' ∧
  (requestedUserId ≠ Routes.uid u → st' = st).
Proof.
  intros st'. subst st'. unfold Users.learning.
  destruct (String.eqb requestedUserId (Routes.uid u)) eqn:Hsame; simpl.
  - apply String.eqb_eq in Hsame. subst requestedUserId.
    destruct (Users.learningBody isoNow (Routes.uid u) body st) as [[st1 resp]|e] eqn:Hrun;
      simpl;
      [| split; [done | split; [by destruct (Users.users st !! Routes.uid u) |
                                split; [reflexivity | done]]]].
    unfold Users.learningBody in Hrun.
    apply bind_Ok in Hrun. destruct Hrun as (snapshot & _ & Hrun).
    apply bind_Ok in Hrun. destruct Hrun as (outcome & _ & Hrun).
    apply bind_Ok in Hrun. destruct Hrun as (emergencyId & _ & Hrun).
    destruct (validAdd _); simpl in Hrun; [| discriminate Hrun].
    destruct (Users.users st !! Routes.uid u) as [d|] eqn:Hfound.
    + destruct (validUpdate _); simpl in Hrun; injection Hrun as <- _; simpl.
      * split; [| split; [| split]].
        -- intros v Hv. by rewrite lookup_insert_ne.
        -- rewrite lookup_insert_eq. split; [reflexivity |].
           unfold Facts.thresholdsOf at 1. simpl. unfold Users.adjust.
           by repeat destruct (js_strict_eq_str _ _).
        -- apply prefix_app_r. reflexivity.
        -- congruence.
      * split; [done |]. rewrite Hfound.
        split; [done |]. split; [apply prefix_app_r; reflexivity | congruence].
    + injection Hrun as <- _. simpl. split; [done |]. rewrite Hfound.
      split; [done |]. split; [apply prefix_app_r; reflexivity | congruence].
  - split; [done |]. split; [| split; [reflexivity | done]].
    by destruct (Users.users st !! Routes.uid u).
Qed.
